(** * WorldSocket: framing, handshake, keepalive and dispatch

    A shallow embedding of [src/game/Server/WorldSocket.cpp] (CMaNGOS Cata
    with Eluna) and the properties of its client-facing protocol layer.

    Conventions.
    - Fixed-width unsigned integers are [Z] values; every conversion the C++
      performs is written out with [uintN].
    - A byte is a [Z] in [0, 256); [std::string] and raw buffers are lists of
      bytes.
    - Member functions take the socket and return the new socket next to
      their result; a [ByteBufferException] is the [Throw] outcome.
    - Everything the socket does to the outside (log lines, bytes written,
      database statements, registry calls, cipher calls) is appended, in
      program order, to the [effects] trace of the system state. *)

From Stdlib Require Import String Ascii ZArith List Bool Lia.
Import ListNotations.
Open Scope Z_scope.

Set Implicit Arguments.

(** ** Machine integers and bytes *)

Definition uint8 (x : Z) : Z := x mod 2 ^ 8.
Definition uint16 (x : Z) : Z := x mod 2 ^ 16.
Definition uint32 (x : Z) : Z := x mod 2 ^ 32.

Definition bytes := list Z.

(** [std::string::c_str] seen through a C API: the bytes before the first
    NUL. *)
Fixpoint c_str (s : bytes) : bytes :=
  match s with
  | [] => []
  | b :: r => if b =? 0 then [] else b :: c_str r
  end.

Fixpoint bytes_eqb (a b : bytes) : bool :=
  match a, b with
  | [], [] => true
  | x :: a', y :: b' => (x =? y) && bytes_eqb a' b'
  | _, _ => false
  end.

(** [strcmp (a, b)] is nonzero. *)
Definition strcmp_ne (a b : bytes) : bool := negb (bytes_eqb (c_str a) (c_str b)).

(** [memcmp (a, b, n)] is nonzero. *)
Definition memcmp_ne (a b : bytes) (n : nat) : bool :=
  negb (bytes_eqb (firstn n a) (firstn n b)).

(** Little-endian layout of an [n]-byte integer, as [ByteBuffer] stores it on
    the little-endian hosts the server is built for. *)
Fixpoint le_bytes (n : nat) (x : Z) : bytes :=
  match n with
  | O => []
  | S k => (x mod 256) :: le_bytes k (x / 256)
  end.

Fixpoint le_value (bs : bytes) : Z :=
  match bs with
  | [] => 0
  | b :: r => b + 256 * le_value r
  end.

Definition bytes_of_string (s : string) : bytes :=
  map (fun c => Z.of_nat (nat_of_ascii c)) (list_ascii_of_string s).

(** ** ServerPktHeader *)

Module ServerPktHeader.

Definition isLargePacket (size : Z) : bool := 0x7FFF <? size.

  (** The constructor: [size] is the length of the payload plus the length of
      the opcode.  [header] holds the slots the constructor writes, in order;
      the fifth slot of the C array stays unwritten for a small packet and is
      never read. *)
Definition header (size cmd : Z) : bytes :=
    (if isLargePacket size
     then [uint8 (Z.lor 0x80 (Z.land 0xFF (Z.shiftr size 16)))]
     else [])
    ++ [uint8 (Z.land 0xFF (Z.shiftr size 8));
        uint8 (Z.land 0xFF size);
        uint8 (Z.land 0xFF cmd);
        uint8 (Z.land 0xFF (Z.shiftr cmd 8))].

Definition getHeaderLength (size : Z) : Z :=
    uint8 (2 + (if isLargePacket size then 3 else 2)).

End ServerPktHeader.

(** ** ByteBuffer and WorldPacket *)

(** Modelled from the spec: [ByteBuffer] and [WorldPacket] are declared in
    Util/ByteBuffer.h and Server/WorldPacket.h, which are not part of the
    sources at hand.  The model keeps what WorldSocket.cpp relies on: a byte
    store with a read cursor, reads that raise [ByteBufferException] past the
    end, and a bit writer whose pending bits are flushed by the next byte
    append. *)
Record ByteBuffer := mkByteBuffer {
  _rpos : nat;
  _bitpos : Z;
  _curbitval : Z;
  _storage : bytes
}.

Record WorldPacket := mkWorldPacket {
  m_opcode : Z;
  buf : ByteBuffer
}.

Definition empty_buffer : ByteBuffer := mkByteBuffer 0 8 0 [].

Definition contents (p : WorldPacket) : bytes := _storage (buf p).
Definition GetOpcode (p : WorldPacket) : Z := m_opcode p.
Definition pkt_size (p : WorldPacket) : Z := Z.of_nat (length (contents p)).

Module BB.

Definition append_raw (bs : bytes) (b : ByteBuffer) : ByteBuffer :=
    mkByteBuffer (_rpos b) (_bitpos b) (_curbitval b) (_storage b ++ bs).

Definition FlushBits (b : ByteBuffer) : ByteBuffer :=
    if _bitpos b =? 8 then b
    else mkByteBuffer (_rpos b) 8 0 (_storage b ++ [uint8 (_curbitval b)]).

Definition WriteBit (bit : bool) (b : ByteBuffer) : ByteBuffer :=
    let pos := _bitpos b - 1 in
    let cur := if bit then Z.lor (_curbitval b) (Z.shiftl 1 pos) else _curbitval b in
    if pos =? 0
    then mkByteBuffer (_rpos b) 8 0 (_storage b ++ [uint8 cur])
    else mkByteBuffer (_rpos b) pos cur (_storage b).

  (** [operator<<] for an [n]-byte integer. *)
Definition append_int (n : nat) (x : Z) (b : ByteBuffer) : ByteBuffer :=
    append_raw (le_bytes n x) (FlushBits b).

  (** Readers: [None] is a thrown [ByteBufferException]. *)
Definition Reader (A : Type) : Type := ByteBuffer -> option (A * ByteBuffer).

Definition ret {A} (a : A) : Reader A := fun b => Some (a, b).

Definition bind {A B} (m : Reader A) (k : A -> Reader B) : Reader B :=
    fun b => match m b with
             | Some (a, b') => k a b'
             | None => None
             end.

Definition read_bytes (n : nat) : Reader bytes :=
    fun b =>
      if (_rpos b + n <=? length (_storage b))%nat
      then Some (firstn n (skipn (_rpos b) (_storage b)),
                 mkByteBuffer (_rpos b + n) (_bitpos b) (_curbitval b) (_storage b))
      else None.

Definition read_skip (n : nat) : Reader unit :=
    bind (read_bytes n) (fun _ => ret tt).

Definition read_int (n : nat) : Reader Z :=
    bind (read_bytes n) (fun bs => ret (le_value bs)).

  (** [ReadString (len)]: [len] bytes copied into a zeroed C buffer and turned
      back into a [std::string]. *)
Definition ReadString (len : Z) : Reader bytes :=
    if len =? 0 then ret []
    else bind (read_bytes (Z.to_nat len)) (fun bs => ret (c_str bs)).

  (** [operator>>] for a [std::string]: up to the next NUL or the end. *)
Definition read_cstring : Reader bytes :=
    fun b =>
      let rest := skipn (_rpos b) (_storage b) in
      let s := c_str rest in
      let used := Nat.min (S (length s)) (length rest) in
      Some (s, mkByteBuffer (_rpos b + used) (_bitpos b) (_curbitval b) (_storage b)).

End BB.

Notation "x <- m ;; k" := (BB.bind m (fun x => k))
  (at level 61, m at next level, right associativity).
Notation "'skip' m ;; k" := (BB.bind m (fun _ => k))
  (at level 61, m at next level, right associativity).

(** [WorldPacket (opcode, res)] and [Initialize (opcode, res)]: an empty body. *)
Definition new_packet (opcode : Z) : WorldPacket := mkWorldPacket opcode empty_buffer.

Definition pkt_WriteBit (bit : bool) (p : WorldPacket) : WorldPacket :=
  mkWorldPacket (m_opcode p) (BB.WriteBit bit (buf p)).

Definition pkt_append_int (n : nat) (x : Z) (p : WorldPacket) : WorldPacket :=
  mkWorldPacket (m_opcode p) (BB.append_int n x (buf p)).

Definition pkt_append_raw (bs : bytes) (p : WorldPacket) : WorldPacket :=
  mkWorldPacket (m_opcode p) (BB.append_raw bs (buf p)).

(** ** Declarations the translation unit takes from elsewhere *)

(** [<errno.h>] on Linux. *)
Definition EBADMSG : Z := 74.
Definition EINVAL : Z := 22.

(** [std::chrono::system_clock] of libstdc++: a signed 64-bit count of
    nanoseconds. *)
Definition ticks_per_second : Z := 1000000000.
Definition time_point_min : Z := - 2 ^ 63.

(** [duration_cast<seconds>] truncates toward zero. *)
Definition duration_cast_seconds (d : Z) : Z := Z.quot d ticks_per_second.

(** The opener that is matched by its numeric value in the source. *)
Definition MSG_WOW_CONNECTION_RAW : Z := 0x4C524F57.

Definition BigNumber := Z.

(** The session object.  Only what the socket sets or reads is kept. *)
Record WorldSession := mkWorldSession {
  _accountId : Z;
  _security : Z;
  m_expansion : Z;
  m_muteTime : Z;
  m_sessionDbcLocale : Z;
  m_latency : Z;
  m_clientTimeDelay : Z;
  _recvQueue : list WorldPacket
}.

(** Enumerators, opcode numbers and collaborators that live in headers and
    libraries outside this translation unit (Opcodes.h, Common.h, AuthCodes,
    AuthCrypt, BigNumber, Sha1Hash, WorldSession, Eluna).  They are taken as
    parameters. *)
Class Platform := {
  CMSG_AUTH_SESSION : Z;
  CMSG_PING : Z;
  CMSG_KEEP_ALIVE : Z;
  SMSG_AUTH_CHALLENGE : Z;
  SMSG_AUTH_RESPONSE : Z;
  SMSG_PONG : Z;
  MSG_NULL_ACTION : Z;
  AUTH_FAILED : Z;
  AUTH_UNAVAILABLE : Z;
  AUTH_VERSION_MISMATCH : Z;
  AUTH_UNKNOWN_ACCOUNT : Z;
  AUTH_BANNED : Z;
  SEC_PLAYER : Z;
  SEC_ADMINISTRATOR : Z;
  LOCALE_enUS : Z;
  MAX_LOCALE : Z;
  LOGIN_TYPE_MANGOSD : Z;
  AuthCrypt : Type;
  DecryptRecv : AuthCrypt -> bytes -> AuthCrypt * bytes;
  EncryptSend : AuthCrypt -> bytes -> AuthCrypt * bytes;
  CryptInit : AuthCrypt -> BigNumber -> AuthCrypt;
  SetHexStr : bytes -> BigNumber;
  AsHexStr : BigNumber -> bytes;
  AsByteArray : BigNumber -> bytes;
  Sha1 : bytes -> bytes;
  LoadGlobalAccountData : WorldSession -> WorldSession;
  LoadTutorialsData : WorldSession -> WorldSession;
  ReadAddonsInfo : WorldSession -> bytes -> option WorldSession;
  BUILD_ELUNA : bool;
  OnPacketReceive : option WorldSession -> WorldPacket -> bool
}.

(** One row of [SELECT id, gmlevel, sessionkey, lockedIp, locked, v, s,
    expansion, mutetime, locale FROM account], column by column. *)
Record AccountRow := mkAccountRow {
  f_id : Z;
  f_gmlevel : Z;
  f_sessionkey : bytes;
  f_lockedIp : bytes;
  f_locked : Z;
  f_v : bytes;
  f_s : bytes;
  f_expansion : Z;
  f_mutetime : Z;
  f_locale : Z
}.

(** What the world singleton and the login database answer during one call.
    [db_account] is the account query on the escaped name, [db_banned] the
    ban query on account id and remote address. *)
Record Env := mkEnv {
  CONFIG_UINT32_EXPANSION : Z;
  CONFIG_UINT32_MAX_OVERSPEED_PINGS : Z;
  CONFIG_BOOL_KICK_PLAYER_ON_BAD_PACKET : bool;
  GetPlayerSecurityLimit : Z;
  HasLogLevelDebug : bool;
  IsAcceptableClientBuild : Z -> bool;
  escape_string : bytes -> bytes;
  db_account : bytes -> option AccountRow;
  db_banned : Z -> bytes -> bool
}.

(** The inbound header, [#pragma pack(1)]: a 16-bit size and a 32-bit cmd.

    Modelled from the spec: the struct is declared in Server/WorldSocket.h,
    which is not part of the sources at hand; the spec gives it six bytes with
    the cmd field occupying four of them. *)
Record ClientPktHeader := mkClientPktHeader {
  size : Z;
  cmd : Z
}.

Definition sizeof_ClientPktHeader : Z := 6.

(** The six bytes as [Read] copied them into the struct, after
    [EndianConvertReverse (header.size)] and [EndianConvert (header.cmd)]: the
    size travels big-endian, the cmd little-endian. *)
Definition header_of_bytes (bs : bytes) : ClientPktHeader :=
  mkClientPktHeader (le_value (rev (firstn 2 bs))) (le_value (firstn 4 (skipn 2 bs))).

Inductive LogLine :=
| Debug_LargePacket (sz c : Z)
| PacketDump (incoming : bool) (opcode : Z) (data : bytes)
| Err_MalformedSize (sz c : Z)
| Err_AuthSessionAgain
| Debug_KeepAlive (sz : Z)
| Err_NotAuthed (opcode : Z)
| Err_ByteBufferException (opcode : Z) (account : Z)
| Debug_DumpingPacket (data : bytes)
| Detail_Disconnecting (account : Z)
| Debug_AuthSession (build : Z) (account : bytes) (seed : Z)
| Err_VersionMismatch
| Err_UnknownAccount
| Debug_sv_check (s v : bytes)
| Basic_AccountIpDiffers
| Err_AccountBanned
| Basic_SecurityLevelNotEnough
| Err_AuthentificationFailed
| Debug_Authenticated (account address : bytes)
| Err_OverspeedKick (address : bytes)
| Err_PingNotAuthed (address : bytes).

Inductive Effect :=
| Log (l : LogLine)
| Write (bs : bytes)
| ForceFlushOut
| Call_DecryptRecv (bs : bytes)
| Call_EncryptSend (bs : bytes)
| Call_CryptInit (K : BigNumber)
| Db_InsertLogon (id : Z) (address : bytes) (source : Z)
| World_AddSession (s : WorldSession).

Inductive Outcome :=
| Return (b : bool)
| Throw.

(** The fields of the credentials message, in the order the record is built
    after parsing. *)
Record AuthSessionFields := mkAuthSessionFields {
  digest : bytes;
  clientBuild : Z;
  clientSeed : Z;
  addonsData : bytes;
  accountName : bytes
}.

Section WithPlatform.

Context {P : Platform}.

(** The socket, the [errno] of its thread and the trace of what it did.

    Modelled from the spec: the read buffer of the [Socket] base class
    ([Read], [ReadSkip], [ReadLengthRemaining], [InPeak], [IsClosed]) lives in
    the network library, which is not part of the sources at hand.  The buffer
    is the bytes received so far and a read position; the write position is
    the length of the buffer. *)
Record WorldSocket := mkWorldSocket {
  m_closed : bool;
  m_inBuffer : bytes;
  m_readPosition : Z;
  m_address : bytes;
  m_lastPingTime : Z;
  m_overSpeedPings : Z;
  m_useExistingHeader : bool;
  m_existingHeader : ClientPktHeader;
  m_session : option WorldSession;
  m_seed : Z;
  m_s : BigNumber;
  m_crypt : AuthCrypt;
  errno : Z;
  effects : list Effect
}.

Definition set_readPosition (v : Z) (s : WorldSocket) : WorldSocket :=
  mkWorldSocket (m_closed s) (m_inBuffer s) v (m_address s) (m_lastPingTime s)
    (m_overSpeedPings s) (m_useExistingHeader s) (m_existingHeader s) (m_session s)
    (m_seed s) (m_s s) (m_crypt s) (errno s) (effects s).

Definition set_inBuffer (v : bytes) (s : WorldSocket) : WorldSocket :=
  mkWorldSocket (m_closed s) v (m_readPosition s) (m_address s) (m_lastPingTime s)
    (m_overSpeedPings s) (m_useExistingHeader s) (m_existingHeader s) (m_session s)
    (m_seed s) (m_s s) (m_crypt s) (errno s) (effects s).

Definition set_lastPingTime (v : Z) (s : WorldSocket) : WorldSocket :=
  mkWorldSocket (m_closed s) (m_inBuffer s) (m_readPosition s) (m_address s) v
    (m_overSpeedPings s) (m_useExistingHeader s) (m_existingHeader s) (m_session s)
    (m_seed s) (m_s s) (m_crypt s) (errno s) (effects s).

Definition set_overSpeedPings (v : Z) (s : WorldSocket) : WorldSocket :=
  mkWorldSocket (m_closed s) (m_inBuffer s) (m_readPosition s) (m_address s)
    (m_lastPingTime s) v (m_useExistingHeader s) (m_existingHeader s) (m_session s)
    (m_seed s) (m_s s) (m_crypt s) (errno s) (effects s).

Definition set_useExistingHeader (v : bool) (s : WorldSocket) : WorldSocket :=
  mkWorldSocket (m_closed s) (m_inBuffer s) (m_readPosition s) (m_address s)
    (m_lastPingTime s) (m_overSpeedPings s) v (m_existingHeader s) (m_session s)
    (m_seed s) (m_s s) (m_crypt s) (errno s) (effects s).

Definition set_existingHeader (v : ClientPktHeader) (s : WorldSocket) : WorldSocket :=
  mkWorldSocket (m_closed s) (m_inBuffer s) (m_readPosition s) (m_address s)
    (m_lastPingTime s) (m_overSpeedPings s) (m_useExistingHeader s) v (m_session s)
    (m_seed s) (m_s s) (m_crypt s) (errno s) (effects s).

Definition set_session (v : option WorldSession) (s : WorldSocket) : WorldSocket :=
  mkWorldSocket (m_closed s) (m_inBuffer s) (m_readPosition s) (m_address s)
    (m_lastPingTime s) (m_overSpeedPings s) (m_useExistingHeader s) (m_existingHeader s) v
    (m_seed s) (m_s s) (m_crypt s) (errno s) (effects s).

Definition set_s (v : BigNumber) (s : WorldSocket) : WorldSocket :=
  mkWorldSocket (m_closed s) (m_inBuffer s) (m_readPosition s) (m_address s)
    (m_lastPingTime s) (m_overSpeedPings s) (m_useExistingHeader s) (m_existingHeader s)
    (m_session s) (m_seed s) v (m_crypt s) (errno s) (effects s).

Definition set_crypt (v : AuthCrypt) (s : WorldSocket) : WorldSocket :=
  mkWorldSocket (m_closed s) (m_inBuffer s) (m_readPosition s) (m_address s)
    (m_lastPingTime s) (m_overSpeedPings s) (m_useExistingHeader s) (m_existingHeader s)
    (m_session s) (m_seed s) (m_s s) v (errno s) (effects s).

Definition set_errno (v : Z) (s : WorldSocket) : WorldSocket :=
  mkWorldSocket (m_closed s) (m_inBuffer s) (m_readPosition s) (m_address s)
    (m_lastPingTime s) (m_overSpeedPings s) (m_useExistingHeader s) (m_existingHeader s)
    (m_session s) (m_seed s) (m_s s) (m_crypt s) v (effects s).

Definition emit (e : Effect) (s : WorldSocket) : WorldSocket :=
  mkWorldSocket (m_closed s) (m_inBuffer s) (m_readPosition s) (m_address s)
    (m_lastPingTime s) (m_overSpeedPings s) (m_useExistingHeader s) (m_existingHeader s)
    (m_session s) (m_seed s) (m_s s) (m_crypt s) (errno s) (effects s ++ [e]).

Definition log (l : LogLine) (s : WorldSocket) : WorldSocket := emit (Log l) s.

(** The constructor, on an open connection with an empty read buffer. *)
Definition WorldSocket_new (address : bytes) (seed : Z) (crypt : AuthCrypt) : WorldSocket :=
  mkWorldSocket false [] 0 address time_point_min 0 false (mkClientPktHeader 0 0) None
    (uint32 seed) 0 crypt 0 [].

(** *** The read buffer of the base class *)

Definition IsClosed (s : WorldSocket) : bool := m_closed s.
Definition GetRemoteAddress (s : WorldSocket) : bytes := m_address s.

Definition ReadLengthRemaining (s : WorldSocket) : Z :=
  Z.of_nat (length (m_inBuffer s)) - m_readPosition s.

Definition InPeak (s : WorldSocket) : bytes :=
  skipn (Z.to_nat (m_readPosition s)) (m_inBuffer s).

Definition ReadSkip (n : Z) (s : WorldSocket) : WorldSocket :=
  set_readPosition (m_readPosition s + n) s.

Definition Read (n : Z) (s : WorldSocket) : option (bytes * WorldSocket) :=
  if ReadLengthRemaining s <? n then None
  else Some (firstn (Z.to_nat n) (InPeak s), ReadSkip n s).

(** Modelled from the spec: the reader loop of the base class is not part of
    the sources at hand.  Before it waits for more bytes it moves the unread
    bytes to the front of the buffer; the bytes that arrive are written after
    them. *)
Definition receive (chunk : bytes) (s : WorldSocket) : WorldSocket :=
  set_readPosition 0 (set_inBuffer (InPeak s ++ chunk) s).

(** *** SendPacket *)

Definition SendPacket (pct : WorldPacket) (immediate : bool) (s : WorldSocket) : WorldSocket :=
  if IsClosed s then s
  else
    let s := log (PacketDump false (GetOpcode pct) (contents pct)) s in
    let sz := uint32 (pkt_size pct + 2) in
    let c := uint16 (GetOpcode pct) in
    let s := if ServerPktHeader.isLargePacket sz then log (Debug_LargePacket sz c) s else s in
    let hdr := firstn (Z.to_nat (ServerPktHeader.getHeaderLength sz))
                      (ServerPktHeader.header sz c) in
    let s := emit (Call_EncryptSend hdr) s in
    let '(crypt, enc) := EncryptSend (m_crypt s) hdr in
    let s := set_crypt crypt s in
    let s := emit (Write (enc ++ contents pct)) s in
    if immediate then emit ForceFlushOut s else s.

(** *** HandleWowConnection *)

Definition HandleWowConnection (recvPacket : WorldPacket) (s : WorldSocket)
  : Outcome * WorldSocket :=
  match BB.read_cstring (buf recvPacket) with
  | None => (Throw, s)
  | Some (ClientToServerMsg, _) =>
    let packet := new_packet SMSG_AUTH_CHALLENGE in
    let packet := fold_left (fun p (_ : nat) => pkt_append_int 4 (uint32 0) p) (seq 0 8) packet in
    let packet := pkt_append_int 4 (m_seed s) packet in
    let packet := pkt_append_int 1 (uint8 1) packet in
    let s := SendPacket packet false s in
    (Return true, s)
  end.

(** *** HandleAuthSession *)

(** The reads at the head of the function, in source order.  The digest is
    scattered over the message; [d_i] is [digest[i]]. *)
Definition read_auth_session : BB.Reader AuthSessionFields :=
  skip BB.read_skip 4 ;;
  skip BB.read_skip 4 ;;
  skip BB.read_skip 1 ;;
  d10 <- BB.read_int 1 ;;
  d18 <- BB.read_int 1 ;;
  d12 <- BB.read_int 1 ;;
  d5 <- BB.read_int 1 ;;
  skip BB.read_skip 8 ;;
  d15 <- BB.read_int 1 ;;
  d9 <- BB.read_int 1 ;;
  d19 <- BB.read_int 1 ;;
  d4 <- BB.read_int 1 ;;
  d7 <- BB.read_int 1 ;;
  d16 <- BB.read_int 1 ;;
  d3 <- BB.read_int 1 ;;
  build <- BB.read_int 2 ;;
  d8 <- BB.read_int 1 ;;
  skip BB.read_skip 4 ;;
  skip BB.read_skip 1 ;;
  d17 <- BB.read_int 1 ;;
  d6 <- BB.read_int 1 ;;
  d0 <- BB.read_int 1 ;;
  d1 <- BB.read_int 1 ;;
  d11 <- BB.read_int 1 ;;
  seed <- BB.read_int 4 ;;
  d2 <- BB.read_int 1 ;;
  skip BB.read_skip 4 ;;
  d14 <- BB.read_int 1 ;;
  d13 <- BB.read_int 1 ;;
  m_addonSize <- BB.read_int 4 ;;
  addons <- BB.read_bytes (Z.to_nat m_addonSize) ;;
  nameLenHigh <- BB.read_int 1 ;;
  nameLenLow <- BB.read_int 1 ;;
  let accNameLen := uint8 (Z.lor (Z.shiftl nameLenHigh 5) (Z.shiftr nameLenLow 3)) in
  name <- BB.ReadString accNameLen ;;
  BB.ret (mkAuthSessionFields
            [d0; d1; d2; d3; d4; d5; d6; d7; d8; d9;
             d10; d11; d12; d13; d14; d15; d16; d17; d18; d19]
            build seed addons name).

(** [Field::GetUInt8] and friends on a numeric column. *)
Definition GetUInt8 (x : Z) : Z := uint8 x.
Definition GetUInt16 (x : Z) : Z := uint16 x.
Definition GetUInt32 (x : Z) : Z := uint32 x.
Definition GetUInt64 (x : Z) : Z := x mod 2 ^ 64.

(** Conversion to the signed 64-bit [time_t]. *)
Definition to_time_t (x : Z) : Z :=
  let u := x mod 2 ^ 64 in if u <? 2 ^ 63 then u else u - 2 ^ 64.

(** The digest the server recomputes: account name, a zero word, the client
    seed, the server seed and the session key. *)
Definition auth_digest (name : bytes) (cseed seed : Z) (K : BigNumber) : bytes :=
  Sha1 (name ++ le_bytes 4 0 ++ le_bytes 4 cseed ++ le_bytes 4 seed ++ AsByteArray K).

(** [new WorldSession (id, this, sec, expansion, mute_time, locale)]. *)
Definition WorldSession_new (id sec expansion mutetime locale : Z) : WorldSession :=
  mkWorldSession id sec expansion mutetime locale 0 0 [].

(** The part of the function after the reads.  [packet] is the function's
    local response packet, default-constructed and re-initialised on the paths
    that use it. *)
Definition HandleAuthSession_checks (env : Env) (m : AuthSessionFields) (s : WorldSocket)
  : Outcome * WorldSocket :=
  let packet := new_packet MSG_NULL_ACTION in
  let s := log (Debug_AuthSession (clientBuild m) (accountName m) (clientSeed m)) s in
  if negb (IsAcceptableClientBuild env (clientBuild m)) then
    let packet := new_packet SMSG_AUTH_RESPONSE in
    let packet := pkt_WriteBit false packet in
    let packet := pkt_WriteBit false packet in
    let packet := pkt_append_int 1 (uint8 AUTH_VERSION_MISMATCH) packet in
    let s := SendPacket packet false s in
    let s := log Err_VersionMismatch s in
    (Return false, s)
  else
  let safe_account := escape_string env (accountName m) in
  match db_account env (c_str safe_account) with
  | None =>
    let packet := new_packet SMSG_AUTH_RESPONSE in
    let packet := pkt_WriteBit false packet in
    let packet := pkt_WriteBit false packet in
    let packet := pkt_append_int 1 (uint8 AUTH_UNKNOWN_ACCOUNT) packet in
    let s := SendPacket packet false s in
    let s := log Err_UnknownAccount s in
    (Return false, s)
  | Some fields =>
    let expansion :=
      if GetUInt8 (f_expansion fields) <? CONFIG_UINT32_EXPANSION env
      then GetUInt8 (f_expansion fields)
      else CONFIG_UINT32_EXPANSION env in
    let v := SetHexStr (f_v fields) in
    let s_ := SetHexStr (f_s fields) in
    let s := set_s s_ s in
    let s := log (Debug_sv_check (AsHexStr s_) (AsHexStr v)) s in
    if (GetUInt8 (f_locked fields) =? 1)
       && strcmp_ne (f_lockedIp fields) (GetRemoteAddress s) then
      let packet := new_packet SMSG_AUTH_RESPONSE in
      let packet := pkt_WriteBit false packet in
      let packet := pkt_WriteBit false packet in
      let packet := pkt_append_int 1 (uint8 AUTH_FAILED) packet in
      let s := SendPacket packet false s in
      let s := log Basic_AccountIpDiffers s in
      (Return false, s)
    else
    let id := GetUInt32 (f_id fields) in
    let security := GetUInt16 (f_gmlevel fields) in
    let security := if SEC_ADMINISTRATOR <? security then uint16 SEC_ADMINISTRATOR else security in
    let K := SetHexStr (f_sessionkey fields) in
    let mutetime := to_time_t (GetUInt64 (f_mutetime fields)) in
    let tempLoc := uint8 (GetUInt8 (f_locale fields)) in
    let locale := if uint8 MAX_LOCALE <=? tempLoc then LOCALE_enUS else tempLoc in
    if db_banned env id (c_str (GetRemoteAddress s)) then
      let packet := new_packet SMSG_AUTH_RESPONSE in
      let packet := pkt_WriteBit false packet in
      let packet := pkt_WriteBit false packet in
      let packet := pkt_append_int 1 (uint8 AUTH_BANNED) packet in
      let s := SendPacket packet false s in
      let s := log Err_AccountBanned s in
      (Return false, s)
    else
    let allowedAccountType := GetPlayerSecurityLimit env in
    if (SEC_PLAYER <? allowedAccountType) && (security <? allowedAccountType) then
      let Packet := new_packet SMSG_AUTH_RESPONSE in
      let packet := pkt_WriteBit false packet in
      let packet := pkt_WriteBit false packet in
      let Packet := pkt_append_int 1 (uint8 AUTH_UNAVAILABLE) Packet in
      let s := SendPacket packet false s in
      let s := log Basic_SecurityLevelNotEnough s in
      (Return false, s)
    else
    let sha := auth_digest (accountName m) (clientSeed m) (m_seed s) K in
    if memcmp_ne sha (digest m) 20 then
      let packet := new_packet SMSG_AUTH_RESPONSE in
      let packet := pkt_WriteBit false packet in
      let packet := pkt_WriteBit false packet in
      let packet := pkt_append_int 1 (uint8 AUTH_FAILED) packet in
      let s := SendPacket packet false s in
      let s := log Err_AuthentificationFailed s in
      (Return false, s)
    else
    let address := GetRemoteAddress s in
    let s := log (Debug_Authenticated (accountName m) address) s in
    let s := emit (Db_InsertLogon id (c_str address) LOGIN_TYPE_MANGOSD) s in
    let session := WorldSession_new id security expansion mutetime locale in
    let s := set_session (Some session) s in
    let s := emit (Call_CryptInit K) s in
    let s := set_crypt (CryptInit (m_crypt s) K) s in
    let session := LoadGlobalAccountData session in
    let s := set_session (Some session) s in
    let session := LoadTutorialsData session in
    let s := set_session (Some session) s in
    match ReadAddonsInfo session (addonsData m) with
    | None => (Throw, s)
    | Some session =>
      let s := set_session (Some session) s in
      let s := emit (World_AddSession session) s in
      (Return true, s)
    end
  end.

Definition HandleAuthSession (env : Env) (recvPacket : WorldPacket) (s : WorldSocket)
  : Outcome * WorldSocket :=
  match read_auth_session (buf recvPacket) with
  | None => (Throw, s)
  | Some (m, _) => HandleAuthSession_checks env m s
  end.

(** *** HandlePing *)

(** The block that keeps the ping time and the overspeed count.  [now] is what
    [std::chrono::system_clock::now ()] returns during the call; the flag
    tells whether the block left the function through its [return false]. *)
Definition count_ping (env : Env) (now : Z) (s : WorldSocket) : bool * WorldSocket :=
  if m_lastPingTime s =? time_point_min then
    (false, set_lastPingTime now s)
  else
    let seconds := duration_cast_seconds (now - m_lastPingTime s) in
    let s := set_lastPingTime now s in
    if seconds <? 27 then
      let s := set_overSpeedPings (uint32 (m_overSpeedPings s + 1)) s in
      let max_count := uint32 (CONFIG_UINT32_MAX_OVERSPEED_PINGS env) in
      if negb (max_count =? 0) && (max_count <? m_overSpeedPings s) then
        match m_session s with
        | Some session =>
          if _security session =? SEC_PLAYER
          then (true, log (Err_OverspeedKick (GetRemoteAddress s)) s)
          else (false, s)
        | None => (false, s)
        end
      else (false, s)
    else (false, set_overSpeedPings 0 s).

(** The block marked as critical section, and the pong. *)
Definition answer_ping (ping latency : Z) (s : WorldSocket) : Outcome * WorldSocket :=
  match m_session s with
  | Some session =>
    let session :=
      mkWorldSession (_accountId session) (_security session) (m_expansion session)
        (m_muteTime session) (m_sessionDbcLocale session) latency 0
        (_recvQueue session) in
    let s := set_session (Some session) s in
    let packet := new_packet SMSG_PONG in
    let packet := pkt_append_int 4 ping packet in
    let s := SendPacket packet true s in
    (Return true, s)
  | None =>
    let s := log (Err_PingNotAuthed (GetRemoteAddress s)) s in
    (Return false, s)
  end.

Definition HandlePing (env : Env) (now : Z) (recvPacket : WorldPacket) (s : WorldSocket)
  : Outcome * WorldSocket :=
  match (ping <- BB.read_int 4 ;; latency <- BB.read_int 4 ;; BB.ret (ping, latency))
          (buf recvPacket) with
  | None => (Throw, s)
  | Some ((ping, latency), _) =>
    let '(kicked, s) := count_ping env now s in
    if kicked then (Return false, s) else answer_ping ping latency s
  end.

(** *** ProcessIncomingData *)

(** The first [if]/[else]: the cached header, or six fresh bytes decrypted in
    place.  [None] is the failed [Read]. *)
Definition obtain_header (s : WorldSocket) : option (ClientPktHeader * WorldSocket) :=
  if m_useExistingHeader s then
    let s := set_useExistingHeader false s in
    let header := m_existingHeader s in
    Some (header, ReadSkip sizeof_ClientPktHeader s)
  else
    match Read sizeof_ClientPktHeader s with
    | None => None
    | Some (raw, s) =>
      let s := emit (Call_DecryptRecv raw) s in
      let '(crypt, plain) := DecryptRecv (m_crypt s) raw in
      let s := set_crypt crypt s in
      Some (header_of_bytes plain, s)
    end.

(** The size check, exactly as the condition is parsed: [&&] binds tighter
    than [||]. *)
Definition malformed_size (header : ClientPktHeader) : bool :=
  (size header <? 4)
  || ((0x2800 <? size header) && negb (cmd header =? MSG_WOW_CONNECTION_RAW)).

(** [m_session->QueuePacket (std::move (pct))]. *)
Definition QueuePacket (pct : WorldPacket) (session : WorldSession) : WorldSession :=
  mkWorldSession (_accountId session) (_security session) (m_expansion session)
    (m_muteTime session) (m_sessionDbcLocale session) (m_latency session)
    (m_clientTimeDelay session) (_recvQueue session ++ [pct]).

(** The [switch] on the opcode. *)
Definition dispatch (env : Env) (now : Z) (opcode : Z) (pct : WorldPacket) (s : WorldSocket)
  : Outcome * WorldSocket :=
  if opcode =? MSG_WOW_CONNECTION_RAW then HandleWowConnection pct s
  else if opcode =? CMSG_AUTH_SESSION then
    match m_session s with
    | Some _ => (Return false, log Err_AuthSessionAgain s)
    | None =>
      if BUILD_ELUNA && negb (OnPacketReceive (m_session s) pct) then (Return false, s)
      else HandleAuthSession env pct s
    end
  else if opcode =? CMSG_PING then HandlePing env now pct s
  else if opcode =? CMSG_KEEP_ALIVE then (Return true, log (Debug_KeepAlive (pkt_size pct)) s)
  else
    match m_session s with
    | None => (Return false, log (Err_NotAuthed (uint32 opcode)) s)
    | Some session => (Return true, set_session (Some (QueuePacket pct session)) s)
    end.

Definition account_for_log (s : WorldSocket) : Z :=
  match m_session s with
  | Some session => _accountId session
  | None => -1
  end.

(** The [catch (ByteBufferException&)] block and the [return true] after
    it. *)
Definition on_ByteBufferException (env : Env) (opcode : Z) (pct : WorldPacket)
  (s : WorldSocket) : bool * WorldSocket :=
  let s := log (Err_ByteBufferException opcode (account_for_log s)) s in
  let s := if HasLogLevelDebug env then log (Debug_DumpingPacket (contents pct)) s else s in
  if CONFIG_BOOL_KICK_PLAYER_ON_BAD_PACKET env
  then (false, log (Detail_Disconnecting (account_for_log s)) s)
  else (true, s).

(** What the framing half of the function ends in: one of its three early
    returns, or the packet it built and hands to the [switch]. *)
Inductive Framed :=
| BadHeaderRead (s : WorldSocket)
| MalformedSize (s : WorldSocket)
| NeedMoreData (s : WorldSocket)
| SocketClosed (s : WorldSocket)
| Decoded (opcode : Z) (pct : WorldPacket) (s : WorldSocket).

Definition frame (s : WorldSocket) : Framed :=
  match obtain_header s with
  | None => BadHeaderRead (set_errno EBADMSG s)
  | Some (header, s) =>
    if malformed_size header then
      MalformedSize (set_errno EINVAL (log (Err_MalformedSize (size header) (cmd header)) s))
    else
      let validBytesRemaining := uint16 (size header - 4) in
      if ReadLengthRemaining s <? validBytesRemaining then
        let s := set_useExistingHeader true s in
        let s := set_existingHeader header s in
        let s := ReadSkip (- sizeof_ClientPktHeader) s in
        NeedMoreData (set_errno EBADMSG s)
      else
        let opcode := cmd header in
        if IsClosed s then SocketClosed s
        else
          let pct := new_packet opcode in
          let '(pct, s) :=
            if negb (validBytesRemaining =? 0)
            then (pkt_append_raw (firstn (Z.to_nat validBytesRemaining) (InPeak s)) pct,
                  ReadSkip validBytesRemaining s)
            else (pct, s) in
          let s := if negb (opcode =? MSG_WOW_CONNECTION_RAW)
                   then log (PacketDump true (GetOpcode pct) (contents pct)) s
                   else s in
          Decoded opcode pct s
  end.

Definition ProcessIncomingData (env : Env) (now : Z) (s : WorldSocket) : bool * WorldSocket :=
  match frame s with
  | BadHeaderRead s => (false, s)
  | MalformedSize s => (false, s)
  | NeedMoreData s => (false, s)
  | SocketClosed s => (false, s)
  | Decoded opcode pct s =>
    match dispatch env now opcode pct s with
    | (Return b, s) => (b, s)
    | (Throw, s) => on_ByteBufferException env opcode pct s
    end
  end.

End WithPlatform.

Arguments WorldSocket : clear implicits.

(** ** Rejection reasons of the handshake *)

Inductive Rejection :=
| VersionMismatch
| UnknownAccount
| AddressLocked
| DigestMismatch
| AccountBanned
| ServerUnavailable.

Definition Rejection_eqb (a b : Rejection) : bool :=
  match a, b with
  | VersionMismatch, VersionMismatch
  | UnknownAccount, UnknownAccount
  | AddressLocked, AddressLocked
  | DigestMismatch, DigestMismatch
  | AccountBanned, AccountBanned
  | ServerUnavailable, ServerUnavailable => true
  | _, _ => false
  end.

(** The log line each rejection path writes before it returns. *)
Definition rejection_of_effect (e : Effect) : option Rejection :=
  match e with
  | Log Err_VersionMismatch => Some VersionMismatch
  | Log Err_UnknownAccount => Some UnknownAccount
  | Log Basic_AccountIpDiffers => Some AddressLocked
  | Log Err_AuthentificationFailed => Some DigestMismatch
  | Log Err_AccountBanned => Some AccountBanned
  | Log Basic_SecurityLevelNotEnough => Some ServerUnavailable
  | _ => None
  end.

Fixpoint first_rejection (es : list Effect) : option Rejection :=
  match es with
  | [] => None
  | e :: r => match rejection_of_effect e with
              | Some x => Some x
              | None => first_rejection r
              end
  end.

(** Bytes of the calls to [Socket::Write] in a trace. *)
Fixpoint written (es : list Effect) : list bytes :=
  match es with
  | [] => []
  | Write bs :: r => bs :: written r
  | _ :: r => written r
  end.

(** Outgoing packets of a trace, as [SendPacket] dumps them: opcode and
    body. *)
Fixpoint sent_packets (es : list Effect) : list (Z * bytes) :=
  match es with
  | [] => []
  | Log (PacketDump false op body) :: r => (op, body) :: sent_packets r
  | _ :: r => sent_packets r
  end.

Fixpoint decrypt_calls (es : list Effect) : nat :=
  match es with
  | [] => O
  | Call_DecryptRecv _ :: r => S (decrypt_calls r)
  | _ :: r => decrypt_calls r
  end.

(** Effects that belong to answering and logging: log lines and the two
    steps of [SendPacket]. *)
Definition response_or_log (e : Effect) : Prop :=
  match e with
  | Log _ | Write _ | Call_EncryptSend _ => True
  | _ => False
  end.

Section Handshake.

Context {P : Platform}.

Definition reason_code (r : Rejection) : Z :=
  match r with
  | VersionMismatch => AUTH_VERSION_MISMATCH
  | UnknownAccount => AUTH_UNKNOWN_ACCOUNT
  | AddressLocked => AUTH_FAILED
  | DigestMismatch => AUTH_FAILED
  | AccountBanned => AUTH_BANNED
  | ServerUnavailable => AUTH_UNAVAILABLE
  end.

(** The account row the handshake works on, if the account exists. *)
Definition fetched_row (env : Env) (m : AuthSessionFields) : option AccountRow :=
  db_account env (c_str (escape_string env (accountName m))).

Definition clamped_security (row : AccountRow) : Z :=
  if SEC_ADMINISTRATOR <? GetUInt16 (f_gmlevel row)
  then uint16 SEC_ADMINISTRATOR else GetUInt16 (f_gmlevel row).

(** [triggers env m s r]: the content of the credentials message [m], the
    stored data and the connection would trigger rejection [r], taken on its
    own. *)
Definition triggers (env : Env) (m : AuthSessionFields) (s : WorldSocket P) (r : Rejection)
  : bool :=
  match r with
  | VersionMismatch => negb (IsAcceptableClientBuild env (clientBuild m))
  | UnknownAccount =>
    match fetched_row env m with None => true | Some _ => false end
  | AddressLocked =>
    match fetched_row env m with
    | None => false
    | Some row => (GetUInt8 (f_locked row) =? 1)
                  && strcmp_ne (f_lockedIp row) (GetRemoteAddress s)
    end
  | DigestMismatch =>
    match fetched_row env m with
    | None => false
    | Some row =>
      memcmp_ne (auth_digest (accountName m) (clientSeed m) (m_seed s)
                             (SetHexStr (f_sessionkey row)))
                (digest m) 20
    end
  | AccountBanned =>
    match fetched_row env m with
    | None => false
    | Some row => db_banned env (GetUInt32 (f_id row)) (c_str (GetRemoteAddress s))
    end
  | ServerUnavailable =>
    match fetched_row env m with
    | None => false
    | Some row => (SEC_PLAYER <? GetPlayerSecurityLimit env)
                  && (clamped_security row <? GetPlayerSecurityLimit env)
    end
  end.

(** The first rejection of [order] that the input triggers. *)
Definition first_triggered (order : list Rejection) (env : Env) (m : AuthSessionFields)
  (s : WorldSocket P) : option Rejection :=
  find (triggers env m s) order.

(** The precedence as the specification words it. *)
Definition spec_precedence : list Rejection :=
  [VersionMismatch; UnknownAccount; AddressLocked; DigestMismatch; AccountBanned;
   ServerUnavailable].

(** The precedence of the checks in the source. *)
Definition code_precedence : list Rejection :=
  [VersionMismatch; UnknownAccount; AddressLocked; AccountBanned; ServerUnavailable;
   DigestMismatch].

(** What a call appended to the trace. *)
Definition new_effects (s s' : WorldSocket P) : list Effect :=
  skipn (length (effects s)) (effects s').

Definition reported_reason (s s' : WorldSocket P) : option Rejection :=
  first_rejection (new_effects s s').

(** The body of a well-formed rejection response: the byte that holds the two
    cleared bits, then the reason code. *)
Definition rejection_body (r : Rejection) : bytes := [0; uint8 (reason_code r)].

(** The log line of each rejection path. *)
Definition rejection_line (r : Rejection) : LogLine :=
  match r with
  | VersionMismatch => Err_VersionMismatch
  | UnknownAccount => Err_UnknownAccount
  | AddressLocked => Basic_AccountIpDiffers
  | DigestMismatch => Err_AuthentificationFailed
  | AccountBanned => Err_AccountBanned
  | ServerUnavailable => Basic_SecurityLevelNotEnough
  end.

(** The arguments of the [WorldSession] constructor, from the account row. *)
Definition session_expansion (env : Env) (row : AccountRow) : Z :=
  if GetUInt8 (f_expansion row) <? CONFIG_UINT32_EXPANSION env
  then GetUInt8 (f_expansion row)
  else CONFIG_UINT32_EXPANSION env.

Definition session_locale (row : AccountRow) : Z :=
  if uint8 MAX_LOCALE <=? uint8 (GetUInt8 (f_locale row))
  then LOCALE_enUS
  else uint8 (GetUInt8 (f_locale row)).

Definition constructed_session (env : Env) (row : AccountRow) : WorldSession :=
  WorldSession_new (GetUInt32 (f_id row)) (clamped_security row)
    (session_expansion env row) (to_time_t (GetUInt64 (f_mutetime row)))
    (session_locale row).

(** The same environment with another locale stored in every account row. *)
Definition with_locale (l : Z) (env : Env) : Env :=
  mkEnv (CONFIG_UINT32_EXPANSION env) (CONFIG_UINT32_MAX_OVERSPEED_PINGS env)
    (CONFIG_BOOL_KICK_PLAYER_ON_BAD_PACKET env) (GetPlayerSecurityLimit env)
    (HasLogLevelDebug env) (IsAcceptableClientBuild env) (escape_string env)
    (fun name =>
       match db_account env name with
       | Some row =>
         Some (mkAccountRow (f_id row) (f_gmlevel row) (f_sessionkey row) (f_lockedIp row)
                 (f_locked row) (f_v row) (f_s row) (f_expansion row) (f_mutetime row) l)
       | None => None
       end)
    (db_banned env).

(** Two sockets that differ at most in the cached header and in [errno]. *)
Definition same_but_cache (a b : WorldSocket P) : Prop :=
  m_closed a = m_closed b /\ m_inBuffer a = m_inBuffer b
  /\ m_readPosition a = m_readPosition b /\ m_address a = m_address b
  /\ m_lastPingTime a = m_lastPingTime b /\ m_overSpeedPings a = m_overSpeedPings b
  /\ m_useExistingHeader a = m_useExistingHeader b /\ m_session a = m_session b
  /\ m_seed a = m_seed b /\ m_s a = m_s b /\ m_crypt a = m_crypt b
  /\ effects a = effects b.

(** A socket with the cached header and [errno] replaced. *)
Definition with_cache (h : ClientPktHeader) (e : Z) (s : WorldSocket P) : WorldSocket P :=
  set_errno e (set_existingHeader h s).

(** The keepalive counters as the constructor leaves them and every ping
    keeps them: no overspeed ping is counted before the first ping. *)
Definition ping_state_ok (s : WorldSocket P) : Prop :=
  0 <= m_overSpeedPings s < 2 ^ 32
  /\ (m_lastPingTime s = time_point_min -> m_overSpeedPings s = 0).

(** The overspeed count after the counting block, as a function of the state before
    it. *)
Definition counted (now : Z) (s : WorldSocket P) : Z :=
  if m_lastPingTime s =? time_point_min then m_overSpeedPings s
  else if duration_cast_seconds (now - m_lastPingTime s) <? 27
       then uint32 (m_overSpeedPings s + 1)
       else 0.

End Handshake.

(** ** A sample platform and sample inputs *)

(** A toy cipher: identity until keyed, then a running XOR. *)
Definition sample_DecryptRecv (c : option Z) (bs : bytes) : option Z * bytes :=
  match c with
  | None => (None, bs)
  | Some k => (Some (k + Z.of_nat (length bs)), map (fun b => Z.lxor b (k mod 256)) bs)
  end.

Definition sample_platform : Platform :=
  @Build_Platform
    0x0449 0x444D 0x0015 0x4542 0x5DB6 0x4D42 0x0000
    13 16 20 21 28
    0 3
    0 9
    1
    (option Z)
    sample_DecryptRecv
    sample_DecryptRecv
    (fun _ K => Some K)
    le_value
    (fun _ => [])
    (le_bytes 4)
    (fun bs => le_bytes 20 (fold_left Z.add bs 0))
    (fun x => x)
    (fun x => x)
    (fun x _ => Some x)
    true
    (fun _ _ => true).

(** The wire image of a credentials message with the given fields; the
    skipped fields are zero. *)
Definition encode_auth_session (d : bytes) (build seed : Z) (addons name : bytes) : bytes :=
  let D i := nth i d 0 in
  le_bytes 4 0 ++ le_bytes 4 0 ++ [0]
  ++ [D 10%nat; D 18%nat; D 12%nat; D 5%nat] ++ le_bytes 8 0
  ++ [D 15%nat; D 9%nat; D 19%nat; D 4%nat; D 7%nat; D 16%nat; D 3%nat]
  ++ le_bytes 2 build ++ [D 8%nat] ++ le_bytes 4 0 ++ [0]
  ++ [D 17%nat; D 6%nat; D 0%nat; D 1%nat; D 11%nat] ++ le_bytes 4 seed
  ++ [D 2%nat] ++ le_bytes 4 0 ++ [D 14%nat; D 13%nat]
  ++ le_bytes 4 (Z.of_nat (length addons)) ++ addons
  ++ [Z.shiftr (Z.of_nat (length name)) 5; Z.shiftl (Z.land (Z.of_nat (length name)) 31) 3]
  ++ name.

Definition packet_of (opcode : Z) (body : bytes) : WorldPacket :=
  mkWorldPacket opcode (mkByteBuffer 0 8 0 body).

Definition sample_name : bytes := bytes_of_string "ALICE".
Definition sample_address : bytes := bytes_of_string "10.0.0.7".

Definition sample_row (gmlevel locale : Z) : AccountRow :=
  mkAccountRow 42 gmlevel [7; 1] (bytes_of_string "10.0.0.7") 0 [3] [5] 2 0 locale.

(** A realm that accepts build 15595 and knows the account ALICE. *)
Definition sample_env (limit : Z) (banned : bool) (row : AccountRow) : Env :=
  mkEnv 3 2 true limit false (fun b => b =? 15595) (fun n => n)
    (fun n => if bytes_eqb n sample_name then Some row else None)
    (fun _ _ => banned).

Definition sample_socket : WorldSocket sample_platform :=
  @WorldSocket_new sample_platform sample_address 1234 None.

(** The digest ALICE's client computes with the right session key, and a
    wrong one. *)
Definition good_digest : bytes :=
  @auth_digest sample_platform sample_name 99 1234 (le_value [7; 1]).

Definition bad_digest : bytes := repeat 255 20.

Definition sample_credentials (d : bytes) : WorldPacket :=
  packet_of 0x0449 (encode_auth_session d 15595 99 [] sample_name).

(** Inbound headers and messages for the sample connection, which is not yet
    keyed: a ping header that declares 3 bytes, the legacy opener declaring 3
    bytes, and opcode 0x1234 with a two-byte body. *)
Definition ping_header_size3 : bytes := [0; 3; 0x4D; 0x44; 0; 0].
Definition legacy_header_size3 : bytes := [0; 3; 0x57; 0x4F; 0x52; 0x4C].
Definition sample_message_header : bytes := [0; 6; 0x34; 0x12; 0; 0].
Definition sample_message_body : bytes := [1; 2].

Definition sample_session (sec : Z) : WorldSession :=
  WorldSession_new 42 sec 2 0 0.

Definition authed_socket (sec : Z) : WorldSocket sample_platform :=
  set_session (Some (sample_session sec)) sample_socket.

(** A ping message and a run of pings at the given clock readings; the run
    ends with the first ping that is not answered. *)
Definition ping_packet (ping latency : Z) : WorldPacket :=
  packet_of 0x444D (le_bytes 4 ping ++ le_bytes 4 latency).

Fixpoint run_pings {P : Platform} (env : Env) (times : list Z) (s : WorldSocket P)
  : list Outcome * WorldSocket P :=
  match times with
  | [] => ([], s)
  | t :: r =>
    match HandlePing env t (ping_packet 1 0) s with
    | (Return true, s') => let '(os, s'') := run_pings env r s' in (Return true :: os, s'')
    | (o, s') => ([o], s')
    end
  end.

(** Effects of one [SendPacket]. *)
Definition send_effect (e : Effect) : Prop :=
  match e with
  | Log (PacketDump false _ _) | Log (Debug_LargePacket _ _)
  | Call_EncryptSend _ | Write _ | ForceFlushOut => True
  | _ => False
  end.

(** The kick for overspeeded pings: the failure verdict together with its
    log line. *)
Definition overspeed_kick {P : Platform} (o : Outcome) (s s' : WorldSocket P) : Prop :=
  o = Return false
  /\ In (Log (Err_OverspeedKick (GetRemoteAddress s))) (new_effects s s').

(** ** Notions for the properties of the socket as a whole *)

(** Two sessions of the same account, with the same security, expansion and
    locale. *)
Definition same_account (a b : WorldSession) : Prop :=
  _accountId a = _accountId b /\ _security a = _security b
  /\ m_expansion a = m_expansion b /\ m_sessionDbcLocale a = m_sessionDbcLocale b.

(** The read cursor is inside the buffer. *)
Definition buffer_ok {P : Platform} (s : WorldSocket P) : Prop :=
  0 <= m_readPosition s <= Z.of_nat (length (m_inBuffer s)).

(** What no message handler changes: the read buffer and its cursor, the
    cached header, the state of the connection, its address and seed. *)
Definition same_buffer {P : Platform} (s s' : WorldSocket P) : Prop :=
  m_inBuffer s' = m_inBuffer s /\ m_readPosition s' = m_readPosition s
  /\ m_useExistingHeader s' = m_useExistingHeader s
  /\ m_existingHeader s' = m_existingHeader s
  /\ m_closed s' = m_closed s /\ m_address s' = m_address s /\ m_seed s' = m_seed s.

(** The same, and the keepalive counters with it. *)
Definition same_connection {P : Platform} (s s' : WorldSocket P) : Prop :=
  same_buffer s s'
  /\ m_lastPingTime s' = m_lastPingTime s /\ m_overSpeedPings s' = m_overSpeedPings s.

(** The read cursor is inside the buffer, and a cached header still has its
    six bytes in front of the cursor. *)
Definition buffer_inv {P : Platform} (s : WorldSocket P) : Prop :=
  buffer_ok s
  /\ (m_useExistingHeader s = true -> sizeof_ClientPktHeader <= ReadLengthRemaining s).

(** A reader that, when it succeeds, has moved the cursor by at least [n]
    bytes and has kept it inside the store. *)
Definition reads_at_least {A} (n : nat) (r : BB.Reader A) : Prop :=
  forall b x b',
    r b = Some (x, b') ->
    _storage b' = _storage b
    /\ (_rpos b + n <= _rpos b')%nat
    /\ ((_rpos b <= length (_storage b))%nat \/ (0 < n)%nat ->
        (_rpos b' <= length (_storage b'))%nat).

(** The wire offset of each digest byte, by digest index. *)
Definition digest_offsets : list nat :=
  [38; 39; 45; 27; 24; 12; 37; 25; 30; 22; 9; 40; 11; 51; 50; 21; 26; 36; 10; 23]%nat.

(** The sample realm, and more sample messages: a credentials message of
    ALICE with its header, a keep-alive, and a ping cut short after three
    bytes. *)
Definition sample_realm : Env := sample_env 0 false (sample_row 0 0).

Definition sample_credentials_message (d : bytes) : bytes :=
  let body := encode_auth_session d 15595 99 [] sample_name in
  [0; Z.of_nat (length body) + 4; 0x49; 0x04; 0; 0] ++ body.

Definition keep_alive_message : bytes := [0; 4; 0x15; 0; 0; 0].

Definition short_ping_message : bytes := [0; 7; 0x4D; 0x44; 0; 0] ++ [1; 2; 3].

(** * Totem

    Entities/Totem.cpp.  The class and the classes it calls into ([Creature],
    [Unit], [Player], [Group], [Map]) are declared in headers that are not
    among the sources at hand: what they answer during a call is an input
    here ([World]), and the calls made on them are recorded in order
    ([Call]). *)

Module Totem.

Inductive TotemType := TOTEM_PASSIVE | TOTEM_ACTIVE | TOTEM_STATUE.

(** The type of the owner, which is a unit: a creature or a player. *)
Inductive TypeID := TYPEID_UNIT | TYPEID_PLAYER.

(** [owner->GetTypeId () == TYPEID_PLAYER]. *)
Definition is_player (id : TypeID) : bool :=
  match id with TYPEID_PLAYER => true | TYPEID_UNIT => false end.

(** A slot of the owner's group as the loop of [UnSummon] reads it: the
    player of the slot, if any, and what [SameSubGroup] answers for it. *)
Record GroupReference := mkGroupReference {
  getSource : option Z;
  SameSubGroup : bool
}.

(** The owner, as far as the functions of the totem look at it. *)
Record Owner := mkOwner {
  GetTypeId : TypeID;
  owner_IsAlive : bool;
  AI : bool;
  GetGroup : option (list GroupReference)
}.

(** What the rest of the game answers during one call: the owner, whether the
    totem is alive, the spell of the totem, and whether a script engine is
    attached.  The answers are taken to be the same all through the call. *)
Record World := mkWorld {
  GetOwner : option Owner;
  IsAlive : bool;
  GetSpell : Z;
  GetEluna : bool
}.

(** The fields of the class itself.  [m_duration] is compared with the
    [uint32] argument of [Update] and reduced by it; it is kept as a 32-bit
    value, with the wrap-around of the subtraction written out. *)
Record Totem := mkTotem {
  m_duration : Z;
  m_type : TotemType
}.

Inductive Target := Self | TheOwner | Member (player : Z).

(** The calls a function makes on other objects, in order. *)
Inductive Call :=
| CombatStop
| RemoveAurasDueToSpell (who : Target) (spell : Z)
| RemoveTotem
| SendAutoRepeatCancel
| SummonedCreatureDespawn
| SetDeathState_DEAD
| AddObjectToRemoveList
| Creature_Update (update_diff time : Z)
| Map_Add
| AIM_Initialize
| JustSummoned
| OnSummoned
| CastSpell (target : option Target) (spell : Z).

Definition Totem_new : Totem := mkTotem 0 TOTEM_PASSIVE.

(** The loop over the group of a player owner. *)
Definition group_auras (spell : Z) (members : list GroupReference) : list Call :=
  flat_map (fun itr =>
              match getSource itr with
              | Some player =>
                if SameSubGroup itr then [RemoveAurasDueToSpell (Member player) spell] else []
              | None => []
              end) members.

Definition UnSummon (w : World) : list Call :=
  [CombatStop; RemoveAurasDueToSpell Self (GetSpell w)]
  ++ match GetOwner w with
     | Some owner =>
       [RemoveTotem; RemoveAurasDueToSpell TheOwner (GetSpell w)]
       ++ (if is_player (GetTypeId owner) then
             [SendAutoRepeatCancel]
             ++ match GetGroup owner with
                | Some pGroup => group_auras (GetSpell w) pGroup
                | None => []
                end
           else [])
       ++ (if AI owner then [SummonedCreatureDespawn] else [])
     | None => []
     end
  ++ (if IsAlive w then [SetDeathState_DEAD] else [])
  ++ [AddObjectToRemoveList].

Definition Update (w : World) (update_diff time : Z) (t : Totem) : Totem * list Call :=
  if match GetOwner w with
     | None => true
     | Some owner => negb (owner_IsAlive owner)
     end || negb (IsAlive w)
  then (t, UnSummon w)
  else if m_duration t <=? update_diff then (t, UnSummon w)
  else (mkTotem (uint32 (m_duration t - update_diff)) (m_type t),
        [Creature_Update update_diff time]).

Definition Summon {P : Platform} (w : World) (owner : Owner) (t : Totem) : list Call :=
  [Map_Add; AIM_Initialize]
  ++ (if AI owner then [JustSummoned] else [])
  ++ (if BUILD_ELUNA && GetEluna w then [OnSummoned] else [])
  ++ (if GetSpell w =? 0 then []
      else match m_type t with
           | TOTEM_PASSIVE => [CastSpell (Some Self) (GetSpell w)]
           | TOTEM_STATUE =>
             [CastSpell (option_map (fun _ => TheOwner) (GetOwner w)) (GetSpell w)]
           | TOTEM_ACTIVE => []
           end).

(** [totemSpell] is the cast time of the spell of the totem when the spell
    store has an entry for it. *)
Definition SetTypeBySummonSpell (totemSpell : option Z) (SpellIconID : Z) (t : Totem)
  : Totem :=
  let t := match totemSpell with
           | Some castTime =>
             if castTime =? 0 then t else mkTotem (m_duration t) TOTEM_ACTIVE
           | None => t
           end in
  if SpellIconID =? 2056 then mkTotem (m_duration t) TOTEM_STATUE else t.

(** One call of [Update]: the answers of the game during the call and the
    two arguments. *)
Record Tick := mkTick {
  world : World;
  update_diff : Z;
  time : Z
}.

(** [Update] called once for each tick, one call after the other. *)
Fixpoint updates (ticks : list Tick) (t : Totem) : Totem * list Call :=
  match ticks with
  | [] => (t, [])
  | k :: rest =>
    let '(t, calls) := Update (world k) (update_diff k) (time k) t in
    let '(t, more) := updates rest t in
    (t, calls ++ more)
  end.

(** The owner is there and alive, and the totem is alive. *)
Definition alive (w : World) : bool :=
  match GetOwner w with
  | Some owner => owner_IsAlive owner
  | None => false
  end && IsAlive w.

(** The time handed on to [Creature::Update] in a sequence of calls. *)
Fixpoint forwarded (calls : list Call) : Z :=
  match calls with
  | [] => 0
  | Creature_Update d _ :: r => d + forwarded r
  | _ :: r => forwarded r
  end.

Definition elapsed (ticks : list Tick) : Z :=
  fold_right (fun k acc => update_diff k + acc) 0 ticks.

Definition is_uint32 (z : Z) : Prop := 0 <= z < 2 ^ 32.

Definition unsummoned (calls : list Call) : bool :=
  existsb (fun c => match c with AddObjectToRemoveList => true | _ => false end) calls.

End Totem.

(** Sample totems. *)
Definition sample_owner : Totem.Owner :=
  Totem.mkOwner Totem.TYPEID_PLAYER true false
    (Some [Totem.mkGroupReference (Some 7) true; Totem.mkGroupReference None true;
           Totem.mkGroupReference (Some 8) false]).

Definition sample_world : Totem.World := Totem.mkWorld (Some sample_owner) true 8071 false.

Definition ownerless_world : Totem.World := Totem.mkWorld None true 8071 false.

Definition sample_tick (diff : Z) : Totem.Tick := Totem.mkTick sample_world diff 0.

Definition sample_totem : Totem.Totem := Totem.mkTotem 1000 Totem.TOTEM_PASSIVE.

(** * Properties *)

(** ** Bytes and bit fields *)

Lemma bytes_eqb_refl (a : bytes) : bytes_eqb a a = true.
Proof.
  induction a as [|x a IH]; simpl; [reflexivity|].
  now rewrite Z.eqb_refl, IH.
Qed.

Lemma bytes_eqb_eq (a b : bytes) : bytes_eqb a b = true <-> a = b.
Proof.
  split; [|intros ->; apply bytes_eqb_refl].
  revert b; induction a as [|x a IH]; intros [|y b]; simpl; try discriminate; auto.
  intros H. apply andb_true_iff in H as [Hx Hab].
  apply Z.eqb_eq in Hx. f_equal; auto.
Qed.

Lemma land_FF (x : Z) : Z.land 0xFF x = x mod 256.
Proof. rewrite Z.land_comm. change 0xFF with (Z.ones 8). now rewrite Z.land_ones by lia. Qed.

Lemma byte_field (x : Z) (n : Z) :
  0 <= n -> uint8 (Z.land 0xFF (Z.shiftr x n)) = (x / 2 ^ n) mod 256.
Proof.
  intros Hn. unfold uint8. rewrite land_FF, Z.shiftr_div_pow2 by lia.
  change (2 ^ 8) with 256. now rewrite Z.mod_mod by lia.
Qed.

Lemma flagged_byte (x : Z) :
  0 <= x < 256 -> 128 <= Z.lor 0x80 x < 256 /\ Z.testbit (Z.lor 0x80 x) 7 = true.
Proof.
  intros Hx. split.
  - assert (H7 : Z.testbit (Z.lor 0x80 x) 7 = true)
      by (rewrite Z.lor_spec; reflexivity).
    assert (Hnn : 0 <= Z.lor 0x80 x) by (apply Z.lor_nonneg; lia).
    assert (Hlt : Z.lor 0x80 x < 2 ^ 8).
    { destruct (Z.eq_dec (Z.lor 0x80 x) 0) as [E|E]; [rewrite E; lia|].
      apply Z.log2_lt_pow2; [lia|].
      rewrite Z.log2_lor by lia.
      apply Z.max_lub_lt; [reflexivity|].
      destruct (Z.eq_dec x 0) as [->|Hx0]; [reflexivity|].
      apply Z.log2_lt_pow2; lia. }
    split; [|exact Hlt].
    destruct (Z_lt_le_dec (Z.lor 0x80 x) 128) as [Hs|]; [|lia].
    exfalso.
    assert (Z.testbit (Z.lor 0x80 x) 7 = false); [|congruence].
    destruct (Z.eq_dec (Z.lor 0x80 x) 0) as [E|E]; [rewrite E; reflexivity|].
    apply Z.bits_above_log2; [lia|].
    apply Z.log2_lt_pow2; lia.
  - rewrite Z.lor_spec. reflexivity.
Qed.

Lemma header_length (sz c : Z) :
  length (ServerPktHeader.header sz c) = Z.to_nat (ServerPktHeader.getHeaderLength sz).
Proof.
  unfold ServerPktHeader.header, ServerPktHeader.getHeaderLength.
  destruct (ServerPktHeader.isLargePacket sz); reflexivity.
Qed.

(** C5: the outbound header is the 2-byte big-endian size when the size is at
    most 0x7FFF and the 3-byte size with the top bit of its first byte set
    (0x80 | (size >> 16)) above that, followed by the opcode in two
    little-endian bytes; 0x7FFF encodes short and 0x8000 long, and the bytes
    [SendPacket] encrypts are the whole header. *)
Theorem C5_outbound_header_encoding (sz c : Z) :
  0 <= sz < 2 ^ 32 -> 0 <= c < 2 ^ 16 ->
  let h := ServerPktHeader.header sz c in
  (sz <= 0x7FFF ->
     h = [sz / 256; sz mod 256; c mod 256; c / 256]
     /\ ServerPktHeader.getHeaderLength sz = 4
     /\ Z.testbit (nth 0 h 0) 7 = false
     /\ 256 * nth 0 h 0 + nth 1 h 0 = sz)
  /\ (0x7FFF < sz ->
     h = [Z.lor 0x80 ((sz / 65536) mod 256); (sz / 256) mod 256; sz mod 256;
          c mod 256; c / 256]
     /\ ServerPktHeader.getHeaderLength sz = 5
     /\ Z.testbit (nth 0 h 0) 7 = true
     /\ (sz < 2 ^ 24 -> nth 0 h 0 = Z.lor 0x80 (Z.shiftr sz 16)))
  /\ firstn (Z.to_nat (ServerPktHeader.getHeaderLength sz)) h = h
  /\ ServerPktHeader.isLargePacket 0x7FFF = false
  /\ ServerPktHeader.isLargePacket 0x8000 = true.
Proof.
  intros Hsz Hc h. subst h.
  assert (Hlo : uint8 (Z.land 0xFF sz) = sz mod 256).
  { unfold uint8. rewrite land_FF. change (2 ^ 8) with 256. now rewrite Z.mod_mod by lia. }
  assert (Hclo : uint8 (Z.land 0xFF c) = c mod 256).
  { unfold uint8. rewrite land_FF. change (2 ^ 8) with 256. now rewrite Z.mod_mod by lia. }
  assert (Hchi : uint8 (Z.land 0xFF (Z.shiftr c 8)) = c / 256).
  { rewrite byte_field by lia. change (2 ^ 8) with 256.
    apply Z.mod_small. split; [apply Z.div_pos; lia|].
    apply Z.div_lt_upper_bound; lia. }
  assert (Hmid : uint8 (Z.land 0xFF (Z.shiftr sz 8)) = (sz / 256) mod 256).
  { rewrite byte_field by lia. reflexivity. }
  repeat split.
  - unfold ServerPktHeader.header, ServerPktHeader.isLargePacket.
    destruct (Z.ltb_spec 0x7FFF sz); [lia|]. cbn [app].
    rewrite Hlo, Hclo, Hchi, Hmid.
    rewrite (Z.mod_small (sz / 256)); [reflexivity|].
    split; [apply Z.div_pos; lia|apply Z.div_lt_upper_bound; lia].
  - unfold ServerPktHeader.getHeaderLength, ServerPktHeader.isLargePacket.
    destruct (Z.ltb_spec 0x7FFF sz); [lia|reflexivity].
  - unfold ServerPktHeader.header, ServerPktHeader.isLargePacket.
    destruct (Z.ltb_spec 0x7FFF sz); [lia|]. cbn [app]. cbn [nth].
    rewrite Hmid.
    assert (Hq : 0 <= sz / 256 < 128)
      by (split; [apply Z.div_pos; lia|apply Z.div_lt_upper_bound; lia]).
    rewrite Z.mod_small by lia.
    destruct (Z.eq_dec (sz / 256) 0) as [->|Hnz]; [reflexivity|].
    apply Z.bits_above_log2; [lia|].
    apply Z.log2_lt_pow2; lia.
  - unfold ServerPktHeader.header, ServerPktHeader.isLargePacket.
    destruct (Z.ltb_spec 0x7FFF sz); [lia|]. cbn [app]. cbn [nth].
    rewrite Hmid, Hlo.
    assert (Hq : 0 <= sz / 256 < 128)
      by (split; [apply Z.div_pos; lia|apply Z.div_lt_upper_bound; lia]).
    rewrite (Z.mod_small (sz / 256)) by lia.
    pose proof (Z.div_mod sz 256). lia.
  - unfold ServerPktHeader.header, ServerPktHeader.isLargePacket.
    destruct (Z.ltb_spec 0x7FFF sz); [|lia]. cbn [app].
    rewrite Hlo, Hclo, Hchi, Hmid.
    rewrite land_FF, Z.shiftr_div_pow2 by lia. change (2 ^ 16) with 65536.
    assert (Hb : 0 <= (sz / 65536) mod 256 < 256) by (apply Z.mod_pos_bound; lia).
    destruct (flagged_byte Hb) as [Hr _].
    unfold uint8. change (2 ^ 8) with 256. rewrite Z.mod_small by lia. reflexivity.
  - unfold ServerPktHeader.getHeaderLength, ServerPktHeader.isLargePacket.
    destruct (Z.ltb_spec 0x7FFF sz); [reflexivity|lia].
  - unfold ServerPktHeader.header, ServerPktHeader.isLargePacket.
    destruct (Z.ltb_spec 0x7FFF sz); [|lia]. cbn [app]. cbn [nth].
    rewrite land_FF.
    assert (Hb : 0 <= Z.shiftr sz 16 mod 256 < 256) by (apply Z.mod_pos_bound; lia).
    destruct (flagged_byte Hb) as [Hr Ht].
    unfold uint8. change (2 ^ 8) with 256. rewrite Z.mod_small by lia. exact Ht.
  - intros H24.
    unfold ServerPktHeader.header, ServerPktHeader.isLargePacket.
    destruct (Z.ltb_spec 0x7FFF sz); [|lia]. cbn [app]. cbn [nth].
    rewrite land_FF.
    assert (Hs : 0 <= Z.shiftr sz 16 < 256).
    { rewrite Z.shiftr_div_pow2 by lia.
      split; [apply Z.div_pos; lia|apply Z.div_lt_upper_bound; lia]. }
    rewrite (Z.mod_small (Z.shiftr sz 16)) by lia.
    destruct (flagged_byte Hs) as [Hr _].
    unfold uint8. change (2 ^ 8) with 256. rewrite Z.mod_small by lia. reflexivity.
  - rewrite <- (header_length sz c). apply firstn_all.
Qed.

Lemma C5_outbound_header_encoding_witness :
  ServerPktHeader.header 0x7FFF 0x5DB6 = [0x7F; 0xFF; 0xB6; 0x5D]
  /\ ServerPktHeader.header 0x8000 0x5DB6 = [0x80; 0x80; 0x00; 0xB6; 0x5D].
Proof.
  split.
  - apply (C5_outbound_header_encoding (sz := 0x7FFF) (c := 0x5DB6)); lia.
  - apply (C5_outbound_header_encoding (sz := 0x8000) (c := 0x5DB6)); lia.
Defined.

(** ** Framing *)

Section Framing.

Context {P : Platform}.

Implicit Types s : WorldSocket P.

Lemma obtain_header_session s h s1 :
  obtain_header s = Some (h, s1) -> m_session s1 = m_session s.
Proof.
  unfold obtain_header, Read.
  destruct (m_useExistingHeader s).
  - intros H; inversion H; reflexivity.
  - destruct (ReadLengthRemaining s <? sizeof_ClientPktHeader); [discriminate|].
    cbn -[firstn]. destruct (DecryptRecv _ _) as [crypt plain].
    intros H; inversion H; reflexivity.
Qed.

Lemma frame_malformed s h s1 :
  obtain_header s = Some (h, s1) ->
  (exists s', frame s = MalformedSize s') <-> malformed_size h = true.
Proof.
  intros Hh. unfold frame. rewrite Hh.
  destruct (malformed_size h).
  - split; [reflexivity|]. intros _. eexists; reflexivity.
  - split; [|discriminate]. intros [s' H]. exfalso. revert H.
    destruct (_ <? _); [discriminate|].
    destruct (IsClosed s1); [discriminate|].
    destruct (negb _); discriminate.
Qed.

Lemma frame_malformed_state s h s1 s' :
  obtain_header s = Some (h, s1) -> frame s = MalformedSize s' ->
  s' = set_errno EINVAL (log (Err_MalformedSize (size h) (cmd h)) s1).
Proof.
  intros Hh. unfold frame. rewrite Hh.
  destruct (malformed_size h).
  - intros H; inversion H; reflexivity.
  - destruct (_ <? _); [discriminate|].
    destruct (IsClosed s1); [discriminate|].
    destruct (negb _); discriminate.
Qed.

Lemma frame_decoded s opcode pct s1 :
  frame s = Decoded opcode pct s1 ->
  exists h s0,
    obtain_header s = Some (h, s0)
    /\ malformed_size h = false
    /\ opcode = cmd h
    /\ GetOpcode pct = opcode
    /\ contents pct = firstn (Z.to_nat (uint16 (size h - 4))) (InPeak s0)
    /\ m_session s1 = m_session s.
Proof.
  unfold frame.
  destruct (obtain_header s) as [[h s0]|] eqn:Hh; [|discriminate].
  destruct (malformed_size h) eqn:Hm; [discriminate|].
  destruct (_ <? _); [discriminate|].
  destruct (IsClosed s0); [discriminate|].
  pose proof (obtain_header_session _ Hh) as Hs.
  destruct (uint16 (size h - 4) =? 0) eqn:Hz; cbn [negb].
  - apply Z.eqb_eq in Hz.
    destruct (negb (cmd h =? MSG_WOW_CONNECTION_RAW));
      intros H; inversion H; subst; do 2 eexists;
      (split; [reflexivity|]); repeat split; auto;
      rewrite Hz; reflexivity.
  - destruct (negb (cmd h =? MSG_WOW_CONNECTION_RAW));
      intros H; inversion H; subst; do 2 eexists;
      (split; [reflexivity|]); repeat split; auto.
Qed.

(** C2: for a header whose opcode is not the legacy opener, the framing
    error (no packet built, [false] returned with [errno = EINVAL]) is raised
    exactly when the declared size is below 4 or above 0x2800; sizes 3 and
    0x2801 are rejected and 0x2800 is accepted. *)
Theorem C2_inbound_size_bounds s h s1 :
  obtain_header s = Some (h, s1) ->
  cmd h <> MSG_WOW_CONNECTION_RAW ->
  ((exists s', frame s = MalformedSize s') <-> (size h < 4 \/ 0x2800 < size h))
  /\ (forall s', frame s = MalformedSize s' ->
        s' = set_errno EINVAL (log (Err_MalformedSize (size h) (cmd h)) s1)
        /\ errno s' = EINVAL
        /\ m_session s' = m_session s
        /\ forall env now, ProcessIncomingData env now s = (false, s'))
  /\ malformed_size (mkClientPktHeader 3 (cmd h)) = true
  /\ malformed_size (mkClientPktHeader 0x2801 (cmd h)) = true
  /\ malformed_size (mkClientPktHeader 0x2800 (cmd h)) = false.
Proof.
  intros Hh Hcmd.
  assert (Hne : (cmd h =? MSG_WOW_CONNECTION_RAW) = false) by (apply Z.eqb_neq; exact Hcmd).
  split; [|split].
  - rewrite (frame_malformed _ Hh). unfold malformed_size. rewrite Hne. cbn [negb].
    rewrite andb_true_r, orb_true_iff, !Z.ltb_lt. reflexivity.
  - intros s' Hf. pose proof (frame_malformed_state _ Hh Hf) as ->.
    repeat split.
    + cbn. apply (obtain_header_session _ Hh).
    + intros env now. unfold ProcessIncomingData. rewrite Hf. reflexivity.
  - unfold malformed_size. cbn [size cmd]. rewrite Hne. repeat split.
Qed.

(** C3 (as the code has it): a header that carries the legacy opener
    0x4C524F57 fails the size check exactly when its declared size is below 4;
    only the upper bound 0x2800 is waived for it. *)
Theorem C3_legacy_opener_size_check s h s1 :
  obtain_header s = Some (h, s1) ->
  cmd h = MSG_WOW_CONNECTION_RAW ->
  ((exists s', frame s = MalformedSize s') <-> size h < 4).
Proof.
  intros Hh Hcmd.
  rewrite (frame_malformed _ Hh). unfold malformed_size.
  rewrite Hcmd, Z.eqb_refl. cbn [negb].
  rewrite andb_false_r, orb_false_r. apply Z.ltb_lt.
Qed.

(** C7: a decoded opcode outside the reserved set is refused with the
    not-authenticated error when no session is bound, and queued unchanged
    for the session when one is bound, whatever the opcode is. *)
Theorem C7_unreserved_opcode_routing env now s opcode pct s1 :
  frame s = Decoded opcode pct s1 ->
  opcode <> MSG_WOW_CONNECTION_RAW ->
  opcode <> CMSG_AUTH_SESSION ->
  opcode <> CMSG_PING ->
  opcode <> CMSG_KEEP_ALIVE ->
  (exists h s0,
      obtain_header s = Some (h, s0)
      /\ opcode = cmd h
      /\ GetOpcode pct = opcode
      /\ contents pct = firstn (Z.to_nat (uint16 (size h - 4))) (InPeak s0))
  /\ match m_session s with
     | None =>
       ProcessIncomingData env now s = (false, log (Err_NotAuthed (uint32 opcode)) s1)
       /\ m_session (log (Err_NotAuthed (uint32 opcode)) s1) = None
     | Some session =>
       ProcessIncomingData env now s
       = (true, set_session (Some (QueuePacket pct session)) s1)
       /\ _recvQueue (QueuePacket pct session) = _recvQueue session ++ [pct]
       /\ effects (set_session (Some (QueuePacket pct session)) s1) = effects s1
     end.
Proof.
  intros Hf H1 H2 H3 H4.
  destruct (frame_decoded _ Hf) as (h & s0 & Hh & _ & Hop & Hg & Hc & Hs).
  split; [exists h, s0; auto|].
  unfold ProcessIncomingData. rewrite Hf. unfold dispatch.
  apply Z.eqb_neq in H1, H2, H3, H4. rewrite H1, H2, H3, H4.
  rewrite Hs. destruct (m_session s) as [session|]; cbn; auto.
Qed.

End Framing.

Lemma C2_inbound_size_bounds_witness :
  exists s', frame (receive ping_header_size3 sample_socket) = MalformedSize s'.
Proof.
  set (s := receive ping_header_size3 sample_socket).
  refine (proj2 (proj1 (@C2_inbound_size_bounds sample_platform s
                          (mkClientPktHeader 3 0x444D)
                          (match obtain_header s with Some (_, t) => t | None => s end)
                          _ _)) _).
  - reflexivity.
  - cbn. discriminate.
  - left. cbn. lia.
Defined.

(** C3 (as the specification words it) fails: the legacy opener with a
    declared size of 3 does not pass the size check; the call ends in the
    framing error. *)
Lemma C3_legacy_opener_below_4_rejected :
  cmd (header_of_bytes legacy_header_size3) = MSG_WOW_CONNECTION_RAW
  /\ size (header_of_bytes legacy_header_size3) = 3
  /\ malformed_size (header_of_bytes legacy_header_size3) = true
  /\ match frame (receive legacy_header_size3 sample_socket) with
     | MalformedSize s' => errno s' = EINVAL
     | _ => False
     end
  /\ fst (ProcessIncomingData (sample_env 0 false (sample_row 0 0)) 0
            (receive legacy_header_size3 sample_socket)) = false.
Proof.
  repeat split; vm_compute; reflexivity.
Qed.

Lemma C3_legacy_opener_size_check_witness :
  exists s', frame (receive legacy_header_size3 sample_socket) = MalformedSize s'.
Proof.
  set (s := receive legacy_header_size3 sample_socket).
  refine (proj2 (@C3_legacy_opener_size_check sample_platform s
                   (mkClientPktHeader 3 MSG_WOW_CONNECTION_RAW)
                   (match obtain_header s with Some (_, t) => t | None => s end)
                   _ _) _).
  - reflexivity.
  - reflexivity.
  - cbn. lia.
Defined.

Lemma C7_unreserved_opcode_routing_witness :
  let env := sample_env 0 false (sample_row 0 0) in
  let msg := sample_message_header ++ sample_message_body in
  fst (ProcessIncomingData env 0 (receive msg sample_socket)) = false
  /\ fst (ProcessIncomingData env 0 (receive msg (authed_socket 0))) = true.
Proof.
  intros env msg. split.
  - set (s := receive msg sample_socket).
    pose proof (@C7_unreserved_opcode_routing sample_platform env 0 s
                  0x1234 (packet_of 0x1234 sample_message_body)
                  (match frame s with Decoded _ _ t => t | _ => s end) eq_refl) as H.
    destruct H as [_ [H _]]; try (cbn; discriminate).
    rewrite H. reflexivity.
  - set (s := receive msg (authed_socket 0)).
    pose proof (@C7_unreserved_opcode_routing sample_platform env 0 s
                  0x1234 (packet_of 0x1234 sample_message_body)
                  (match frame s with Decoded _ _ t => t | _ => s end) eq_refl) as H.
    destruct H as [_ [H _]]; try (cbn; discriminate).
    rewrite H. reflexivity.
Defined.

(** ** Sending *)

Section Sending.

Context {P : Platform}.

Implicit Types s : WorldSocket P.

Lemma new_effects_app s s' (new : list Effect) :
  effects s' = effects s ++ new -> new_effects s s' = new.
Proof.
  intros H. unfold new_effects. rewrite H. clear H.
  induction (effects s) as [|e l IH]; [reflexivity|exact IH].
Qed.

Lemma new_effects_nil s s' : effects s' = effects s -> new_effects s s' = [].
Proof. intros H. apply new_effects_app. now rewrite app_nil_r. Qed.

(** [SendPacket] touches the cipher and the trace only, and appends nothing
    but its own steps. *)
Lemma SendPacket_frame pct immediate s :
  let s' := SendPacket pct immediate s in
  m_closed s' = m_closed s /\ m_inBuffer s' = m_inBuffer s
  /\ m_readPosition s' = m_readPosition s /\ m_address s' = m_address s
  /\ m_lastPingTime s' = m_lastPingTime s /\ m_overSpeedPings s' = m_overSpeedPings s
  /\ m_useExistingHeader s' = m_useExistingHeader s
  /\ m_existingHeader s' = m_existingHeader s
  /\ m_session s' = m_session s /\ m_seed s' = m_seed s /\ m_s s' = m_s s
  /\ errno s' = errno s.
Proof.
  unfold SendPacket. destruct (IsClosed s); [cbn; tauto|].
  destruct (ServerPktHeader.isLargePacket _); cbn -[firstn];
    destruct (EncryptSend _ _) as [crypt enc]; destruct immediate; cbn; tauto.
Qed.

Lemma SendPacket_effects pct immediate s :
  exists new,
    effects (SendPacket pct immediate s) = effects s ++ new
    /\ Forall send_effect new
    /\ (immediate = false -> Forall response_or_log new)
    /\ (m_closed s = false ->
        sent_packets new = [(GetOpcode pct, contents pct)]
        /\ exists enc, written new = [enc ++ contents pct]).
Proof.
  unfold SendPacket, IsClosed. destruct (m_closed s) eqn:Hc.
  - exists []. rewrite app_nil_r. repeat split; try constructor; discriminate.
  - destruct (ServerPktHeader.isLargePacket _); cbn -[firstn];
      destruct (EncryptSend _ _) as [crypt enc]; destruct immediate; cbn -[firstn];
      repeat rewrite <- app_assoc; cbn -[firstn];
      (eexists; split; [reflexivity|]);
      (split; [repeat constructor|]);
      (split; [intros; try discriminate; repeat constructor|]);
      intros _; (split; [reflexivity|eexists; reflexivity]).
Qed.

End Sending.

(** ** Keepalive *)

Section Keepalive.

Context {P : Platform}.

Implicit Types s : WorldSocket P.

Lemma seconds_below_27 (d : Z) :
  (duration_cast_seconds d <? 27) = true <-> d < 27 * ticks_per_second.
Proof.
  unfold duration_cast_seconds, ticks_per_second. rewrite Z.ltb_lt.
  destruct (Z_lt_le_dec d 0) as [Hneg|Hpos].
  - assert (Hq : Z.quot d 1000000000 <= 0).
    { replace d with (- (- d)) by lia. rewrite Z.quot_opp_l by lia.
      pose proof (Z.quot_pos (- d) 1000000000). lia. }
    lia.
  - rewrite Z.quot_div_nonneg by lia.
    split; intros H.
    + pose proof (Z.mul_succ_div_gt d 1000000000). lia.
    + apply Z.div_lt_upper_bound; lia.
Qed.

Lemma uint32_range (x : Z) : 0 <= uint32 x < 2 ^ 32.
Proof. unfold uint32. apply Z.mod_pos_bound. lia. Qed.

Lemma count_ping_spec env now s :
  ping_state_ok s ->
  let kicked := fst (count_ping env now s) in
  let s1 := snd (count_ping env now s) in
  let cap := uint32 (CONFIG_UINT32_MAX_OVERSPEED_PINGS env) in
  m_lastPingTime s1 = now
  /\ m_session s1 = m_session s
  /\ m_overSpeedPings s1 = counted now s
  /\ effects s1
     = effects s ++ (if kicked then [Log (Err_OverspeedKick (GetRemoteAddress s))] else [])
  /\ (kicked = true <->
      cap <> 0 /\ cap < counted now s
      /\ exists session, m_session s = Some session /\ _security session = SEC_PLAYER).
Proof.
  intros [Hrange Hfirst]. cbv zeta.
  pose proof (uint32_range (CONFIG_UINT32_MAX_OVERSPEED_PINGS env)) as Hcap.
  unfold count_ping, counted.
  destruct (m_lastPingTime s =? time_point_min) eqn:Hmin.
  - apply Z.eqb_eq in Hmin. specialize (Hfirst Hmin). cbn.
    rewrite app_nil_r. repeat split; auto; try discriminate.
    intros (_ & Hlt & _). lia.
  - cbn [m_lastPingTime set_lastPingTime].
    destruct (duration_cast_seconds (now - m_lastPingTime s) <? 27).
    + cbn [m_overSpeedPings set_overSpeedPings set_lastPingTime m_session].
      destruct (uint32 (CONFIG_UINT32_MAX_OVERSPEED_PINGS env) =? 0) eqn:Hz;
        cbn [negb andb].
      * apply Z.eqb_eq in Hz. cbn. rewrite app_nil_r.
        repeat split; auto; try discriminate. intros (Hnz & _). contradiction.
      * apply Z.eqb_neq in Hz.
        destruct (uint32 (CONFIG_UINT32_MAX_OVERSPEED_PINGS env)
                  <? uint32 (m_overSpeedPings s + 1)) eqn:Hgt.
        -- apply Z.ltb_lt in Hgt.
           destruct (m_session s) as [session|] eqn:Hsess.
           ++ destruct (_security session =? SEC_PLAYER) eqn:Hsec.
              ** apply Z.eqb_eq in Hsec. cbn. rewrite Hsess.
                 repeat split; auto. exists session; auto.
              ** apply Z.eqb_neq in Hsec. cbn. rewrite Hsess, app_nil_r.
                 repeat split; auto; try discriminate.
                 intros (_ & _ & session' & Hs' & Hp). congruence.
           ++ cbn. rewrite Hsess, app_nil_r. repeat split; auto; try discriminate.
              intros (_ & _ & session' & Hs' & _). discriminate.
        -- apply Z.ltb_ge in Hgt. cbn. rewrite app_nil_r.
           repeat split; auto; try discriminate. intros (_ & Hlt & _). lia.
    + cbn. rewrite app_nil_r. repeat split; auto; try discriminate.
      intros (_ & Hlt & _). lia.
Qed.

Lemma answer_ping_spec ping latency s :
  let o := fst (answer_ping ping latency s) in
  let s2 := snd (answer_ping ping latency s) in
  m_lastPingTime s2 = m_lastPingTime s
  /\ m_overSpeedPings s2 = m_overSpeedPings s
  /\ (exists new, effects s2 = effects s ++ new
                  /\ forall a, ~ In (Log (Err_OverspeedKick a)) new)
  /\ (o = Return true <-> m_session s <> None)
  /\ (o = Return false <-> m_session s = None).
Proof.
  cbv zeta. unfold answer_ping.
  destruct (m_session s) as [session|] eqn:Hsess.
  - cbn [fst snd].
    match goal with |- context [SendPacket ?p ?i ?t] =>
      pose proof (SendPacket_frame p i t) as Hf;
      destruct (SendPacket_effects p i t) as (new & He & HF & _)
    end.
    cbv zeta in Hf. destruct Hf as (_ & _ & _ & _ & Hl & Ho & _).
    rewrite Hl, Ho, He. cbn.
    repeat split; try discriminate; try congruence.
    exists new. split; [reflexivity|].
    intros a HIn. rewrite Forall_forall in HF. apply (HF _ HIn).
  - cbn. repeat split; try discriminate; try congruence.
    eexists. split; [reflexivity|]. intros a [H|[]]. discriminate.
Qed.

(** C6: the first ping only records the time; a later ping counts an
    overspeed ping when less than 27 seconds passed since the previous one and
    clears the count otherwise; the kick for overspeed happens exactly when
    the cap is nonzero, the count exceeds it and the bound session has
    security SEC_PLAYER, so that a session of higher security is never
    kicked for overspeed. *)
Theorem C6_ping_overspeed_policy env now pkt s :
  ping_state_ok s ->
  fst (HandlePing env now pkt s) <> Throw ->
  let o := fst (HandlePing env now pkt s) in
  let s' := snd (HandlePing env now pkt s) in
  let cap := uint32 (CONFIG_UINT32_MAX_OVERSPEED_PINGS env) in
  m_lastPingTime s' = now
  /\ (m_lastPingTime s = time_point_min ->
      m_overSpeedPings s' = m_overSpeedPings s /\ ~ overspeed_kick o s s')
  /\ (m_lastPingTime s <> time_point_min ->
      now - m_lastPingTime s < 27 * ticks_per_second ->
      m_overSpeedPings s' = uint32 (m_overSpeedPings s + 1)
      /\ (m_overSpeedPings s + 1 < 2 ^ 32 ->
          m_overSpeedPings s' = m_overSpeedPings s + 1))
  /\ (m_lastPingTime s <> time_point_min ->
      27 * ticks_per_second <= now - m_lastPingTime s ->
      m_overSpeedPings s' = 0)
  /\ (overspeed_kick o s s' <->
      cap <> 0 /\ cap < m_overSpeedPings s'
      /\ exists session, m_session s = Some session /\ _security session = SEC_PLAYER)
  /\ (forall session, m_session s = Some session ->
      (o = Return false <-> overspeed_kick o s s'))
  /\ (forall session, m_session s = Some session ->
      _security session <> SEC_PLAYER -> o = Return true).
Proof.
  intros Hok Hparse. revert Hparse. cbv zeta.
  pose proof (count_ping_spec env now Hok) as Hc. cbv zeta in Hc.
  destruct Hok as [Hrange Hfirst].
  unfold HandlePing.
  destruct (BB.bind _ _ _) as [[[ping latency] b]|]; [intros _|intros H; now elim H].
  destruct (count_ping env now s) as [kicked s1]. cbn [fst snd] in Hc.
  destruct Hc as (Hnow & Hsess & Hcount & Heff & Hkick).
  assert (Hcounted :
    (m_lastPingTime s = time_point_min -> counted now s = m_overSpeedPings s)
    /\ (m_lastPingTime s <> time_point_min ->
        now - m_lastPingTime s < 27 * ticks_per_second ->
        counted now s = uint32 (m_overSpeedPings s + 1))
    /\ (m_lastPingTime s <> time_point_min ->
        27 * ticks_per_second <= now - m_lastPingTime s -> counted now s = 0)).
  { unfold counted. repeat split.
    - intros ->. now rewrite Z.eqb_refl.
    - intros Hne Hlt. apply Z.eqb_neq in Hne. rewrite Hne.
      apply seconds_below_27 in Hlt. now rewrite Hlt.
    - intros Hne Hge. apply Z.eqb_neq in Hne. rewrite Hne.
      destruct (duration_cast_seconds _ <? 27) eqn:E; [|reflexivity].
      apply seconds_below_27 in E. lia. }
  destruct Hcounted as (Hc1 & Hc2 & Hc3).
  assert (Hwrap : m_overSpeedPings s + 1 < 2 ^ 32 ->
                  uint32 (m_overSpeedPings s + 1) = m_overSpeedPings s + 1).
  { intros H. unfold uint32. apply Z.mod_small. lia. }
  destruct kicked.
  - (* the overspeed kick *)
    cbn [fst snd].
    assert (Hk : overspeed_kick (Return false) s s1).
    { split; [reflexivity|]. rewrite (@new_effects_app P s s1 _ Heff). now left. }
    destruct (proj1 Hkick eq_refl) as (Hnz & Hlt & session & Hs & Hp).
    assert (Hnotfirst : m_lastPingTime s <> time_point_min).
    { intros Hmin. rewrite (Hc1 Hmin), (Hfirst Hmin) in Hlt.
      pose proof (uint32_range (CONFIG_UINT32_MAX_OVERSPEED_PINGS env)). lia. }
    rewrite Hcount.
    refine (conj _ (conj _ (conj _ (conj _ (conj _ (conj _ _)))))).
    + exact Hnow.
    + intros Hmin. contradiction.
    + intros _ Hw. rewrite Hc2 by assumption. auto.
    + exact Hc3.
    + split; [intros _|intros _; exact Hk].
      split; [exact Hnz|]. split; [exact Hlt|]. exists session; auto.
    + intros session' _. split; [intros _; exact Hk|intros _; reflexivity].
    + intros session' Hs' Hp'. congruence.
  - (* the ping is answered or refused for want of a session *)
    pose proof (answer_ping_spec ping latency s1) as Ha. cbv zeta in Ha.
    destruct (answer_ping ping latency s1) as [o s2]. cbn [fst snd] in Ha |- *.
    destruct Ha as (Hl & Ho & (new & He & Hnk) & Htrue & Hfalse).
    rewrite app_nil_r in Heff.
    assert (Hno : ~ overspeed_kick o s s2).
    { intros [_ HIn]. rewrite (@new_effects_app P s s2 new) in HIn
        by (rewrite He, Heff; reflexivity).
      exact (Hnk _ HIn). }
    rewrite Hl, Ho, Hnow, Hcount.
    refine (conj _ (conj _ (conj _ (conj _ (conj _ (conj _ _)))))).
    + reflexivity.
    + intros Hmin. split; [exact (Hc1 Hmin)|exact Hno].
    + intros Hne Hw. rewrite Hc2 by assumption. auto.
    + exact Hc3.
    + split; [intros Hk; contradiction|].
      intros Hcond. apply Hkick in Hcond. discriminate.
    + intros session Hs. split; [|intros Hk; contradiction].
      intros Hf. apply Hfalse in Hf. congruence.
    + intros session Hs _. apply Htrue. congruence.
Qed.

(** The keepalive counters stay well-formed as long as the clock does not
    return the sentinel. *)
Lemma HandlePing_state_ok env now pkt s :
  now <> time_point_min -> ping_state_ok s ->
  ping_state_ok (snd (HandlePing env now pkt s)).
Proof.
  intros Hnow Hok.
  pose proof (count_ping_spec env now Hok) as Hc. cbv zeta in Hc.
  unfold HandlePing.
  destruct (BB.bind _ _ _) as [[[ping latency] b]|]; [|exact Hok].
  destruct (count_ping env now s) as [kicked s1]. cbn [fst snd] in Hc.
  destruct Hc as (Hl & _ & Hcount & _).
  assert (Hok1 : ping_state_ok s1).
  { split; [|rewrite Hl; intros; contradiction].
    rewrite Hcount. unfold counted. destruct Hok as [Hr _].
    destruct (_ =? _); [exact Hr|].
    destruct (_ <? 27); [apply uint32_range|lia]. }
  destruct kicked; [exact Hok1|].
  pose proof (answer_ping_spec ping latency s1) as Ha. cbv zeta in Ha.
  destruct (answer_ping ping latency s1) as [o s2]. cbn [fst snd] in Ha |- *.
  destruct Ha as (Hl2 & Ho2 & _).
  unfold ping_state_ok. rewrite Hl2, Ho2. exact Hok1.
Qed.

Lemma WorldSocket_new_state_ok address seed crypt :
  ping_state_ok (WorldSocket_new address seed crypt).
Proof. split; cbn; [lia|reflexivity]. Qed.

End Keepalive.

Lemma C6_ping_overspeed_policy_witness :
  let s := set_overSpeedPings 2 (set_lastPingTime 0 (authed_socket 0)) in
  let r := HandlePing (sample_env 0 false (sample_row 0 0)) (10 * ticks_per_second)
             (ping_packet 1 0) s in
  overspeed_kick (fst r) s (snd r).
Proof.
  intros s r.
  refine (proj2 (proj1 (proj2 (proj2 (proj2 (proj2
            (@C6_ping_overspeed_policy sample_platform
               (sample_env 0 false (sample_row 0 0)) (10 * ticks_per_second)
               (ping_packet 1 0) s _ _)))))) _).
  - split; [cbn; lia|]. vm_compute. discriminate.
  - vm_compute. discriminate.
  - split; [vm_compute; discriminate|]. split; [vm_compute; reflexivity|].
    exists (sample_session 0). split; reflexivity.
Defined.

(** The keepalive scenario of the specification: a second ping 10 seconds
    after the first counts one overspeed ping, and a ping 30 seconds later
    clears the count. *)
Example keepalive_count_and_reset :
  let env := sample_env 0 false (sample_row 0 0) in
  m_overSpeedPings (snd (run_pings env [0; 10 * ticks_per_second] (authed_socket 0))) = 1
  /\ m_overSpeedPings
       (snd (run_pings env [0; 10 * ticks_per_second; 40 * ticks_per_second]
               (authed_socket 0))) = 0.
Proof. split; vm_compute; reflexivity. Qed.

(** With a cap of 2, the third rapid ping after the first one kicks a
    SEC_PLAYER session; an administrator with the same pattern is answered
    every time. *)
Example keepalive_cap_of_two :
  let env := sample_env 0 false (sample_row 0 0) in
  let times := [0; 1 * ticks_per_second; 2 * ticks_per_second; 3 * ticks_per_second] in
  fst (run_pings env times (authed_socket 0))
  = [Return true; Return true; Return true; Return false]
  /\ fst (run_pings env times (authed_socket 3))
     = [Return true; Return true; Return true; Return true].
Proof. split; vm_compute; reflexivity. Qed.

(** ** Handshake *)

Section HandshakeProperties.

Context {P : Platform}.

Implicit Types s : WorldSocket P.

Lemma auth_response_contents (opcode code : Z) :
  let pkt := pkt_append_int 1 (uint8 code)
               (pkt_WriteBit false (pkt_WriteBit false (new_packet opcode))) in
  GetOpcode pkt = opcode /\ contents pkt = [0; uint8 code].
Proof.
  cbv zeta. split; [reflexivity|].
  unfold contents, pkt_append_int, pkt_WriteBit, new_packet, BB.append_int, BB.FlushBits,
    BB.WriteBit, BB.append_raw, empty_buffer.
  cbn -[uint8]. f_equal. f_equal.
  unfold uint8. change (2 ^ 8) with 256. apply Z.mod_mod. lia.
Qed.

Lemma pending_bits_contents (opcode : Z) :
  let pkt := pkt_WriteBit false (pkt_WriteBit false (new_packet opcode)) in
  GetOpcode pkt = opcode /\ contents pkt = [].
Proof. split; reflexivity. Qed.

Local Arguments SendPacket : simpl never.
Local Arguments uint8 : simpl never.
Local Arguments uint16 : simpl never.
Local Arguments uint32 : simpl never.
Local Arguments GetUInt8 : simpl never.
Local Arguments GetUInt16 : simpl never.
Local Arguments GetUInt32 : simpl never.
Local Arguments GetUInt64 : simpl never.
Local Arguments to_time_t : simpl never.
Local Arguments strcmp_ne : simpl never.
Local Arguments memcmp_ne : simpl never.
Local Arguments c_str : simpl never.
Local Arguments auth_digest : simpl never.
Local Arguments pkt_append_int : simpl never.
Local Arguments pkt_WriteBit : simpl never.
Local Arguments new_packet : simpl never.
Local Arguments Z.ltb : simpl never.
Local Arguments Z.leb : simpl never.
Local Arguments Z.eqb : simpl never.

(** What a rejection leaves behind: the state before the response was sent
    differs from the initial one in the salt and in debug log lines only. *)
Lemma checks_rejected env m s r :
  first_triggered code_precedence env m s = Some r ->
  exists s0 pkt dbg,
    HandleAuthSession_checks env m s
    = (Return false, log (rejection_line r) (SendPacket pkt false s0))
    /\ effects s0 = effects s ++ dbg
    /\ Forall response_or_log dbg
    /\ first_rejection dbg = None
    /\ sent_packets dbg = []
    /\ m_session s0 = m_session s
    /\ m_crypt s0 = m_crypt s
    /\ m_closed s0 = m_closed s
    /\ (r <> ServerUnavailable ->
        GetOpcode pkt = SMSG_AUTH_RESPONSE /\ contents pkt = rejection_body r)
    /\ (r = ServerUnavailable -> GetOpcode pkt = MSG_NULL_ACTION /\ contents pkt = []).
Proof.
  unfold first_triggered, code_precedence, HandleAuthSession_checks.
  cbn [find triggers]. unfold fetched_row, clamped_security.
  destruct (IsAcceptableClientBuild env (clientBuild m)); cbn [negb].
  2:{ intros H; inversion H; subst r. do 3 eexists.
      split; [reflexivity|]. cbn.
      split; [reflexivity|]. split; [repeat constructor|].
      repeat split; try discriminate; try apply auth_response_contents. }
  destruct (db_account env (c_str (escape_string env (accountName m)))) as [row|].
  2:{ intros H; inversion H; subst r. do 3 eexists.
      split; [reflexivity|]. cbn.
      split; [reflexivity|]. split; [repeat constructor|].
      repeat split; try discriminate; try apply auth_response_contents. }
  cbn. unfold GetRemoteAddress.
  destruct ((GetUInt8 (f_locked row) =? 1) && strcmp_ne (f_lockedIp row) (m_address s)).
  { intros H; inversion H; subst r. do 3 eexists.
    split; [reflexivity|]. cbn. rewrite <- app_assoc.
    split; [reflexivity|]. split; [repeat constructor|].
    repeat split; try discriminate; try apply auth_response_contents. }
  destruct (db_banned env (GetUInt32 (f_id row)) (c_str (m_address s))).
  { intros H; inversion H; subst r. do 3 eexists.
    split; [reflexivity|]. cbn. rewrite <- app_assoc.
    split; [reflexivity|]. split; [repeat constructor|].
    repeat split; try discriminate; try apply auth_response_contents. }
  match goal with |- context [if ?c then Some ServerUnavailable else _] => destruct c end.
  { intros H; inversion H; subst r. do 3 eexists.
    split; [reflexivity|]. cbn. rewrite <- app_assoc.
    split; [reflexivity|]. split; [repeat constructor|].
    repeat split; try discriminate; try congruence. }
  match goal with |- context [if ?c then Some DigestMismatch else _] => destruct c end.
  { intros H; inversion H; subst r. do 3 eexists.
    split; [reflexivity|]. cbn. rewrite <- app_assoc.
    split; [reflexivity|]. split; [repeat constructor|].
    repeat split; try discriminate; try apply auth_response_contents. }
  discriminate.
Qed.

(** Without a triggered rejection the session is constructed from the row and
    the call ends in [true], or in the exception of the add-on parser. *)
Lemma checks_accepted env m s :
  first_triggered code_precedence env m s = None ->
  exists row,
    fetched_row env m = Some row
    /\ let K := SetHexStr (f_sessionkey row) in
       let loaded := LoadTutorialsData (LoadGlobalAccountData (constructed_session env row)) in
       match ReadAddonsInfo loaded (addonsData m) with
       | Some session =>
         exists s',
           HandleAuthSession_checks env m s = (Return true, s')
           /\ m_session s' = Some session
           /\ m_crypt s' = CryptInit (m_crypt s) K
           /\ exists dbg,
               effects s' = effects s ++ dbg
                 ++ [Db_InsertLogon (GetUInt32 (f_id row)) (c_str (GetRemoteAddress s))
                       LOGIN_TYPE_MANGOSD;
                     Call_CryptInit K; World_AddSession session]
               /\ first_rejection dbg = None
       | None =>
         exists s',
           HandleAuthSession_checks env m s = (Throw, s')
           /\ first_rejection (new_effects s s') = None
       end.
Proof.
  unfold first_triggered, code_precedence, HandleAuthSession_checks.
  cbn [find triggers]. unfold fetched_row, clamped_security, constructed_session,
    session_expansion, session_locale.
  destruct (IsAcceptableClientBuild env (clientBuild m)); cbn [negb]; [|discriminate].
  destruct (db_account env (c_str (escape_string env (accountName m)))) as [row|];
    [|discriminate].
  cbn. unfold GetRemoteAddress.
  destruct ((GetUInt8 (f_locked row) =? 1) && strcmp_ne (f_lockedIp row) (m_address s));
    [discriminate|].
  destruct (db_banned env (GetUInt32 (f_id row)) (c_str (m_address s))); [discriminate|].
  match goal with |- context [if ?c then Some ServerUnavailable else _] => destruct c end;
    [discriminate|].
  match goal with |- context [if ?c then Some DigestMismatch else _] => destruct c end;
    [discriminate|].
  intros _. exists row. split; [reflexivity|].
  destruct (ReadAddonsInfo _ _) as [session|].
  - eexists. split; [reflexivity|]. cbn.
    split; [reflexivity|]. split; [reflexivity|].
    exists [Log (Debug_AuthSession (clientBuild m) (accountName m) (clientSeed m));
            Log (Debug_sv_check (AsHexStr (SetHexStr (f_s row)))
                   (AsHexStr (SetHexStr (f_v row))));
            Log (Debug_Authenticated (accountName m) (m_address s))].
    split; [|reflexivity]. repeat rewrite <- app_assoc. reflexivity.
  - eexists. split; [reflexivity|].
    erewrite new_effects_app; [|cbn; repeat rewrite <- app_assoc; reflexivity].
    reflexivity.
Qed.

Lemma SendPacket_crypt pct immediate s :
  m_crypt (SendPacket pct immediate s) = m_crypt s
  \/ exists hdr, m_crypt (SendPacket pct immediate s) = fst (EncryptSend (m_crypt s) hdr).
Proof.
  unfold SendPacket. destruct (IsClosed s); [left; reflexivity|]. right.
  exists (firstn (Z.to_nat (ServerPktHeader.getHeaderLength (uint32 (pkt_size pct + 2))))
                 (ServerPktHeader.header (uint32 (pkt_size pct + 2))
                                         (uint16 (GetOpcode pct)))).
  destruct (ServerPktHeader.isLargePacket _); cbn -[firstn];
    destruct (EncryptSend _ _) as [crypt enc]; destruct immediate; reflexivity.
Qed.

Lemma first_rejection_app (a b : list Effect) :
  first_rejection (a ++ b)
  = match first_rejection a with Some x => Some x | None => first_rejection b end.
Proof.
  induction a as [|e a IH]; [reflexivity|].
  cbn. destruct (rejection_of_effect e); [reflexivity|exact IH].
Qed.

Lemma first_rejection_send (new : list Effect) :
  Forall send_effect new -> first_rejection new = None.
Proof.
  induction 1 as [|e new He _ IH]; [reflexivity|].
  cbn. destruct e as [[]| | | | | | |]; cbn in He |- *; try contradiction; exact IH.
Qed.

Lemma sent_packets_app (a b : list Effect) :
  sent_packets (a ++ b) = sent_packets a ++ sent_packets b.
Proof.
  induction a as [|e a IH]; [reflexivity|].
  destruct e as [[]| | | | | | |]; cbn; try exact IH.
  destruct incoming; cbn; [exact IH|]. now rewrite IH.
Qed.

Lemma written_app (a b : list Effect) : written (a ++ b) = written a ++ written b.
Proof.
  induction a as [|e a IH]; [reflexivity|].
  destruct e; cbn; try exact IH. now rewrite IH.
Qed.

Lemma rejection_line_inv (r : Rejection) :
  rejection_of_effect (Log (rejection_line r)) = Some r.
Proof. destruct r; reflexivity. Qed.

(** The trace of a rejected handshake. *)
Lemma checks_rejected_trace env m s r :
  first_triggered code_precedence env m s = Some r ->
  exists s' new pkt,
    HandleAuthSession_checks env m s = (Return false, s')
    /\ m_session s' = m_session s
    /\ (m_crypt s' = m_crypt s
        \/ exists hdr, m_crypt s' = fst (EncryptSend (m_crypt s) hdr))
    /\ effects s' = effects s ++ new
    /\ Forall response_or_log new
    /\ first_rejection new = Some r
    /\ (r <> ServerUnavailable ->
        GetOpcode pkt = SMSG_AUTH_RESPONSE /\ contents pkt = rejection_body r)
    /\ (r = ServerUnavailable -> GetOpcode pkt = MSG_NULL_ACTION /\ contents pkt = [])
    /\ (m_closed s = false -> sent_packets new = [(GetOpcode pkt, contents pkt)]).
Proof.
  intros Hr.
  destruct (checks_rejected _ _ _ Hr)
    as (s0 & pkt & dbg & Heq & He0 & Hdbg & Hnone & Hsent & Hs0 & Hc0 & Hcl0 & Hgood & Hbad).
  destruct (SendPacket_effects pkt false s0) as (new & He & Hsend & Hresp & Hpk).
  pose proof (SendPacket_frame pkt false s0) as Hf. cbv zeta in Hf.
  destruct Hf as (_ & _ & _ & _ & _ & _ & _ & _ & Hsess & _).
  exists (log (rejection_line r) (SendPacket pkt false s0)),
         (dbg ++ new ++ [Log (rejection_line r)]), pkt.
  split; [exact Heq|].
  split; [cbn; congruence|].
  split.
  { cbn. rewrite <- Hc0. apply SendPacket_crypt. }
  split; [cbn; rewrite He, He0; now rewrite <- !app_assoc|].
  split.
  { apply Forall_app; split; [exact Hdbg|].
    apply Forall_app; split; [auto|]. repeat constructor. }
  split.
  { rewrite !first_rejection_app, Hnone, (first_rejection_send Hsend).
    cbn [first_rejection]. now rewrite rejection_line_inv. }
  split; [exact Hgood|]. split; [exact Hbad|].
  intros Hopen. rewrite <- Hcl0 in Hopen. destruct (Hpk Hopen) as [Hp _].
  rewrite !sent_packets_app, Hsent, Hp. destruct r; reflexivity.
Qed.

Lemma checks_verdict env m s :
  fst (HandleAuthSession_checks env m s) = Return false
  <-> first_triggered code_precedence env m s <> None.
Proof.
  destruct (first_triggered code_precedence env m s) as [r|] eqn:Hr.
  - destruct (checks_rejected_trace _ _ _ Hr) as (s' & new & pkt & Heq & _).
    rewrite Heq. split; [discriminate|reflexivity].
  - destruct (checks_accepted _ _ _ Hr) as (row & _ & H). cbv zeta in H.
    destruct (ReadAddonsInfo _ _); destruct H as (s' & Heq & _); rewrite Heq;
      split; intros H; try discriminate; now elim H.
Qed.

Lemma checks_reported env m s :
  reported_reason s (snd (HandleAuthSession_checks env m s))
  = first_triggered code_precedence env m s.
Proof.
  unfold reported_reason.
  destruct (first_triggered code_precedence env m s) as [r|] eqn:Hr.
  - destruct (checks_rejected_trace _ _ _ Hr)
      as (s' & new & pkt & Heq & _ & _ & He & _ & Hfirst & _).
    rewrite Heq. cbn [snd]. now rewrite (@new_effects_app P s s' new He).
  - destruct (checks_accepted _ _ _ Hr) as (row & _ & H). cbv zeta in H.
    destruct (ReadAddonsInfo _ _) as [session|].
    + destruct H as (s' & Heq & _ & _ & dbg & He & Hnone). rewrite Heq. cbn [snd].
      rewrite (@new_effects_app P s s' _ He), first_rejection_app, Hnone. reflexivity.
    + destruct H as (s' & Heq & Hnone). rewrite Heq. exact Hnone.
Qed.

Lemma HandleAuthSession_parsed env pkt m b s :
  read_auth_session (buf pkt) = Some (m, b) ->
  HandleAuthSession env pkt s = HandleAuthSession_checks env m s.
Proof. intros H. unfold HandleAuthSession. now rewrite H. Qed.

Lemma triggers_with_locale l env m s r :
  triggers (with_locale l env) m s r = triggers env m s r.
Proof.
  destruct r; unfold triggers, fetched_row, with_locale, clamped_security; cbn;
    try reflexivity;
    destruct (db_account env (c_str (escape_string env (accountName m)))); reflexivity.
Qed.

Lemma first_triggered_with_locale l order env m s :
  first_triggered order (with_locale l env) m s = first_triggered order env m s.
Proof.
  unfold first_triggered. induction order as [|r order IH]; [reflexivity|].
  cbn [find]. now rewrite triggers_with_locale, IH.
Qed.

(** C1 (as the code has it): the rejection that is reported is the first one
    triggered in the order version mismatch, unknown account, IP lock,
    account/IP ban, minimum-security gate, digest mismatch; the digest is
    compared after the ban query and after the security gate.  For every
    rejection but the security gate the response that is sent carries the
    reason code. *)
Theorem C1_rejection_precedence env pkt m b s :
  read_auth_session (buf pkt) = Some (m, b) ->
  let o := fst (HandleAuthSession env pkt s) in
  let s' := snd (HandleAuthSession env pkt s) in
  reported_reason s s' = first_triggered code_precedence env m s
  /\ (o = Return false <-> first_triggered code_precedence env m s <> None)
  /\ (reported_reason s s' = Some DigestMismatch ->
      triggers env m s AccountBanned = false
      /\ triggers env m s ServerUnavailable = false)
  /\ (forall r, reported_reason s s' = Some r -> r <> ServerUnavailable ->
      m_closed s = false ->
      sent_packets (new_effects s s') = [(SMSG_AUTH_RESPONSE, rejection_body r)]).
Proof.
  intros Hparse. cbv zeta. rewrite (@HandleAuthSession_parsed env pkt m b s Hparse).
  rewrite checks_reported.
  split; [reflexivity|]. split; [apply checks_verdict|]. split.
  - unfold first_triggered, code_precedence. cbn [find].
    repeat match goal with
           | |- context [if ?c then _ else _] => destruct c; try discriminate
           end; auto.
  - intros r Hr Hne Hopen.
    destruct (checks_rejected_trace _ _ _ Hr)
      as (s' & new & p & Heq & _ & _ & He & _ & _ & Hgood & _ & Hsent).
    rewrite Heq. cbn [snd]. rewrite (@new_effects_app P s s' new He), (Hsent Hopen).
    destruct (Hgood Hne) as [-> ->]. reflexivity.
Qed.

(** C9: a failure verdict of the handshake leaves the session pointer as it
    was, and everything it appended to the trace is a log line or a step of
    sending the response: the cipher was not keyed, no login record was
    inserted and no session was registered with the world. *)
Theorem C9_failure_leaves_no_session env pkt s s' :
  HandleAuthSession env pkt s = (Return false, s') ->
  m_session s' = m_session s
  /\ (m_session s = None -> m_session s' = None)
  /\ (m_crypt s' = m_crypt s
      \/ exists hdr, m_crypt s' = fst (EncryptSend (m_crypt s) hdr))
  /\ exists new,
      effects s' = effects s ++ new
      /\ Forall response_or_log new
      /\ (forall K, ~ In (Call_CryptInit K) new)
      /\ (forall id address source, ~ In (Db_InsertLogon id address source) new)
      /\ (forall session, ~ In (World_AddSession session) new).
Proof.
  unfold HandleAuthSession.
  destruct (read_auth_session (buf pkt)) as [[m b]|]; [|discriminate].
  intros Heq.
  assert (Hv : fst (HandleAuthSession_checks env m s) = Return false) by now rewrite Heq.
  apply checks_verdict in Hv.
  destruct (first_triggered code_precedence env m s) as [r|] eqn:Hr; [|now elim Hv].
  destruct (checks_rejected_trace _ _ _ Hr)
    as (s1 & new & p & Heq1 & Hs & Hc & He & Hall & _).
  rewrite Heq in Heq1. inversion Heq1; subst s1.
  split; [exact Hs|]. split; [congruence|]. split; [exact Hc|].
  exists new. split; [exact He|]. split; [exact Hall|].
  rewrite Forall_forall in Hall.
  repeat split; intros; intros HIn; exact (Hall _ HIn).
Qed.

(** C10: a stored locale at or above MAX_LOCALE is no reason to reject: the
    verdict of the checks does not depend on the stored locale, and the
    session of a successful handshake is the one constructed with
    LOCALE_enUS. *)
Theorem C10_invalid_locale_defaults env pkt m b s row :
  read_auth_session (buf pkt) = Some (m, b) ->
  fetched_row env m = Some row ->
  uint8 MAX_LOCALE <= GetUInt8 (f_locale row) ->
  session_locale row = LOCALE_enUS
  /\ m_sessionDbcLocale (constructed_session env row) = LOCALE_enUS
  /\ (forall l, fst (HandleAuthSession env pkt s) = Return false
                <-> fst (HandleAuthSession (with_locale l env) pkt s) = Return false)
  /\ (forall s', HandleAuthSession env pkt s = (Return true, s') ->
      exists session,
        ReadAddonsInfo
          (LoadTutorialsData (LoadGlobalAccountData (constructed_session env row)))
          (addonsData m) = Some session
        /\ m_session s' = Some session
        /\ In (World_AddSession session) (new_effects s s'))
  /\ (first_triggered code_precedence env m s = None ->
      forall session,
        ReadAddonsInfo
          (LoadTutorialsData (LoadGlobalAccountData (constructed_session env row)))
          (addonsData m) = Some session ->
        fst (HandleAuthSession env pkt s) = Return true).
Proof.
  intros Hparse Hrow Hloc.
  assert (Hl : session_locale row = LOCALE_enUS).
  { unfold session_locale.
    assert (Hu : uint8 (GetUInt8 (f_locale row)) = GetUInt8 (f_locale row)).
    { unfold GetUInt8, uint8. apply Z.mod_mod. lia. }
    rewrite Hu. apply Z.leb_le in Hloc. now rewrite Hloc. }
  split; [exact Hl|]. split; [exact Hl|]. split; [|split].
  - intros l. rewrite (@HandleAuthSession_parsed env pkt m b s Hparse), (@HandleAuthSession_parsed (with_locale l env) pkt m b s Hparse), !checks_verdict.
    now rewrite first_triggered_with_locale.
  - intros s' Heq. rewrite (@HandleAuthSession_parsed env pkt m b s Hparse) in Heq.
    destruct (first_triggered code_precedence env m s) as [r|] eqn:Hr.
    + destruct (checks_rejected_trace _ _ _ Hr) as (s1 & new & p & Heq1 & _).
      rewrite Heq in Heq1. discriminate.
    + destruct (checks_accepted _ _ _ Hr) as (row' & Hrow' & H). cbv zeta in H.
      rewrite Hrow in Hrow'. inversion Hrow'; subst row'.
      destruct (ReadAddonsInfo _ _) as [session|].
      * destruct H as (s1 & Heq1 & Hs & _ & dbg & He & _).
        rewrite Heq in Heq1. inversion Heq1; subst s1.
        exists session. split; [reflexivity|]. split; [exact Hs|].
        rewrite (@new_effects_app P s s' _ He).
        apply in_or_app. right. cbn. auto.
      * destruct H as (s1 & Heq1 & _). rewrite Heq in Heq1. discriminate.
  - intros Hr session Hread. rewrite (@HandleAuthSession_parsed env pkt m b s Hparse).
    destruct (checks_accepted _ _ _ Hr) as (row' & Hrow' & H). cbv zeta in H.
    rewrite Hrow in Hrow'. inversion Hrow'; subst row'.
    rewrite Hread in H. destruct H as (s1 & Heq1 & _). now rewrite Heq1.
Qed.

End HandshakeProperties.

Section HandshakeRuns.

#[local] Existing Instance sample_platform.

(** C1 (as the specification words it) fails: for a banned account whose
    client sends a wrong digest, the specification's order makes the digest
    mismatch the reported reason, and the code reports the ban. *)
Lemma C1_ban_reported_before_digest :
  let env := sample_env 0 true (sample_row 0 0) in
  let pkt := sample_credentials bad_digest in
  exists m b,
    read_auth_session (buf pkt) = Some (m, b)
    /\ triggers env m sample_socket DigestMismatch = true
    /\ triggers env m sample_socket AccountBanned = true
    /\ first_triggered spec_precedence env m sample_socket = Some DigestMismatch
    /\ reported_reason sample_socket (snd (HandleAuthSession env pkt sample_socket))
       = Some AccountBanned
    /\ sent_packets
         (new_effects sample_socket (snd (HandleAuthSession env pkt sample_socket)))
       = [(SMSG_AUTH_RESPONSE, [0; AUTH_BANNED])].
Proof.
  cbv zeta. do 2 eexists. split; [vm_compute; reflexivity|].
  repeat split; vm_compute; reflexivity.
Qed.

Lemma C1_rejection_precedence_witness :
  reported_reason sample_socket
    (snd (HandleAuthSession (sample_env 0 true (sample_row 0 0))
            (sample_credentials bad_digest) sample_socket))
  = Some AccountBanned.
Proof.
  eassert (Hp : read_auth_session (buf (sample_credentials bad_digest)) = Some (_, _))
    by (vm_compute; reflexivity).
  rewrite (proj1 (@C1_rejection_precedence sample_platform
                    (sample_env 0 true (sample_row 0 0)) _ _ _ sample_socket Hp)).
  vm_compute. reflexivity.
Defined.

(** C8 at the failing input: an account of security 0 on a realm whose
    minimum security is 1, with the right digest.  The handshake takes the
    security-gate rejection, and the packet it sends is the untouched local
    packet: opcode MSG_NULL_ACTION, empty body, four header bytes on the
    wire, without SMSG_AUTH_RESPONSE and without the AUTH_UNAVAILABLE byte. *)
Lemma C8_security_gate_sends_empty_packet :
  let env := sample_env 1 false (sample_row 0 0) in
  let r := HandleAuthSession env (sample_credentials good_digest) sample_socket in
  fst r = Return false
  /\ reported_reason sample_socket (snd r) = Some ServerUnavailable
  /\ sent_packets (new_effects sample_socket (snd r)) = [(MSG_NULL_ACTION, [])]
  /\ written (new_effects sample_socket (snd r)) = [[0; 2; 0; 0]]
  /\ ~ In AUTH_UNAVAILABLE (concat (written (new_effects sample_socket (snd r))))
  /\ sent_packets (new_effects sample_socket (snd r))
     <> [(SMSG_AUTH_RESPONSE, rejection_body ServerUnavailable)].
Proof.
  cbv zeta. repeat split; try (vm_compute; reflexivity).
  - vm_compute. intuition discriminate.
  - vm_compute. discriminate.
Qed.

Lemma C9_failure_leaves_no_session_witness :
  m_session (snd (HandleAuthSession (sample_env 0 false (sample_row 0 0))
                    (sample_credentials bad_digest) sample_socket)) = None.
Proof.
  set (r := HandleAuthSession (sample_env 0 false (sample_row 0 0))
              (sample_credentials bad_digest) sample_socket).
  assert (Hf : fst r = Return false) by (vm_compute; reflexivity).
  assert (H : r = (Return false, snd r)) by (rewrite <- Hf; destruct r; reflexivity).
  exact (proj1 (proj2 (C9_failure_leaves_no_session _ _ _ H)) eq_refl).
Defined.

Lemma C10_invalid_locale_defaults_witness :
  m_sessionDbcLocale
    (@constructed_session sample_platform (sample_env 0 false (sample_row 0 200))
       (sample_row 0 200)) = 0.
Proof.
  eassert (Hp : read_auth_session (buf (sample_credentials good_digest)) = Some (_, _))
    by (vm_compute; reflexivity).
  refine (proj1 (proj2 (@C10_invalid_locale_defaults sample_platform
                          (sample_env 0 false (sample_row 0 200)) _ _ _ sample_socket
                          (sample_row 0 200) Hp _ _))).
  - vm_compute. reflexivity.
  - vm_compute. discriminate.
Defined.

End HandshakeRuns.

(** ** Partial delivery *)

Section PartialDelivery.

Context {P : Platform}.

Implicit Types s a : WorldSocket P.

Lemma same_but_cache_with_cache h e a : same_but_cache (with_cache h e a) a.
Proof. unfold same_but_cache. cbn. tauto. Qed.

Lemma same_but_cache_trans a b c :
  same_but_cache a b -> same_but_cache b c -> same_but_cache a c.
Proof. unfold same_but_cache. intuition congruence. Qed.

Lemma same_but_cache_sym a b : same_but_cache a b -> same_but_cache b a.
Proof. unfold same_but_cache. intuition congruence. Qed.

Lemma same_but_cache_eq a b :
  same_but_cache a b -> a = with_cache (m_existingHeader a) (errno a) b.
Proof.
  destruct a, b. unfold same_but_cache, with_cache. cbn.
  intros (-> & -> & -> & -> & -> & -> & -> & -> & -> & -> & -> & ->). reflexivity.
Qed.

(** The handlers neither read nor write the cached header and [errno]. *)

Lemma log_with_cache h e l a : log l (with_cache h e a) = with_cache h e (log l a).
Proof. reflexivity. Qed.

Lemma emit_with_cache h e x a : emit x (with_cache h e a) = with_cache h e (emit x a).
Proof. reflexivity. Qed.

Lemma set_s_with_cache h e x a : set_s x (with_cache h e a) = with_cache h e (set_s x a).
Proof. reflexivity. Qed.

Lemma set_session_with_cache h e x a :
  set_session x (with_cache h e a) = with_cache h e (set_session x a).
Proof. reflexivity. Qed.

Lemma set_crypt_with_cache h e x a :
  set_crypt x (with_cache h e a) = with_cache h e (set_crypt x a).
Proof. reflexivity. Qed.

Lemma set_lastPingTime_with_cache h e x a :
  set_lastPingTime x (with_cache h e a) = with_cache h e (set_lastPingTime x a).
Proof. reflexivity. Qed.

Lemma set_overSpeedPings_with_cache h e x a :
  set_overSpeedPings x (with_cache h e a) = with_cache h e (set_overSpeedPings x a).
Proof. reflexivity. Qed.

Lemma SendPacket_with_cache h e pct immediate a :
  SendPacket pct immediate (with_cache h e a) = with_cache h e (SendPacket pct immediate a).
Proof.
  unfold SendPacket, IsClosed. cbn [m_closed with_cache set_errno set_existingHeader].
  destruct (m_closed a); [reflexivity|].
  destruct (ServerPktHeader.isLargePacket _); cbn -[firstn];
    destruct (EncryptSend _ _) as [crypt enc]; destruct immediate; reflexivity.
Qed.

Lemma m_session_with_cache h e a : m_session (with_cache h e a) = m_session a.
Proof. reflexivity. Qed.

Lemma m_address_with_cache h e a : m_address (with_cache h e a) = m_address a.
Proof. reflexivity. Qed.

Lemma m_seed_with_cache h e a : m_seed (with_cache h e a) = m_seed a.
Proof. reflexivity. Qed.

Lemma m_crypt_with_cache h e a : m_crypt (with_cache h e a) = m_crypt a.
Proof. reflexivity. Qed.

Lemma m_lastPingTime_with_cache h e a :
  m_lastPingTime (with_cache h e a) = m_lastPingTime a.
Proof. reflexivity. Qed.

Lemma m_overSpeedPings_with_cache h e a :
  m_overSpeedPings (with_cache h e a) = m_overSpeedPings a.
Proof. reflexivity. Qed.

Lemma on_ByteBufferException_with_cache h e env opcode pct a :
  on_ByteBufferException env opcode pct (with_cache h e a)
  = (fst (on_ByteBufferException env opcode pct a),
     with_cache h e (snd (on_ByteBufferException env opcode pct a))).
Proof.
  unfold on_ByteBufferException, account_for_log. cbv zeta.
  destruct (HasLogLevelDebug env);
    destruct (CONFIG_BOOL_KICK_PLAYER_ON_BAD_PACKET env); reflexivity.
Qed.

Lemma decrypt_calls_app (x y : list Effect) :
  decrypt_calls (x ++ y) = (decrypt_calls x + decrypt_calls y)%nat.
Proof.
  induction x as [|ev x IH]; [reflexivity|].
  destruct ev; cbn; rewrite ?IH; reflexivity.
Qed.

Lemma decrypt_calls_log l a :
  decrypt_calls (effects (log l a)) = decrypt_calls (effects a).
Proof. cbn. rewrite decrypt_calls_app. cbn. lia. Qed.

Lemma decrypt_calls_emit x a :
  (forall bs, x <> Call_DecryptRecv bs) ->
  decrypt_calls (effects (emit x a)) = decrypt_calls (effects a).
Proof.
  intros Hx. cbn. rewrite decrypt_calls_app.
  destruct x; cbn; try lia. now elim (Hx bs).
Qed.

Lemma decrypt_calls_SendPacket pct immediate a :
  decrypt_calls (effects (SendPacket pct immediate a)) = decrypt_calls (effects a).
Proof.
  destruct (SendPacket_effects pct immediate a) as (new & He & Hall & _).
  rewrite He, decrypt_calls_app.
  assert (Hz : decrypt_calls new = 0%nat).
  { clear He. induction Hall as [|x new Hx _ IH]; [reflexivity|].
    destruct x as [[]| | | | | | |]; cbn in Hx |- *; try contradiction; exact IH. }
  lia.
Qed.

Lemma effects_set_s x a : effects (set_s x a) = effects a.
Proof. reflexivity. Qed.

Lemma effects_set_session x a : effects (set_session x a) = effects a.
Proof. reflexivity. Qed.

Lemma effects_set_crypt x a : effects (set_crypt x a) = effects a.
Proof. reflexivity. Qed.

Lemma effects_set_lastPingTime x a : effects (set_lastPingTime x a) = effects a.
Proof. reflexivity. Qed.

Lemma effects_set_overSpeedPings x a : effects (set_overSpeedPings x a) = effects a.
Proof. reflexivity. Qed.

Local Opaque with_cache log emit set_s set_session set_crypt set_lastPingTime
  set_overSpeedPings SendPacket.

(** Moves [with_cache] to the outside of the state and drops it under the
    fields the handlers read. *)
Ltac cache_out :=
  repeat (progress (rewrite ?log_with_cache, ?emit_with_cache, ?set_s_with_cache,
                      ?set_session_with_cache, ?set_crypt_with_cache,
                      ?set_lastPingTime_with_cache, ?set_overSpeedPings_with_cache,
                      ?SendPacket_with_cache, ?m_session_with_cache,
                      ?m_address_with_cache, ?m_seed_with_cache, ?m_crypt_with_cache,
                      ?m_lastPingTime_with_cache, ?m_overSpeedPings_with_cache)).

Ltac branch_step :=
  match goal with
  | |- context [if ?c then _ else _] => destruct c
  | |- context [match ?c with Some _ => _ | None => _ end] => destruct c
  | |- context [match ?c with (_, _) => _ end] => is_var c; destruct c
  end.

Ltac cache_step := cache_out; branch_step.

(** Drops everything but calls of the receive cipher from a count over the
    trace. *)
Ltac calls_out :=
  repeat (progress (rewrite ?decrypt_calls_log, ?decrypt_calls_SendPacket,
                      ?effects_set_s, ?effects_set_session, ?effects_set_crypt,
                      ?effects_set_lastPingTime, ?effects_set_overSpeedPings;
                    rewrite ?decrypt_calls_emit by (intros; discriminate))).

Lemma HandleAuthSession_checks_with_cache h e env m a :
  HandleAuthSession_checks env m (with_cache h e a)
  = (fst (HandleAuthSession_checks env m a),
     with_cache h e (snd (HandleAuthSession_checks env m a))).
Proof.
  unfold HandleAuthSession_checks, GetRemoteAddress. cbv zeta.
  repeat cache_step; cache_out; reflexivity.
Qed.

Lemma HandleAuthSession_with_cache h e env pkt a :
  HandleAuthSession env pkt (with_cache h e a)
  = (fst (HandleAuthSession env pkt a), with_cache h e (snd (HandleAuthSession env pkt a))).
Proof.
  unfold HandleAuthSession.
  destruct (read_auth_session (buf pkt)) as [[m b]|]; [|reflexivity].
  apply HandleAuthSession_checks_with_cache.
Qed.

Lemma HandleWowConnection_with_cache h e pkt a :
  HandleWowConnection pkt (with_cache h e a)
  = (fst (HandleWowConnection pkt a), with_cache h e (snd (HandleWowConnection pkt a))).
Proof.
  unfold HandleWowConnection.
  destruct (BB.read_cstring (buf pkt)) as [[msg b]|]; [|reflexivity].
  cbv zeta. cache_out. reflexivity.
Qed.

Lemma HandlePing_with_cache h e env now pkt a :
  HandlePing env now pkt (with_cache h e a)
  = (fst (HandlePing env now pkt a), with_cache h e (snd (HandlePing env now pkt a))).
Proof.
  unfold HandlePing.
  destruct (BB.bind _ _ _) as [[[ping latency] b]|]; [|reflexivity].
  assert (Hc : count_ping env now (with_cache h e a)
               = (fst (count_ping env now a), with_cache h e (snd (count_ping env now a)))).
  { unfold count_ping, GetRemoteAddress. cbv zeta.
    repeat cache_step; cache_out; reflexivity. }
  rewrite Hc. destruct (count_ping env now a) as [kicked a1]. cbn [fst snd].
  destruct kicked; [reflexivity|].
  unfold answer_ping, GetRemoteAddress. cbv zeta.
  repeat cache_step; cache_out; reflexivity.
Qed.

Lemma dispatch_with_cache h e env now opcode pct a :
  dispatch env now opcode pct (with_cache h e a)
  = (fst (dispatch env now opcode pct a),
     with_cache h e (snd (dispatch env now opcode pct a))).
Proof.
  unfold dispatch.
  destruct (opcode =? MSG_WOW_CONNECTION_RAW); [apply HandleWowConnection_with_cache|].
  destruct (opcode =? CMSG_AUTH_SESSION).
  { cache_out. destruct (m_session a); [reflexivity|].
    destruct (BUILD_ELUNA && negb (OnPacketReceive None pct)); [reflexivity|].
    apply HandleAuthSession_with_cache. }
  destruct (opcode =? CMSG_PING); [apply HandlePing_with_cache|].
  destruct (opcode =? CMSG_KEEP_ALIVE); [reflexivity|].
  cache_out. destruct (m_session a); cache_out; reflexivity.
Qed.

(** *** The framing half on a buffer that starts with a header *)

Lemma InPeak_at_zero a : m_readPosition a = 0 -> InPeak a = m_inBuffer a.
Proof. unfold InPeak. intros ->. reflexivity. Qed.

Lemma obtain_header_fresh a raw rest :
  m_useExistingHeader a = false ->
  m_readPosition a = 0 ->
  m_inBuffer a = raw ++ rest ->
  length raw = 6%nat ->
  obtain_header a
  = Some (header_of_bytes (snd (DecryptRecv (m_crypt a) raw)),
          set_crypt (fst (DecryptRecv (m_crypt a) raw))
            (emit (Call_DecryptRecv raw) (ReadSkip sizeof_ClientPktHeader a))).
Proof.
  intros Hu Hp Hb Hl. unfold obtain_header, Read, ReadLengthRemaining.
  rewrite Hu, Hp, InPeak_at_zero, Hb by assumption.
  rewrite length_app, Hl.
  destruct (Z.ltb_spec (Z.of_nat (6 + length rest) - 0) sizeof_ClientPktHeader) as [Hlt|_];
    [unfold sizeof_ClientPktHeader in Hlt; lia|].
  change (Z.to_nat sizeof_ClientPktHeader) with 6%nat.
  replace (firstn 6 (raw ++ rest)) with raw
    by (rewrite <- Hl, firstn_app, Nat.sub_diag, firstn_all, firstn_O, app_nil_r; reflexivity).
  change (m_crypt (emit (Call_DecryptRecv raw) (ReadSkip sizeof_ClientPktHeader a)))
    with (m_crypt a).
  destruct (DecryptRecv (m_crypt a) raw) as [crypt plain]. reflexivity.
Qed.

Lemma obtain_header_cached a :
  m_useExistingHeader a = true ->
  obtain_header a
  = Some (m_existingHeader a,
          ReadSkip sizeof_ClientPktHeader (set_useExistingHeader false a)).
Proof. intros Hu. unfold obtain_header. rewrite Hu. reflexivity. Qed.

(** After the header: the three ways the framing half can end, by the bytes
    that follow the header in the buffer. *)
Lemma frame_after_header a h a1 raw rest :
  obtain_header a = Some (h, a1) ->
  malformed_size h = false ->
  m_readPosition a1 = 6 ->
  m_inBuffer a1 = raw ++ rest ->
  length raw = 6%nat ->
  let n := uint16 (size h - 4) in
  frame a
  = if Z.of_nat (length rest) <? n then
      NeedMoreData
        (set_errno EBADMSG
           (ReadSkip (- sizeof_ClientPktHeader)
              (set_existingHeader h (set_useExistingHeader true a1))))
    else if m_closed a1 then SocketClosed a1
    else
      let pct := if n =? 0 then new_packet (cmd h)
                 else pkt_append_raw (firstn (Z.to_nat n) rest) (new_packet (cmd h)) in
      let a2 := if n =? 0 then a1 else ReadSkip n a1 in
      Decoded (cmd h) pct
        (if cmd h =? MSG_WOW_CONNECTION_RAW then a2
         else log (PacketDump true (cmd h) (contents pct)) a2).
Proof.
  intros Hh Hm Hp Hb Hl n. unfold frame. rewrite Hh, Hm.
  assert (Hrem : ReadLengthRemaining a1 = Z.of_nat (length rest)).
  { unfold ReadLengthRemaining. rewrite Hb, Hp, length_app, Hl. lia. }
  assert (Hpeak : InPeak a1 = rest).
  { unfold InPeak. rewrite Hb, Hp. change (Z.to_nat 6) with 6%nat.
    rewrite <- Hl, skipn_app, Nat.sub_diag, skipn_all. reflexivity. }
  rewrite Hrem. fold n.
  destruct (Z.of_nat (length rest) <? n); [reflexivity|].
  unfold IsClosed. destruct (m_closed a1); [reflexivity|].
  rewrite Hpeak.
  destruct (n =? 0); cbn [negb];
    destruct (cmd h =? MSG_WOW_CONNECTION_RAW); reflexivity.
Qed.

(** *** The handlers never call the receive cipher *)

Lemma dispatch_decrypt_calls env now opcode pct a :
  decrypt_calls (effects (snd (dispatch env now opcode pct a)))
  = decrypt_calls (effects a).
Proof.
  unfold dispatch, HandleWowConnection, HandleAuthSession, HandleAuthSession_checks,
    HandlePing, count_ping, answer_ping.
  cbv zeta.
  repeat branch_step; cbn [snd fst]; calls_out; try reflexivity.
Qed.

Lemma on_ByteBufferException_decrypt_calls env opcode pct a :
  decrypt_calls (effects (snd (on_ByteBufferException env opcode pct a)))
  = decrypt_calls (effects a).
Proof.
  unfold on_ByteBufferException. cbv zeta.
  repeat branch_step; cbn [snd]; calls_out; reflexivity.
Qed.

Lemma ProcessIncomingData_decoded env now a opcode pct a1 :
  frame a = Decoded opcode pct a1 ->
  decrypt_calls (effects (snd (ProcessIncomingData env now a)))
  = decrypt_calls (effects a1).
Proof.
  intros Hf. unfold ProcessIncomingData. rewrite Hf.
  pose proof (dispatch_decrypt_calls env now opcode pct a1) as Hd.
  destruct (dispatch env now opcode pct a1) as [[b|] a2]; cbn [snd] in Hd |- *.
  - exact Hd.
  - now rewrite on_ByteBufferException_decrypt_calls.
Qed.

Local Transparent with_cache log emit set_s set_session set_crypt set_lastPingTime
  set_overSpeedPings.

Lemma WorldSocket_ext a b :
  m_closed a = m_closed b -> m_inBuffer a = m_inBuffer b ->
  m_readPosition a = m_readPosition b -> m_address a = m_address b ->
  m_lastPingTime a = m_lastPingTime b -> m_overSpeedPings a = m_overSpeedPings b ->
  m_useExistingHeader a = m_useExistingHeader b ->
  m_existingHeader a = m_existingHeader b -> m_session a = m_session b ->
  m_seed a = m_seed b -> m_s a = m_s b -> m_crypt a = m_crypt b ->
  errno a = errno b -> effects a = effects b -> a = b.
Proof. destruct a, b. cbn. intros. subst. reflexivity. Qed.

Lemma ProcessIncomingData_with_cache h e env now a opcode pct a1 b1 :
  frame a = Decoded opcode pct (with_cache h e a1) ->
  frame b1 = Decoded opcode pct a1 ->
  ProcessIncomingData env now a
  = (fst (ProcessIncomingData env now b1),
     with_cache h e (snd (ProcessIncomingData env now b1))).
Proof.
  intros Ha Hb. unfold ProcessIncomingData. rewrite Ha, Hb, dispatch_with_cache.
  destruct (dispatch env now opcode pct a1) as [[r|] a2]; cbn [fst snd].
  - reflexivity.
  - apply on_ByteBufferException_with_cache.
Qed.

(** C4: a complete message that arrives as header plus part of the body and
    then the rest is decoded once, by the second call, into the packet the
    whole delivery gives; both deliveries end in the same verdict and in
    states that differ in the cached header and [errno] only, and the receive
    cipher is called once, on the first attempt: the retry takes the cached
    header and skips the header bytes. *)
Theorem C4_partial_delivery env now s hdr b1 b2 :
  m_useExistingHeader s = false ->
  m_closed s = false ->
  InPeak s = [] ->
  length hdr = 6%nat ->
  let h := header_of_bytes (snd (DecryptRecv (m_crypt s) hdr)) in
  malformed_size h = false ->
  uint16 (size h - 4) = Z.of_nat (length (b1 ++ b2)) ->
  b2 <> [] ->
  let first := ProcessIncomingData env now (receive (hdr ++ b1) s) in
  let second := ProcessIncomingData env now (receive b2 (snd first)) in
  let whole := ProcessIncomingData env now (receive (hdr ++ b1 ++ b2) s) in
  (fst first = false
   /\ errno (snd first) = EBADMSG
   /\ m_useExistingHeader (snd first) = true
   /\ m_existingHeader (snd first) = h
   /\ m_session (snd first) = m_session s
   /\ m_crypt (snd first) = fst (DecryptRecv (m_crypt s) hdr)
   /\ effects (snd first) = effects s ++ [Call_DecryptRecv hdr]
   /\ InPeak (snd first) = hdr ++ b1)
  /\ (exists pct s2 sW,
        frame (receive b2 (snd first)) = Decoded (cmd h) pct s2
        /\ frame (receive (hdr ++ b1 ++ b2) s) = Decoded (cmd h) pct sW
        /\ GetOpcode pct = cmd h
        /\ contents pct = b1 ++ b2
        /\ s2 = with_cache h EBADMSG sW
        /\ decrypt_calls (effects s2) = S (decrypt_calls (effects s))
        /\ m_crypt s2 = fst (DecryptRecv (m_crypt s) hdr))
  /\ fst second = fst whole
  /\ snd second = with_cache h EBADMSG (snd whole)
  /\ same_but_cache (snd second) (snd whole)
  /\ decrypt_calls (effects (snd second)) = S (decrypt_calls (effects s))
  /\ decrypt_calls (effects (snd whole)) = S (decrypt_calls (effects s)).
Proof.
  intros Hu Hc Hpeak Hl h Hm Hn Hb2. cbv zeta.
  set (n := uint16 (size h - 4)) in *.
  assert (Hlen2 : (0 < length b2)%nat) by (destruct b2; [congruence|cbn; lia]).
  rewrite length_app in Hn.
  (* the first attempt *)
  set (t := receive (hdr ++ b1) s).
  assert (Ht : obtain_header t
               = Some (h, set_crypt (fst (DecryptRecv (m_crypt s) hdr))
                            (emit (Call_DecryptRecv hdr)
                               (ReadSkip sizeof_ClientPktHeader t)))).
  { apply (obtain_header_fresh t hdr b1); [exact Hu|reflexivity| |exact Hl].
    unfold t, receive. cbn -[InPeak]. now rewrite Hpeak. }
  assert (Hft : frame t
                = NeedMoreData
                    (set_errno EBADMSG
                       (ReadSkip (- sizeof_ClientPktHeader)
                          (set_existingHeader h
                             (set_useExistingHeader true
                                (set_crypt (fst (DecryptRecv (m_crypt s) hdr))
                                   (emit (Call_DecryptRecv hdr)
                                      (ReadSkip sizeof_ClientPktHeader t)))))))).
  { rewrite (frame_after_header t hdr b1 Ht Hm); cbv zeta; fold n.
    - destruct (Z.ltb_spec (Z.of_nat (length b1)) n); [reflexivity|lia].
    - reflexivity.
    - unfold t, receive. cbn -[InPeak]. now rewrite Hpeak.
    - exact Hl. }
  assert (Hfirst : ProcessIncomingData env now t
                   = (false,
                      set_errno EBADMSG
                        (ReadSkip (- sizeof_ClientPktHeader)
                           (set_existingHeader h
                              (set_useExistingHeader true
                                 (set_crypt (fst (DecryptRecv (m_crypt s) hdr))
                                    (emit (Call_DecryptRecv hdr)
                                       (ReadSkip sizeof_ClientPktHeader t)))))))).
  { unfold ProcessIncomingData. now rewrite Hft. }
  rewrite Hfirst. cbn [fst snd].
  set (t1 := set_errno EBADMSG _) in *.
  assert (Hpeak1 : InPeak t1 = hdr ++ b1).
  { unfold t1, t, receive. unfold InPeak at 1. cbn -[InPeak]. now rewrite Hpeak. }
  (* the retry *)
  set (u := receive b2 t1).
  assert (Hu1 : obtain_header u
                = Some (h, ReadSkip sizeof_ClientPktHeader (set_useExistingHeader false u)))
    by (apply obtain_header_cached; reflexivity).
  (* the whole delivery *)
  set (w := receive (hdr ++ b1 ++ b2) s).
  assert (Hw : obtain_header w
               = Some (h, set_crypt (fst (DecryptRecv (m_crypt s) hdr))
                            (emit (Call_DecryptRecv hdr)
                               (ReadSkip sizeof_ClientPktHeader w)))).
  { apply (obtain_header_fresh w hdr (b1 ++ b2)); [exact Hu|reflexivity| |exact Hl].
    unfold w, receive. cbn -[InPeak]. now rewrite Hpeak. }
  assert (Hnz : (n =? 0) = false) by (apply Z.eqb_neq; lia).
  assert (Hfull : (Z.of_nat (length (b1 ++ b2)) <? n) = false)
    by (apply Z.ltb_ge; rewrite length_app; lia).
  assert (Hbody : firstn (Z.to_nat n) (b1 ++ b2) = b1 ++ b2).
  { apply firstn_all2. rewrite length_app. lia. }
  pose proof (frame_after_header u hdr (b1 ++ b2) Hu1 Hm) as Hfu.
  cbv zeta in Hfu. fold n in Hfu. rewrite Hfull, Hnz, Hbody in Hfu.
  assert (Hmu : m_inBuffer u = hdr ++ b1 ++ b2).
  { unfold u, receive. cbn -[InPeak]. rewrite Hpeak1. now rewrite <- app_assoc. }
  specialize (Hfu eq_refl Hmu Hl).
  change (m_closed (ReadSkip sizeof_ClientPktHeader (set_useExistingHeader false u)))
    with (m_closed s) in Hfu. rewrite Hc in Hfu.
  pose proof (frame_after_header w hdr (b1 ++ b2) Hw Hm) as Hfw.
  cbv zeta in Hfw. fold n in Hfw. rewrite Hfull, Hnz, Hbody in Hfw.
  assert (Hmw : m_inBuffer w = hdr ++ b1 ++ b2).
  { unfold w, receive. cbn -[InPeak]. now rewrite Hpeak. }
  specialize (Hfw eq_refl Hmw Hl).
  change (m_closed (set_crypt (fst (DecryptRecv (m_crypt s) hdr))
                      (emit (Call_DecryptRecv hdr) (ReadSkip sizeof_ClientPktHeader w))))
    with (m_closed s) in Hfw. rewrite Hc in Hfw.
  set (pct := pkt_append_raw (b1 ++ b2) (new_packet (cmd h))) in *.
  match type of Hfw with _ = Decoded _ _ ?x => set (sW := x) in * end.
  match type of Hfu with _ = Decoded _ _ ?x => set (s2 := x) in * end.
  assert (Hs2 : s2 = with_cache h EBADMSG sW).
  { unfold s2, sW.
    assert (Hcore :
      ReadSkip n (ReadSkip sizeof_ClientPktHeader (set_useExistingHeader false u))
      = with_cache h EBADMSG
          (ReadSkip n
             (set_crypt (fst (DecryptRecv (m_crypt s) hdr))
                (emit (Call_DecryptRecv hdr) (ReadSkip sizeof_ClientPktHeader w))))).
    { apply WorldSocket_ext; try reflexivity.
      - cbn [m_inBuffer ReadSkip set_readPosition set_useExistingHeader with_cache
               set_errno set_existingHeader set_crypt emit].
        rewrite Hmu. unfold w, receive. cbn -[InPeak]. now rewrite Hpeak.
      - cbn. now rewrite Hu. }
    destruct (cmd h =? MSG_WOW_CONNECTION_RAW); [exact Hcore|].
    now rewrite Hcore. }
  assert (HdW : decrypt_calls (effects sW) = S (decrypt_calls (effects s))).
  { unfold sW, w, receive.
    destruct (cmd h =? MSG_WOW_CONNECTION_RAW); cbn;
      rewrite ?decrypt_calls_app; cbn; lia. }
  assert (Hd2 : decrypt_calls (effects s2) = S (decrypt_calls (effects s)))
    by (rewrite Hs2; exact HdW).
  assert (Hfu' : frame u = Decoded (cmd h) pct (with_cache h EBADMSG sW))
    by (rewrite <- Hs2; exact Hfu).
  pose proof (@ProcessIncomingData_with_cache h EBADMSG env now u (cmd h) pct sW w
                Hfu' Hfw) as Hpid.
  split; [|split; [|split; [|split; [|split; [|split]]]]].
  - unfold t1, t, receive. cbn -[InPeak]. repeat split; auto.
  - exists pct, s2, sW. repeat split; auto.
    rewrite Hs2. unfold sW. destruct (cmd h =? MSG_WOW_CONNECTION_RAW); reflexivity.
  - now rewrite Hpid.
  - now rewrite Hpid.
  - rewrite Hpid. apply same_but_cache_with_cache.
  - now rewrite (@ProcessIncomingData_decoded env now u (cmd h) pct s2 Hfu).
  - now rewrite (@ProcessIncomingData_decoded env now w (cmd h) pct sW Hfw).
Qed.

End PartialDelivery.

Lemma C4_partial_delivery_witness :
  let env := sample_env 0 false (sample_row 0 0) in
  let s := authed_socket 0 in
  let first := ProcessIncomingData env 0 (receive (sample_message_header ++ [1]) s) in
  fst (ProcessIncomingData env 0 (receive [2] (snd first)))
  = fst (ProcessIncomingData env 0 (receive (sample_message_header ++ [1] ++ [2]) s)).
Proof.
  intros env s first.
  refine (proj1 (proj2 (proj2
            (@C4_partial_delivery sample_platform env 0 s sample_message_header [1] [2]
               _ _ _ _ _ _ _)))).
  - reflexivity.
  - reflexivity.
  - reflexivity.
  - reflexivity.
  - vm_compute. reflexivity.
  - vm_compute. reflexivity.
  - discriminate.
Defined.

(** * Further properties of the socket *)

(** ** The outbound header determines size and opcode *)

Lemma lor_flag (x : Z) : 0 <= x < 128 -> Z.lor 0x80 x = 128 + x.
Proof.
  intros Hx.
  assert (Hland : Z.land 0x80 x = 0).
  { apply Z.bits_inj'. intros k Hk. rewrite Z.land_spec, Z.bits_0.
    destruct (Z.eq_dec k 7) as [->|Hne].
    - destruct (Z.eq_dec x 0) as [->|Hx0]; [reflexivity|].
      rewrite (Z.bits_above_log2 x 7); [apply andb_false_r|lia|].
      apply Z.log2_lt_pow2; lia.
    - replace (Z.testbit 0x80 k) with false; [reflexivity|].
      change 0x80 with (2 ^ 7). symmetry. apply Z.pow2_bits_false. lia. }
  rewrite <- Z.lxor_lor by exact Hland.
  symmetry. apply Z.add_nocarry_lxor. exact Hland.
Qed.

Lemma header_bytes_small (sz c : Z) :
  0 <= sz <= 0x7FFF -> 0 <= c < 2 ^ 16 ->
  ServerPktHeader.header sz c = [sz / 256; sz mod 256; c mod 256; c / 256].
Proof.
  intros Hsz Hc. unfold ServerPktHeader.header, ServerPktHeader.isLargePacket.
  destruct (Z.ltb_spec 0x7FFF sz); [lia|]. cbn [app].
  rewrite !byte_field by lia. unfold uint8. rewrite !land_FF.
  change (2 ^ 8) with 256. rewrite !Z.mod_mod by lia.
  rewrite (Z.mod_small (sz / 256)), (Z.mod_small (c / 256)); [reflexivity| |];
    (split; [apply Z.div_pos; lia|apply Z.div_lt_upper_bound; lia]).
Qed.

Lemma header_bytes_large (sz c : Z) :
  0x7FFF < sz < 2 ^ 23 -> 0 <= c < 2 ^ 16 ->
  ServerPktHeader.header sz c
  = [128 + sz / 65536; (sz / 256) mod 256; sz mod 256; c mod 256; c / 256].
Proof.
  intros Hsz Hc. unfold ServerPktHeader.header, ServerPktHeader.isLargePacket.
  destruct (Z.ltb_spec 0x7FFF sz); [|lia]. cbn [app].
  rewrite !byte_field by lia. rewrite !land_FF, Z.shiftr_div_pow2 by lia.
  change (2 ^ 16) with 65536. change (2 ^ 8) with 256.
  assert (Hq : 0 <= sz / 65536 < 128)
    by (split; [apply Z.div_pos; lia|apply Z.div_lt_upper_bound; lia]).
  rewrite (Z.mod_small (sz / 65536)) by lia. rewrite lor_flag by exact Hq.
  unfold uint8. change (2 ^ 8) with 256.
  rewrite (Z.mod_small (128 + sz / 65536)) by lia.
  rewrite !Z.mod_mod by lia.
  rewrite (Z.mod_small (c / 256)); [reflexivity|].
  split; [apply Z.div_pos; lia|apply Z.div_lt_upper_bound; lia].
Qed.

Lemma two_bytes_inj (x y : Z) :
  x / 256 = y / 256 -> x mod 256 = y mod 256 -> x = y.
Proof. intros Hq Hr. rewrite (Z.div_mod x 256), (Z.div_mod y 256) by lia. congruence. Qed.

(** X1: below 0x800000 the header bytes determine the size and the opcode;
    from 0x800000 on the size-class flag and bit 23 of the size share a bit,
    and two sizes have the same header. *)
Theorem header_injective (sz sz' c c' : Z) :
  0 <= sz < 2 ^ 23 -> 0 <= sz' < 2 ^ 23 ->
  0 <= c < 2 ^ 16 -> 0 <= c' < 2 ^ 16 ->
  ServerPktHeader.header sz c = ServerPktHeader.header sz' c' ->
  sz = sz' /\ c = c'.
Proof.
  intros Hsz Hsz' Hc Hc' Heq.
  destruct (Z_le_gt_dec sz 0x7FFF) as [Hs|Hs];
    destruct (Z_le_gt_dec sz' 0x7FFF) as [Hs'|Hs'].
  - rewrite !header_bytes_small in Heq by lia. inversion Heq.
    split; apply two_bytes_inj; assumption.
  - rewrite (@header_bytes_small sz c), (@header_bytes_large sz' c') in Heq by lia.
    discriminate.
  - rewrite (@header_bytes_large sz c), (@header_bytes_small sz' c') in Heq by lia.
    discriminate.
  - rewrite !header_bytes_large in Heq by lia.
    pose proof (f_equal (fun l => nth 0 l 0) Heq) as H0.
    pose proof (f_equal (fun l => nth 1 l 0) Heq) as H1.
    pose proof (f_equal (fun l => nth 2 l 0) Heq) as H2.
    pose proof (f_equal (fun l => nth 3 l 0) Heq) as H3.
    pose proof (f_equal (fun l => nth 4 l 0) Heq) as H4.
    cbn [nth] in H0, H1, H2, H3, H4.
    split; [|apply two_bytes_inj; assumption].
    assert (Hhi : sz / 65536 = sz' / 65536) by lia.
    assert (Hq : sz / 256 = sz' / 256).
    { apply two_bytes_inj; [|assumption].
      rewrite !Z.div_div by lia. exact Hhi. }
    apply two_bytes_inj; assumption.
Qed.

Lemma header_injective_witness :
  0x8000 = 0x8000 /\ 0x5DB6 = 0x5DB6.
Proof.
  apply (@header_injective 0x8000 0x8000 0x5DB6 0x5DB6); try lia. reflexivity.
Defined.

(** The bound of [header_injective] is exact. *)
Example header_collision_at_bit_23 :
  ServerPktHeader.header 0x808000 0x5DB6 = ServerPktHeader.header 0x8000 0x5DB6.
Proof. reflexivity. Qed.

Section MoreSocket.

Context {P : Platform}.

Implicit Types s : WorldSocket P.

(** ** What SendPacket puts on the wire *)

(** X2: on a closed socket SendPacket does nothing; on an open one it makes
    one write, of the header of (body length + 2, opcode) passed through the
    send cipher followed by the body as it is, and the cipher has seen the
    header bytes only; the write is flushed at once exactly when asked. *)
Theorem SendPacket_wire pct immediate s :
  if m_closed s then SendPacket pct immediate s = s
  else
    let hdr := ServerPktHeader.header (uint32 (pkt_size pct + 2)) (uint16 (GetOpcode pct)) in
    let s' := SendPacket pct immediate s in
    written (new_effects s s') = [snd (EncryptSend (m_crypt s) hdr) ++ contents pct]
    /\ m_crypt s' = fst (EncryptSend (m_crypt s) hdr)
    /\ (length hdr = 4%nat \/ length hdr = 5%nat)
    /\ (In ForceFlushOut (new_effects s s') <-> immediate = true).
Proof.
  destruct (m_closed s) eqn:Hc.
  - unfold SendPacket, IsClosed. now rewrite Hc.
  - cbv zeta. unfold SendPacket, IsClosed. rewrite Hc.
    rewrite <- (header_length (uint32 (pkt_size pct + 2)) (uint16 (GetOpcode pct))).
    rewrite firstn_all.
    set (hdr := ServerPktHeader.header _ _).
    assert (Hlen : length hdr = 4%nat \/ length hdr = 5%nat).
    { unfold hdr, ServerPktHeader.header.
      destruct (ServerPktHeader.isLargePacket _); [right|left]; reflexivity. }
    destruct (ServerPktHeader.isLargePacket _);
      cbn [m_crypt log emit]; destruct (EncryptSend (m_crypt s) hdr) as [crypt enc];
      destruct immediate;
      (erewrite new_effects_app;
       [|cbn [effects emit set_crypt log]; repeat rewrite <- app_assoc; reflexivity]);
      cbn; (split; [reflexivity|]); (split; [reflexivity|]); (split; [exact Hlen|]);
      intuition discriminate.
Qed.

(** ** The answer to the opener *)

(** X3: whatever the opener carries, HandleWowConnection does not throw and
    returns true, and the challenge it sends has a body of 37 bytes: 32 zero
    bytes, the server seed in four little-endian bytes, and a 1. *)
Theorem HandleWowConnection_challenge recvPacket s :
  exists challenge,
    HandleWowConnection recvPacket s = (Return true, SendPacket challenge false s)
    /\ GetOpcode challenge = SMSG_AUTH_CHALLENGE
    /\ contents challenge = repeat 0 32 ++ le_bytes 4 (m_seed s) ++ [1]
    /\ length (contents challenge) = 37%nat.
Proof.
  unfold HandleWowConnection, BB.read_cstring. eexists. split; [reflexivity|].
  split; [reflexivity|]. split; reflexivity.
Qed.

(** ** Reading from the buffer *)

Lemma remaining_is_peak s :
  buffer_ok s -> ReadLengthRemaining s = Z.of_nat (length (InPeak s)).
Proof.
  intros [H0 H1]. unfold ReadLengthRemaining, InPeak. rewrite length_skipn. lia.
Qed.

Lemma InPeak_ReadSkip s (k : Z) :
  0 <= m_readPosition s -> 0 <= k ->
  InPeak (ReadSkip k s) = skipn (Z.to_nat k) (InPeak s).
Proof.
  intros Hp Hk. unfold InPeak, ReadSkip. cbn [m_readPosition m_inBuffer set_readPosition].
  rewrite Z2Nat.inj_add, skipn_skipn by lia. f_equal. lia.
Qed.

(** X4: with fewer than six unread bytes and no cached header the call fails
    with [errno = EBADMSG] and leaves the socket as it was: nothing is
    consumed and the cipher is not called. *)
Theorem short_header_read env now s :
  m_useExistingHeader s = false ->
  ReadLengthRemaining s < sizeof_ClientPktHeader ->
  ProcessIncomingData env now s = (false, set_errno EBADMSG s).
Proof.
  intros Hu Hr. unfold ProcessIncomingData, frame, obtain_header, Read.
  rewrite Hu. apply Z.ltb_lt in Hr. now rewrite Hr.
Qed.

(** X5: a message that is complete in the buffer is consumed exactly: the
    packet has the opcode of the header and the declared number of bytes that
    follow the header as its body, the header went through the receive cipher
    once, and the read position is left at the first byte after the message,
    with the buffer still well-formed, so that the next call starts at the
    next header. *)
Theorem frame_consumes_one_message s hdr body rest :
  m_useExistingHeader s = false ->
  m_closed s = false ->
  buffer_ok s ->
  InPeak s = hdr ++ body ++ rest ->
  length hdr = 6%nat ->
  let h := header_of_bytes (snd (DecryptRecv (m_crypt s) hdr)) in
  malformed_size h = false ->
  uint16 (size h - 4) = Z.of_nat (length body) ->
  exists pct s1,
    frame s = Decoded (cmd h) pct s1
    /\ GetOpcode pct = cmd h
    /\ contents pct = body
    /\ InPeak s1 = rest
    /\ buffer_ok s1
    /\ m_readPosition s1 = m_readPosition s + 6 + Z.of_nat (length body)
    /\ m_useExistingHeader s1 = false
    /\ m_closed s1 = false
    /\ m_crypt s1 = fst (DecryptRecv (m_crypt s) hdr)
    /\ decrypt_calls (effects s1) = S (decrypt_calls (effects s)).
Proof.
  intros Hu Hc Hok Hpeak Hl h Hm Hn.
  pose proof (remaining_is_peak Hok) as Hrem.
  pose proof Hok as [Hp0 Hp1].
  assert (Hlen : Z.of_nat (length (InPeak s))
                 = 6 + Z.of_nat (length body) + Z.of_nat (length rest)).
  { rewrite Hpeak, !length_app. lia. }
  assert (Hbuf : Z.of_nat (length (m_inBuffer s))
                 = m_readPosition s + Z.of_nat (length (InPeak s))).
  { unfold InPeak. rewrite length_skipn. lia. }
  unfold frame, obtain_header, Read. rewrite Hu, Hrem.
  destruct (Z.ltb_spec (Z.of_nat (length (InPeak s))) sizeof_ClientPktHeader) as [Hlt|_];
    [unfold sizeof_ClientPktHeader in Hlt; lia|].
  change (Z.to_nat sizeof_ClientPktHeader) with 6%nat.
  replace (firstn 6 (InPeak s)) with hdr
    by (rewrite Hpeak, <- Hl, firstn_app, Nat.sub_diag, firstn_all, firstn_O, app_nil_r;
        reflexivity).
  change (m_crypt (emit (Call_DecryptRecv hdr) (ReadSkip sizeof_ClientPktHeader s)))
    with (m_crypt s).
  destruct (DecryptRecv (m_crypt s) hdr) as [crypt plain] eqn:Hd.
  cbn [snd fst] in h |- *. fold h. rewrite Hm.
  set (s0 := set_crypt crypt (emit (Call_DecryptRecv hdr) (ReadSkip sizeof_ClientPktHeader s))).
  assert (Hpeak0 : InPeak s0 = body ++ rest).
  { change (InPeak s0) with (InPeak (ReadSkip sizeof_ClientPktHeader s)).
    rewrite InPeak_ReadSkip by (unfold sizeof_ClientPktHeader; lia).
    change (Z.to_nat sizeof_ClientPktHeader) with 6%nat.
    rewrite Hpeak, <- Hl, skipn_app, Nat.sub_diag, skipn_all. reflexivity. }
  assert (Hrem0 : ReadLengthRemaining s0
                  = Z.of_nat (length body) + Z.of_nat (length rest)).
  { unfold ReadLengthRemaining, s0, sizeof_ClientPktHeader.
    cbn [m_inBuffer m_readPosition set_crypt emit ReadSkip set_readPosition]. lia. }
  rewrite Hrem0, Hn.
  destruct (Z.ltb_spec (Z.of_nat (length body) + Z.of_nat (length rest))
              (Z.of_nat (length body))) as [Hlt|_]; [lia|].
  change (IsClosed s0) with (m_closed s). rewrite Hc.
  assert (Hdc : decrypt_calls (effects s0) = S (decrypt_calls (effects s))).
  { unfold s0. cbn. rewrite decrypt_calls_app. cbn. lia. }
  destruct (Z.of_nat (length body) =? 0) eqn:Hz; cbn [negb].
  - apply Z.eqb_eq in Hz. assert (Hb : body = []) by (destruct body; [reflexivity|cbn in Hz; lia]).
    subst body. cbn [app length] in *.
    destruct (negb (cmd h =? MSG_WOW_CONNECTION_RAW));
      do 2 eexists; (split; [reflexivity|]);
      repeat split; auto; try exact Hpeak0;
      unfold s0, sizeof_ClientPktHeader;
      cbn [m_inBuffer m_readPosition set_crypt emit ReadSkip set_readPosition log effects];
      rewrite ?decrypt_calls_app; cbn [decrypt_calls]; try lia; try exact Hu; try exact Hc.
  - rewrite Hpeak0, Nat2Z.id, firstn_app, Nat.sub_diag, firstn_all, firstn_O, app_nil_r.
    assert (Hpeak1 : InPeak (ReadSkip (Z.of_nat (length body)) s0) = rest).
    { rewrite InPeak_ReadSkip by (unfold s0, sizeof_ClientPktHeader; cbn; lia).
      rewrite Hpeak0, Nat2Z.id, skipn_app, Nat.sub_diag, skipn_all. reflexivity. }
    destruct (negb (cmd h =? MSG_WOW_CONNECTION_RAW));
      do 2 eexists; (split; [reflexivity|]);
      repeat split; auto; try exact Hpeak1;
      unfold s0, sizeof_ClientPktHeader;
      cbn [m_inBuffer m_readPosition set_crypt emit ReadSkip set_readPosition log effects];
      rewrite ?decrypt_calls_app; cbn [decrypt_calls]; try lia; try exact Hu; try exact Hc.
Qed.

(** X6: the size that comes out of six header bytes fits sixteen bits, so
    once the size check has passed, the 16-bit count of body bytes is the
    declared size minus four without wrap-around, and at most 0x27FC for
    every opcode but the legacy opener. *)
Theorem body_length_does_not_wrap (bs : bytes) :
  length bs = 6%nat ->
  Forall (fun b => 0 <= b < 256) bs ->
  let h := header_of_bytes bs in
  malformed_size h = false ->
  0 <= size h < 2 ^ 16
  /\ 0 <= cmd h < 2 ^ 32
  /\ uint16 (size h - 4) = size h - 4
  /\ (cmd h <> MSG_WOW_CONNECTION_RAW -> size h - 4 <= 0x27FC).
Proof.
  intros Hl Hall h Hm.
  destruct bs as [|b0 [|b1 [|b2 [|b3 [|b4 [|b5 [|]]]]]]]; try discriminate.
  repeat match goal with H : Forall _ (_ :: _) |- _ => inversion H; clear H; subst end.
  unfold malformed_size in Hm. apply orb_false_iff in Hm as [Hlo Hhi].
  apply Z.ltb_ge in Hlo.
  assert (Hsize : size h = b1 + 256 * (b0 + 256 * 0)) by reflexivity.
  assert (Hcmd : cmd h = b2 + 256 * (b3 + 256 * (b4 + 256 * (b5 + 256 * 0)))) by reflexivity.
  split; [lia|]. split; [lia|]. split.
  - unfold uint16. apply Z.mod_small. lia.
  - intros Hne. apply Z.eqb_neq in Hne. rewrite Hne in Hhi. cbn [negb] in Hhi.
    rewrite andb_true_r in Hhi. apply Z.ltb_ge in Hhi. lia.
Qed.

(** ** The session pointer *)

Lemma frame_session s :
  match frame s with
  | BadHeaderRead s' | MalformedSize s' | NeedMoreData s' | SocketClosed s'
  | Decoded _ _ s' => m_session s' = m_session s
  end.
Proof.
  unfold frame.
  destruct (obtain_header s) as [[h s0]|] eqn:Hh; [|reflexivity].
  pose proof (obtain_header_session _ Hh) as Hs.
  destruct (malformed_size h); [exact Hs|].
  destruct (_ <? _); [exact Hs|].
  destruct (IsClosed s0); [exact Hs|].
  destruct (negb (uint16 (size h - 4) =? 0));
    destruct (negb (cmd h =? MSG_WOW_CONNECTION_RAW)); exact Hs.
Qed.

Lemma frame_decoded_rpos s opcode pct s1 :
  frame s = Decoded opcode pct s1 -> _rpos (buf pct) = 0%nat.
Proof.
  unfold frame.
  destruct (obtain_header s) as [[h s0]|]; [|discriminate].
  destruct (malformed_size h); [discriminate|].
  destruct (_ <? _); [discriminate|].
  destruct (IsClosed s0); [discriminate|].
  destruct (negb (uint16 (size h - 4) =? 0));
    destruct (negb (cmd h =? MSG_WOW_CONNECTION_RAW));
    intros H; inversion H; reflexivity.
Qed.

Lemma count_ping_session env now s :
  m_session (snd (count_ping env now s)) = m_session s.
Proof.
  unfold count_ping.
  repeat match goal with
         | |- context [if ?c then _ else _] => destruct c
         | |- context [match ?c with Some _ => _ | None => _ end] => destruct c eqn:?
         end; cbn; congruence.
Qed.

Lemma dispatch_keeps_session env now opcode pct s session :
  m_session s = Some session ->
  exists session',
    m_session (snd (dispatch env now opcode pct s)) = Some session'
    /\ same_account session' session.
Proof.
  intros Hs. unfold dispatch.
  destruct (opcode =? MSG_WOW_CONNECTION_RAW).
  { unfold HandleWowConnection. cbn [BB.read_cstring snd].
    match goal with |- context [SendPacket ?p ?i ?t] =>
      pose proof (SendPacket_frame p i t) as Hf end.
    cbv zeta in Hf. destruct Hf as (_ & _ & _ & _ & _ & _ & _ & _ & Hsess & _).
    exists session. rewrite Hsess. repeat split; auto. }
  destruct (opcode =? CMSG_AUTH_SESSION).
  { rewrite Hs. exists session. repeat split; auto. }
  destruct (opcode =? CMSG_PING).
  { unfold HandlePing.
    destruct (BB.bind _ _ _) as [[[ping latency] b]|];
      [|exists session; repeat split; auto].
    pose proof (count_ping_session env now s) as Hc.
    destruct (count_ping env now s) as [kicked s1]. cbn [snd] in Hc.
    destruct kicked; [exists session; cbn; rewrite Hc; repeat split; auto|].
    unfold answer_ping. rewrite Hc, Hs. cbn [snd].
    match goal with |- context [SendPacket ?p ?i ?t] =>
      pose proof (SendPacket_frame p i t) as Hf end.
    cbv zeta in Hf. destruct Hf as (_ & _ & _ & _ & _ & _ & _ & _ & Hsess & _).
    rewrite Hsess. eexists. split; [reflexivity|]. repeat split. }
  destruct (opcode =? CMSG_KEEP_ALIVE).
  { exists session. repeat split; auto. }
  rewrite Hs. eexists. split; [reflexivity|]. repeat split.
Qed.

(** X7: no inbound message unbinds or replaces the session of a connection:
    after every call the socket still holds a session of the same account,
    security, expansion and locale.  A second CMSG_AUTH_SESSION in particular
    leaves the first session in place. *)
Theorem session_stays_bound env now s session :
  m_session s = Some session ->
  exists session',
    m_session (snd (ProcessIncomingData env now s)) = Some session'
    /\ same_account session' session.
Proof.
  intros Hs. unfold ProcessIncomingData.
  pose proof (frame_session s) as Hf.
  destruct (frame s) as [s'|s'|s'|s'|opcode pct s'];
    try (exists session; cbn; rewrite Hf; repeat split; auto; fail).
  rewrite Hs in Hf.
  destruct (dispatch_keeps_session env now opcode pct s' Hf) as (session' & Hd & Hsame).
  destruct (dispatch env now opcode pct s') as [[b|] s2]; cbn [snd] in Hd |- *.
  - exists session'. auto.
  - exists session'. split; [|exact Hsame].
    unfold on_ByteBufferException.
    destruct (HasLogLevelDebug env); destruct (CONFIG_BOOL_KICK_PLAYER_ON_BAD_PACKET env);
      exact Hd.
Qed.

(** X8: a session gets bound by the handshake only: if a call on a
    connection without a session ends with a session bound, the message it
    decoded had the opcode CMSG_AUTH_SESSION, and that opcode is not the one
    of the legacy opener. *)
Theorem session_bound_only_by_handshake env now s :
  m_session s = None ->
  m_session (snd (ProcessIncomingData env now s)) <> None ->
  exists pct s1,
    frame s = Decoded CMSG_AUTH_SESSION pct s1
    /\ CMSG_AUTH_SESSION <> MSG_WOW_CONNECTION_RAW.
Proof.
  intros Hs. unfold ProcessIncomingData.
  pose proof (frame_session s) as Hf.
  destruct (frame s) as [s'|s'|s'|s'|opcode pct s'];
    try (cbn; rewrite Hf, Hs; intros H; now elim H).
  rewrite Hs in Hf.
  assert (Hexc : forall t, m_session t = None ->
                 m_session (snd (on_ByteBufferException env opcode pct t)) = None).
  { intros t Ht. unfold on_ByteBufferException.
    destruct (HasLogLevelDebug env); destruct (CONFIG_BOOL_KICK_PLAYER_ON_BAD_PACKET env);
      exact Ht. }
  unfold dispatch.
  destruct (opcode =? MSG_WOW_CONNECTION_RAW) eqn:Hraw.
  { unfold HandleWowConnection. cbn [BB.read_cstring snd].
    match goal with |- context [SendPacket ?p ?i ?t] =>
      pose proof (SendPacket_frame p i t) as Hfr end.
    cbv zeta in Hfr. destruct Hfr as (_ & _ & _ & _ & _ & _ & _ & _ & Hsess & _).
    rewrite Hsess, Hf. intros H; now elim H. }
  destruct (opcode =? CMSG_AUTH_SESSION) eqn:Hauth.
  { apply Z.eqb_eq in Hauth. apply Z.eqb_neq in Hraw. subst opcode.
    intros _. exists pct, s'. auto. }
  destruct (opcode =? CMSG_PING).
  { unfold HandlePing.
    destruct (BB.bind _ _ _) as [[[ping latency] b]|].
    2:{ rewrite (Hexc s' Hf). intros H; now elim H. }
    pose proof (count_ping_session env now s') as Hc.
    destruct (count_ping env now s') as [kicked s1]. cbn [snd] in Hc.
    destruct kicked; [cbn; rewrite Hc, Hf; intros H; now elim H|].
    unfold answer_ping. rewrite Hc, Hf. cbn. rewrite Hc, Hf. intros H; now elim H. }
  destruct (opcode =? CMSG_KEEP_ALIVE).
  { cbn. rewrite Hf. intros H; now elim H. }
  rewrite Hf. cbn. rewrite Hf. intros H; now elim H.
Qed.

(** X9: CMSG_KEEP_ALIVE is accepted whether or not a session is bound: the
    call returns true and, apart from the script hook, whose answer is
    ignored, only writes a debug log line. *)
Theorem keep_alive_needs_no_session env now s pct s1 :
  frame s = Decoded CMSG_KEEP_ALIVE pct s1 ->
  CMSG_KEEP_ALIVE <> MSG_WOW_CONNECTION_RAW ->
  CMSG_KEEP_ALIVE <> CMSG_AUTH_SESSION ->
  CMSG_KEEP_ALIVE <> CMSG_PING ->
  ProcessIncomingData env now s = (true, log (Debug_KeepAlive (pkt_size pct)) s1)
  /\ m_session (log (Debug_KeepAlive (pkt_size pct)) s1) = m_session s.
Proof.
  intros Hf H1 H2 H3. apply Z.eqb_neq in H1, H2, H3.
  unfold ProcessIncomingData, dispatch. rewrite Hf, H1, H2, H3, Z.eqb_refl.
  split; [reflexivity|].
  pose proof (frame_session s) as Hs. rewrite Hf in Hs. exact Hs.
Qed.

(** X10: a CMSG_PING whose body is shorter than eight bytes raises the
    parse exception before anything is counted: the call returns true unless
    the realm is configured to kick on bad packets, and the ping time and the
    overspeed count stay as the framing left them. *)
Theorem short_ping_is_tolerated env now s pct s1 :
  frame s = Decoded CMSG_PING pct s1 ->
  CMSG_PING <> MSG_WOW_CONNECTION_RAW ->
  CMSG_PING <> CMSG_AUTH_SESSION ->
  (length (contents pct) < 8)%nat ->
  let r := ProcessIncomingData env now s in
  r = on_ByteBufferException env CMSG_PING pct s1
  /\ fst r = negb (CONFIG_BOOL_KICK_PLAYER_ON_BAD_PACKET env)
  /\ m_lastPingTime (snd r) = m_lastPingTime s1
  /\ m_overSpeedPings (snd r) = m_overSpeedPings s1
  /\ written (new_effects s1 (snd r)) = [].
Proof.
  intros Hf H1 H2 Hlen. apply Z.eqb_neq in H1, H2. cbv zeta.
  pose proof (frame_decoded_rpos _ Hf) as Hr.
  assert (Hthrow : HandlePing env now pct s1 = (Throw, s1)).
  { unfold HandlePing. cbv [BB.bind BB.read_int BB.read_bytes BB.ret].
    unfold contents in Hlen. rewrite Hr. cbn [Nat.add].
    destruct (4 <=? length (_storage (buf pct)))%nat eqn:H4; [|reflexivity].
    cbn [_rpos _storage Nat.add].
    destruct (8 <=? length (_storage (buf pct)))%nat eqn:H8; [|reflexivity].
    apply Nat.leb_le in H8. lia. }
  unfold ProcessIncomingData, dispatch. rewrite Hf, H1, H2, Z.eqb_refl, Hthrow.
  split; [reflexivity|]. unfold on_ByteBufferException.
  destruct (HasLogLevelDebug env); destruct (CONFIG_BOOL_KICK_PLAYER_ON_BAD_PACKET env);
    (repeat split; try reflexivity;
     erewrite new_effects_app; [|cbn; repeat rewrite <- app_assoc; reflexivity];
     reflexivity).
Qed.

End MoreSocket.

(** ** More on the handshake *)

Section MoreHandshake.

Context {P : Platform}.

Implicit Types s : WorldSocket P.

Lemma none_triggered env m s :
  first_triggered code_precedence env m s = None ->
  forall r, triggers env m s r = false.
Proof.
  unfold first_triggered, code_precedence. cbn [find].
  repeat match goal with
         | |- context [if ?c then _ else _] => destruct c eqn:?; try discriminate
         end.
  intros _ []; assumption.
Qed.

(** The trace of an accepted handshake, effect by effect. *)
Lemma checks_accepted_trace env m s s' :
  HandleAuthSession_checks env m s = (Return true, s') ->
  exists row session,
    fetched_row env m = Some row
    /\ first_triggered code_precedence env m s = None
    /\ ReadAddonsInfo
         (LoadTutorialsData (LoadGlobalAccountData (constructed_session env row)))
         (addonsData m) = Some session
    /\ m_session s' = Some session
    /\ m_crypt s' = CryptInit (m_crypt s) (SetHexStr (f_sessionkey row))
    /\ effects s'
       = effects s
         ++ [Log (Debug_AuthSession (clientBuild m) (accountName m) (clientSeed m));
             Log (Debug_sv_check (AsHexStr (SetHexStr (f_s row)))
                    (AsHexStr (SetHexStr (f_v row))));
             Log (Debug_Authenticated (accountName m) (GetRemoteAddress s));
             Db_InsertLogon (GetUInt32 (f_id row)) (c_str (GetRemoteAddress s))
               LOGIN_TYPE_MANGOSD;
             Call_CryptInit (SetHexStr (f_sessionkey row));
             World_AddSession session].
Proof.
  intros Heq.
  destruct (first_triggered code_precedence env m s) as [r|] eqn:Hr.
  { destruct (checks_rejected_trace _ _ _ Hr) as (s1 & new & p & Heq1 & _).
    rewrite Heq in Heq1. discriminate. }
  revert Heq Hr.
  unfold first_triggered, code_precedence, HandleAuthSession_checks.
  cbn [find triggers]. unfold fetched_row, clamped_security, constructed_session,
    session_expansion, session_locale, GetRemoteAddress.
  destruct (IsAcceptableClientBuild env (clientBuild m)); cbn [negb]; [|discriminate].
  destruct (db_account env (c_str (escape_string env (accountName m)))) as [row|];
    [|discriminate].
  cbn [m_address log emit set_s m_seed m_crypt].
  destruct ((GetUInt8 (f_locked row) =? 1) && strcmp_ne (f_lockedIp row) (m_address s));
    [discriminate|].
  destruct (db_banned env (GetUInt32 (f_id row)) (c_str (m_address s))); [discriminate|].
  match goal with |- context [if ?c then Some ServerUnavailable else _] => destruct c end;
    [discriminate|].
  match goal with |- context [if ?c then Some DigestMismatch else _] => destruct c end;
    [discriminate|].
  destruct (ReadAddonsInfo _ _) as [session|] eqn:Hread; [|discriminate].
  intros Heq _. inversion Heq; subst s'. clear Heq.
  exists row, session. split; [reflexivity|]. split; [reflexivity|].
  split; [exact Hread|]. split; [reflexivity|]. split; [reflexivity|].
  cbn [effects emit log set_session set_crypt set_s]. repeat rewrite <- app_assoc. reflexivity.
Qed.

(** X11: a handshake that returns true has passed every check (in
    particular the first twenty bytes of the recomputed digest equal the
    client's, and neither the account nor the address is banned), and what it
    did is, in this order, the login record, keying the cipher with the stored
    session key and registering the session; it writes nothing to the socket
    itself. *)
Theorem handshake_success_effects env pkt m b s s' :
  read_auth_session (buf pkt) = Some (m, b) ->
  HandleAuthSession env pkt s = (Return true, s') ->
  exists row session dbg,
    fetched_row env m = Some row
    /\ IsAcceptableClientBuild env (clientBuild m) = true
    /\ db_banned env (GetUInt32 (f_id row)) (c_str (GetRemoteAddress s)) = false
    /\ firstn 20 (auth_digest (accountName m) (clientSeed m) (m_seed s)
                    (SetHexStr (f_sessionkey row)))
       = firstn 20 (digest m)
    /\ m_session s' = Some session
    /\ m_crypt s' = CryptInit (m_crypt s) (SetHexStr (f_sessionkey row))
    /\ new_effects s s'
       = dbg ++ [Db_InsertLogon (GetUInt32 (f_id row)) (c_str (GetRemoteAddress s))
                   LOGIN_TYPE_MANGOSD;
                 Call_CryptInit (SetHexStr (f_sessionkey row));
                 World_AddSession session]
    /\ Forall (fun e => exists l, e = Log l) dbg
    /\ written (new_effects s s') = [].
Proof.
  intros Hparse Heq. rewrite (@HandleAuthSession_parsed P env pkt m b s Hparse) in Heq.
  destruct (checks_accepted_trace _ _ _ Heq)
    as (row & session & Hrow & Hnone & _ & Hs & Hc & He).
  pose proof (none_triggered _ _ _ Hnone) as Hall.
  pose proof (Hall VersionMismatch) as Hv.
  pose proof (Hall AccountBanned) as Hb.
  pose proof (Hall DigestMismatch) as Hd.
  cbn [triggers] in Hv, Hb, Hd. rewrite Hrow in Hb, Hd.
  exists row, session. eexists.
  split; [exact Hrow|].
  split; [now apply negb_false_iff in Hv|].
  split; [exact Hb|].
  split.
  { unfold memcmp_ne in Hd. apply negb_false_iff in Hd. now apply bytes_eqb_eq in Hd. }
  split; [exact Hs|]. split; [exact Hc|].
  rewrite (@new_effects_app P s s' _ He).
  split; [|split].
  - change (?a :: ?b :: ?c :: ?rest) with ([a; b; c] ++ rest). reflexivity.
  - repeat constructor; eexists; reflexivity.
  - reflexivity.
Qed.

(** *** Messages that are too short *)

Lemma reads_read_bytes (n : nat) : reads_at_least n (BB.read_bytes n).
Proof.
  intros b x b'. unfold BB.read_bytes.
  destruct (_rpos b + n <=? length (_storage b))%nat eqn:Hle; [|discriminate].
  apply Nat.leb_le in Hle. intros H; inversion H; subst; cbn. repeat split; auto.
Qed.

Lemma reads_weaken {A} (n k : nat) (r : BB.Reader A) :
  (k <= n)%nat -> reads_at_least n r -> reads_at_least k r.
Proof.
  intros Hk Hr b x b' H. destruct (Hr b x b' H) as (Hs & Hp & Hl).
  repeat split; auto; [lia|]. intros [H0|H0]; apply Hl; [left|right]; lia.
Qed.

Lemma reads_read_bytes_any (n : nat) : reads_at_least 0 (BB.read_bytes n).
Proof. apply (reads_weaken (n := n)); [lia|apply reads_read_bytes]. Qed.

Lemma reads_ret {A} (a : A) : reads_at_least 0 (BB.ret a).
Proof.
  intros b x b' H. inversion H; subst. repeat split; auto; [lia|].
  intros [H0|H0]; [exact H0|lia].
Qed.

Lemma reads_bind {A B} (n k : nat) (r : BB.Reader A) (f : A -> BB.Reader B) :
  reads_at_least n r -> (forall a, reads_at_least k (f a)) ->
  reads_at_least (n + k) (BB.bind r f).
Proof.
  intros Hr Hf b x b'. unfold BB.bind.
  destruct (r b) as [[a b1]|] eqn:Hrb; [|discriminate].
  intros Hfb. destruct (Hr b a b1 Hrb) as (Hs1 & Hp1 & Hl1).
  destruct (Hf a b1 x b' Hfb) as (Hs2 & Hp2 & Hl2).
  split; [congruence|]. split; [lia|].
  intros Hor. apply Hl2.
  destruct n as [|n].
  - destruct Hor as [H0|H0]; [left; apply Hl1; now left|right; lia].
  - left. apply Hl1. right. lia.
Qed.

Lemma reads_read_skip (n : nat) : reads_at_least n (BB.read_skip n).
Proof.
  unfold BB.read_skip. replace n with (n + 0)%nat at 1 by lia.
  apply reads_bind; [apply reads_read_bytes|intros; apply reads_ret].
Qed.

Lemma reads_read_int (n : nat) : reads_at_least n (BB.read_int n).
Proof.
  unfold BB.read_int. replace n with (n + 0)%nat at 1 by lia.
  apply reads_bind; [apply reads_read_bytes|intros; apply reads_ret].
Qed.

Lemma reads_ReadString (len : Z) : reads_at_least 0 (BB.ReadString len).
Proof.
  unfold BB.ReadString. destruct (len =? 0); [apply reads_ret|].
  change 0%nat with (0 + 0)%nat.
  apply reads_bind; [apply reads_read_bytes_any|intros; apply reads_ret].
Qed.

Lemma reads_read_auth_session : reads_at_least 58 read_auth_session.
Proof.
  unfold read_auth_session.
  repeat match goal with
         | |- reads_at_least _ (BB.bind (BB.read_skip ?n) _) =>
           apply (@reads_bind _ _ n); [apply reads_read_skip|intros ?]
         | |- reads_at_least _ (BB.bind (BB.read_int ?n) _) =>
           apply (@reads_bind _ _ n); [apply reads_read_int|intros ?]
         | |- reads_at_least _ (BB.bind (BB.read_bytes ?n) _) =>
           apply (@reads_bind _ _ 0); [apply reads_read_bytes_any|intros ?]
         | |- reads_at_least _ (BB.bind (BB.ReadString ?n) _) =>
           apply (@reads_bind _ _ 0); [apply reads_ReadString|intros ?]
         end.
  apply reads_ret.
Qed.


(** ** More on pings *)

Lemma byte_mod (b r : Z) : 0 <= b < 256 -> (b + 256 * r) mod 256 = b.
Proof.
  intros Hb. rewrite Z.mul_comm, Z.mod_add by lia. apply Z.mod_small. lia.
Qed.

Lemma byte_div (b r : Z) : 0 <= b < 256 -> (b + 256 * r) / 256 = r.
Proof.
  intros Hb. rewrite Z.mul_comm, Z.div_add, (Z.div_small b) by lia. lia.
Qed.

Lemma le_value_le_bytes_4 (bs : bytes) :
  length bs = 4%nat -> Forall (fun b => 0 <= b < 256) bs ->
  le_bytes 4 (le_value bs) = bs.
Proof.
  intros Hl Hall.
  destruct bs as [|b0 [|b1 [|b2 [|b3 [|]]]]]; try discriminate.
  repeat match goal with H : Forall _ (_ :: _) |- _ => inversion H; clear H; subst end.
  cbn [le_bytes le_value].
  rewrite !byte_div, !byte_mod by assumption. reflexivity.
Qed.

Lemma read_ping_fields (pkt : WorldPacket) (p l rest : bytes) :
  _rpos (buf pkt) = 0%nat ->
  contents pkt = p ++ l ++ rest ->
  length p = 4%nat -> length l = 4%nat ->
  exists b,
    (ping <- BB.read_int 4 ;; latency <- BB.read_int 4 ;; BB.ret (ping, latency)) (buf pkt)
    = Some ((le_value p, le_value l), b).
Proof.
  intros Hr Hc Hp Hl. unfold contents in Hc.
  destruct p as [|p0 [|p1 [|p2 [|p3 [|]]]]]; try discriminate.
  destruct l as [|l0 [|l1 [|l2 [|l3 [|]]]]]; try discriminate.
  cbv [BB.bind BB.read_int BB.read_bytes BB.ret]. rewrite Hr, Hc.
  cbn [Nat.add app length Nat.leb _rpos _storage skipn firstn].
  eexists. reflexivity.
Qed.

Lemma SendPacket_flushes pct s :
  m_closed s = false -> In ForceFlushOut (new_effects s (SendPacket pct true s)).
Proof.
  intros Hc. unfold SendPacket, IsClosed. rewrite Hc.
  destruct (ServerPktHeader.isLargePacket _);
    cbn [m_crypt log emit]; destruct (EncryptSend _ _) as [crypt enc];
    (erewrite new_effects_app;
     [|cbn [effects emit set_crypt log]; repeat rewrite <- app_assoc; reflexivity]);
    cbn; auto 10.
Qed.

(** X13: a ping on an open connection with a session, when the overspeed
    block does not kick, is answered: the pong carries back the first four
    bytes of the ping body, the write is flushed at once, and the session
    takes the latency the client reported and has its time delay reset. *)
Theorem ping_is_answered env now pkt s session (p l rest : bytes) :
  _rpos (buf pkt) = 0%nat ->
  contents pkt = p ++ l ++ rest ->
  length p = 4%nat -> length l = 4%nat ->
  Forall (fun b => 0 <= b < 256) p ->
  m_session s = Some session ->
  m_closed s = false ->
  fst (count_ping env now s) = false ->
  let r := HandlePing env now pkt s in
  fst r = Return true
  /\ sent_packets (new_effects s (snd r)) = [(SMSG_PONG, p)]
  /\ In ForceFlushOut (new_effects s (snd r))
  /\ exists session',
      m_session (snd r) = Some session'
      /\ m_latency session' = le_value l
      /\ m_clientTimeDelay session' = 0
      /\ same_account session' session
      /\ _recvQueue session' = _recvQueue session.
Proof.
  intros Hr Hc Hp Hl Hall Hs Hopen Hk. cbv zeta.
  destruct (read_ping_fields pkt p l rest Hr Hc Hp Hl) as (b & Hparse).
  unfold HandlePing. rewrite Hparse.
  pose proof (count_ping_session env now s) as Hcs.
  assert (Hce : effects (snd (count_ping env now s)) = effects s
                /\ m_closed (snd (count_ping env now s)) = m_closed s).
  { revert Hk. unfold count_ping.
    repeat match goal with
           | |- context [if ?c then _ else _] => destruct c
           | |- context [match ?c with Some _ => _ | None => _ end] => destruct c
           end; cbn; intros; try discriminate; split; reflexivity. }
  destruct (count_ping env now s) as [kicked s1]. cbn [fst snd] in *. subst kicked.
  destruct Hce as [He1 Hc1].
  unfold answer_ping. rewrite Hcs, Hs. cbn [fst snd].
  match goal with |- context [SendPacket ?q ?i ?t] =>
    pose proof (SendPacket_frame q i t) as Hf;
    destruct (SendPacket_effects q i t) as (new & He & _ & _ & Hsent);
    pose proof (@SendPacket_flushes q t) as Hflush
  end.
  cbv zeta in Hf. destruct Hf as (_ & _ & _ & _ & _ & _ & _ & _ & Hsess & _).
  cbn [m_closed set_session] in Hsent, Hflush. rewrite Hc1, Hopen in Hsent, Hflush.
  destruct (Hsent eq_refl) as [Hpk _]. specialize (Hflush eq_refl).
  rewrite (new_effects_app _ _ _ He) in Hflush.
  cbn [effects set_session] in He. rewrite He1 in He.
  split; [reflexivity|].
  rewrite (@new_effects_app P s _ new He).
  split.
  { rewrite Hpk. cbn -[le_bytes]. rewrite (le_value_le_bytes_4 Hp Hall). reflexivity. }
  split; [exact Hflush|].
  eexists. split; [rewrite Hsess; reflexivity|].
  repeat split.
Qed.

(** X14: a ping on a connection without a session is refused: the call
    returns false and writes nothing to the socket, though the time of the
    ping has been recorded. *)
Theorem ping_without_session env now pkt s :
  m_session s = None ->
  fst (HandlePing env now pkt s) <> Throw ->
  let r := HandlePing env now pkt s in
  fst r = Return false
  /\ written (new_effects s (snd r)) = []
  /\ new_effects s (snd r) = [Log (Err_PingNotAuthed (GetRemoteAddress s))]
  /\ m_lastPingTime (snd r) = now
  /\ m_session (snd r) = None.
Proof.
  intros Hs. cbv zeta. unfold HandlePing.
  destruct (BB.bind _ _ _) as [[[ping latency] b]|]; [intros _|intros H; now elim H].
  assert (Hc : fst (count_ping env now s) = false
               /\ effects (snd (count_ping env now s)) = effects s
               /\ m_lastPingTime (snd (count_ping env now s)) = now
               /\ m_session (snd (count_ping env now s)) = None
               /\ m_address (snd (count_ping env now s)) = m_address s).
  { unfold count_ping. cbn [m_session set_lastPingTime set_overSpeedPings]. rewrite Hs.
    repeat match goal with
           | |- context [if ?c then _ else _] => destruct c
           end; cbn; rewrite ?Hs; repeat split; reflexivity. }
  destruct (count_ping env now s) as [kicked s1]. cbn [fst snd] in Hc.
  destruct Hc as (-> & He & Hl & Hs1 & Ha).
  unfold answer_ping. rewrite Hs1. cbn [fst snd].
  split; [reflexivity|].
  rewrite (@new_effects_app P s _ [Log (Err_PingNotAuthed (GetRemoteAddress s))])
    by (cbn; unfold GetRemoteAddress; now rewrite He, Ha).
  repeat split; auto.
Qed.

(** X15: with a nonzero cap, a ping of a SEC_PLAYER session is answered
    only while the overspeed count is within the cap. *)
Theorem answered_player_is_within_cap env now pkt s session :
  ping_state_ok s ->
  m_session s = Some session ->
  _security session = SEC_PLAYER ->
  uint32 (CONFIG_UINT32_MAX_OVERSPEED_PINGS env) <> 0 ->
  fst (HandlePing env now pkt s) = Return true ->
  m_overSpeedPings (snd (HandlePing env now pkt s))
  <= uint32 (CONFIG_UINT32_MAX_OVERSPEED_PINGS env).
Proof.
  intros Hok Hs Hsec Hcap.
  pose proof (count_ping_spec env now Hok) as Hc. cbv zeta in Hc.
  unfold HandlePing.
  destruct (BB.bind _ _ _) as [[[ping latency] b]|]; [|discriminate].
  destruct (count_ping env now s) as [kicked s1]. cbn [fst snd] in Hc.
  destruct Hc as (_ & _ & Hcount & _ & Hkick).
  destruct kicked; [discriminate|].
  pose proof (answer_ping_spec ping latency s1) as Ha. cbv zeta in Ha.
  destruct (answer_ping ping latency s1) as [o s2]. cbn [fst snd] in Ha |- *.
  destruct Ha as (_ & Ho & _). intros _. rewrite Ho, Hcount.
  destruct (Z_le_gt_dec (counted now s) (uint32 (CONFIG_UINT32_MAX_OVERSPEED_PINGS env)))
    as [Hle|Hgt]; [exact Hle|].
  assert (Hk : false = true); [|discriminate].
  apply Hkick. split; [exact Hcap|]. split; [lia|]. exists session. auto.
Qed.

(** ** The layout of the credentials message *)

Lemma one_byte (k : nat) (l : bytes) : le_value (firstn 1 (skipn k l)) = nth k l 0.
Proof.
  revert l. induction k as [|k IH]; intros [|x l]; cbn [skipn firstn nth le_value];
    try reflexivity; [lia|apply IH].
Qed.

Lemma bind_read_bytes {B} (n k : nat) bp cv (st : bytes) (f : bytes -> BB.Reader B) :
  (k + n <= length st)%nat ->
  BB.bind (BB.read_bytes n) f (mkByteBuffer k bp cv st)
  = f (firstn n (skipn k st)) (mkByteBuffer (k + n) bp cv st).
Proof.
  intros H. unfold BB.bind, BB.read_bytes. cbn [_rpos _storage _bitpos _curbitval].
  apply Nat.leb_le in H. now rewrite H.
Qed.

Lemma bind_read_int {B} (n k : nat) bp cv (st : bytes) (f : Z -> BB.Reader B) :
  (k + n <= length st)%nat ->
  BB.bind (BB.read_int n) f (mkByteBuffer k bp cv st)
  = f (le_value (firstn n (skipn k st))) (mkByteBuffer (k + n) bp cv st).
Proof.
  intros H. unfold BB.read_int. unfold BB.bind at 1. rewrite bind_read_bytes by exact H.
  reflexivity.
Qed.

Lemma bind_read_skip {B} (n k : nat) bp cv (st : bytes) (f : unit -> BB.Reader B) :
  (k + n <= length st)%nat ->
  BB.bind (BB.read_skip n) f (mkByteBuffer k bp cv st)
  = f tt (mkByteBuffer (k + n) bp cv st).
Proof.
  intros H. unfold BB.read_skip. unfold BB.bind at 1. rewrite bind_read_bytes by exact H.
  reflexivity.
Qed.

Lemma bind_inv {A B} (r : BB.Reader A) (f : A -> BB.Reader B) b y :
  BB.bind r f b = Some y -> exists a b1, r b = Some (a, b1) /\ f a b1 = Some y.
Proof.
  unfold BB.bind. destruct (r b) as [[a b1]|]; [|discriminate].
  intros H. exists a, b1. auto.
Qed.

Lemma bind_read_bytes_inv {B} (n k : nat) bp cv (st : bytes) (f : bytes -> BB.Reader B) y :
  BB.bind (BB.read_bytes n) f (mkByteBuffer k bp cv st) = Some y ->
  (k + n <= length st)%nat
  /\ f (firstn n (skipn k st)) (mkByteBuffer (k + n) bp cv st) = Some y.
Proof.
  unfold BB.bind, BB.read_bytes. cbn [_rpos _storage _bitpos _curbitval].
  destruct (k + n <=? length st)%nat eqn:H; [|discriminate].
  apply Nat.leb_le in H. auto.
Qed.

(** X16: in a credentials message that parses, the twenty digest bytes come
    from the fixed, scattered offsets of [digest_offsets], the build from
    offsets 28-29 and the client seed from offsets 41-44, both little-endian,
    and the add-on data is the block of the length declared at offsets 52-55
    that starts at offset 56. *)
Theorem credentials_layout (pkt : WorldPacket) m b' :
  _rpos (buf pkt) = 0%nat ->
  read_auth_session (buf pkt) = Some (m, b') ->
  let bs := contents pkt in
  digest m = map (fun i => nth i bs 0) digest_offsets
  /\ clientBuild m = le_value (firstn 2 (skipn 28 bs))
  /\ clientSeed m = le_value (firstn 4 (skipn 41 bs))
  /\ addonsData m
     = firstn (Z.to_nat (le_value (firstn 4 (skipn 52 bs)))) (skipn 56 bs)
  /\ (58 + length (addonsData m) <= length bs)%nat.
Proof.
  intros Hr Hparse. cbv zeta. unfold contents.
  assert (H58 : (58 <= length (_storage (buf pkt)))%nat).
  { destruct (reads_read_auth_session _ Hparse) as (Hs & Hp & Hl).
    rewrite Hs in Hl. specialize (Hl (or_intror (Nat.lt_0_succ _))). lia. }
  destruct (buf pkt) as [rpos bitpos cur storage]. cbn [_rpos _storage] in *. subst rpos.
  revert Hparse. unfold read_auth_session.
  repeat (first [rewrite bind_read_skip by (cbn [Nat.add]; lia)
                |rewrite bind_read_int by (cbn [Nat.add]; lia)];
          cbv beta; cbn [Nat.add]).
  intros Hparse. apply bind_read_bytes_inv in Hparse as [HN Hparse].
  apply bind_inv in Hparse as (hi & b1 & Hhi & Hparse).
  apply bind_inv in Hparse as (lo & b2 & Hlo & Hparse).
  apply bind_inv in Hparse as (name & b3 & Hname & Hparse).
  unfold BB.ret in Hparse.
  pose proof (f_equal (fun o => match o with Some (x, _) => x | None => m end) Hparse)
    as Hm.
  cbv beta iota in Hm. rewrite <- Hm. clear Hm Hparse.
  cbn [digest clientBuild clientSeed addonsData map digest_offsets].
  rewrite !one_byte.
  split; [reflexivity|]. split; [reflexivity|]. split; [reflexivity|].
  split; [reflexivity|].
  destruct (reads_read_int 1 _ Hhi) as (Hs1 & Hp1 & _).
  destruct (reads_read_int 1 _ Hlo) as (Hs2 & Hp2 & Hl2).
  cbn [_rpos _storage] in *. rewrite Hs2, Hs1 in Hl2.
  specialize (Hl2 (or_intror (Nat.lt_0_succ _))).
  rewrite firstn_length_le by (rewrite length_skipn; lia). lia.
Qed.

End MoreHandshake.

(** ** What the handlers leave alone, and the invariants of the buffer *)

Section Untouched.

Context {P : Platform}.

Implicit Types s t u : WorldSocket P.

Lemma same_connection_refl s : same_connection s s.
Proof. repeat split. Qed.

Lemma same_connection_trans s t u :
  same_connection s t -> same_connection t u -> same_connection s u.
Proof. unfold same_connection, same_buffer. intuition congruence. Qed.

Lemma same_connection_emit e s : same_connection s (emit e s).
Proof. repeat split. Qed.

Lemma same_connection_set_s v s : same_connection s (set_s v s).
Proof. repeat split. Qed.

Lemma same_connection_set_session v s : same_connection s (set_session v s).
Proof. repeat split. Qed.

Lemma same_connection_set_crypt v s : same_connection s (set_crypt v s).
Proof. repeat split. Qed.

Lemma same_connection_SendPacket pct immediate s :
  same_connection s (SendPacket pct immediate s).
Proof.
  pose proof (SendPacket_frame pct immediate s) as H. cbv zeta in H.
  unfold same_connection, same_buffer. intuition.
Qed.

Ltac untouched :=
  repeat lazymatch goal with
         | |- same_connection ?s ?s => apply same_connection_refl
         | |- same_connection _ (log _ ?t) =>
           apply (@same_connection_trans _ t); [|apply same_connection_emit]
         | |- same_connection _ (emit _ ?t) =>
           apply (@same_connection_trans _ t); [|apply same_connection_emit]
         | |- same_connection _ (set_s _ ?t) =>
           apply (@same_connection_trans _ t); [|apply same_connection_set_s]
         | |- same_connection _ (set_session _ ?t) =>
           apply (@same_connection_trans _ t); [|apply same_connection_set_session]
         | |- same_connection _ (set_crypt _ ?t) =>
           apply (@same_connection_trans _ t); [|apply same_connection_set_crypt]
         | |- same_connection _ (SendPacket _ _ ?t) =>
           apply (@same_connection_trans _ t); [|apply same_connection_SendPacket]
         end.

Lemma HandleAuthSession_checks_untouched env m s :
  same_connection s (snd (HandleAuthSession_checks env m s)).
Proof.
  unfold HandleAuthSession_checks.
  repeat match goal with
         | |- context [if ?c then _ else _] => destruct c
         | |- context [match ?c with Some _ => _ | None => _ end] => destruct c
         end; cbn [snd]; untouched.
Qed.

Lemma HandleAuthSession_untouched env pkt s :
  same_connection s (snd (HandleAuthSession env pkt s)).
Proof.
  unfold HandleAuthSession.
  destruct (read_auth_session (buf pkt)) as [[m b]|];
    [apply HandleAuthSession_checks_untouched|apply same_connection_refl].
Qed.

Lemma HandleWowConnection_untouched pkt s :
  same_connection s (snd (HandleWowConnection pkt s)).
Proof.
  unfold HandleWowConnection. cbn [BB.read_cstring snd]. untouched.
Qed.

Lemma count_ping_same_buffer env now s : same_buffer s (snd (count_ping env now s)).
Proof.
  unfold count_ping.
  repeat match goal with
         | |- context [if ?c then _ else _] => destruct c
         | |- context [match ?c with Some _ => _ | None => _ end] => destruct c
         end; repeat split.
Qed.

Lemma same_buffer_trans s t u : same_buffer s t -> same_buffer t u -> same_buffer s u.
Proof. unfold same_buffer. intuition congruence. Qed.

Lemma HandlePing_same_buffer env now pkt s : same_buffer s (snd (HandlePing env now pkt s)).
Proof.
  unfold HandlePing.
  destruct (BB.bind _ _ _) as [[[ping latency] b]|]; [|repeat split].
  pose proof (count_ping_same_buffer env now s) as Hc.
  destruct (count_ping env now s) as [kicked s1]. cbn [snd] in Hc.
  destruct kicked; [exact Hc|].
  apply (same_buffer_trans Hc). unfold answer_ping.
  destruct (m_session s1); cbn [snd]; [|repeat split].
  match goal with |- same_buffer _ (SendPacket ?p ?i ?t) =>
    apply (@same_buffer_trans _ t); [repeat split|apply same_connection_SendPacket] end.
Qed.

Lemma dispatch_untouched env now opcode pct s :
  same_connection s (snd (dispatch env now opcode pct s))
  \/ dispatch env now opcode pct s = HandlePing env now pct s.
Proof.
  unfold dispatch.
  destruct (opcode =? MSG_WOW_CONNECTION_RAW);
    [left; apply HandleWowConnection_untouched|].
  destruct (opcode =? CMSG_AUTH_SESSION).
  { left. destruct (m_session s); [repeat split|].
    destruct (_ && _); [repeat split|apply HandleAuthSession_untouched]. }
  destruct (opcode =? CMSG_PING); [right; reflexivity|]. left.
  destruct (opcode =? CMSG_KEEP_ALIVE); [repeat split|].
  destruct (m_session s); repeat split.
Qed.

(** X17: no message handler moves the read cursor, changes the buffered
    bytes or the cached header, or alters the address, the seed or the closed
    flag of the connection. *)
Theorem handlers_leave_the_buffer_alone env now opcode pct s :
  same_buffer s (snd (dispatch env now opcode pct s)).
Proof.
  destruct (dispatch_untouched env now opcode pct s) as [H|H].
  - apply H.
  - rewrite H. apply HandlePing_same_buffer.
Qed.

Lemma on_ByteBufferException_untouched env opcode pct s :
  same_connection s (snd (on_ByteBufferException env opcode pct s)).
Proof.
  unfold on_ByteBufferException.
  destruct (HasLogLevelDebug env); destruct (CONFIG_BOOL_KICK_PLAYER_ON_BAD_PACKET env);
    repeat split.
Qed.

Lemma buffer_inv_same_buffer s t : same_buffer s t -> buffer_inv s -> buffer_inv t.
Proof.
  unfold same_buffer, buffer_inv, buffer_ok, ReadLengthRemaining.
  intros (Hb & Hp & Hu & _) H. rewrite Hb, Hp, Hu. exact H.
Qed.

Lemma ping_state_ok_same_connection s t :
  same_connection s t -> ping_state_ok s -> ping_state_ok t.
Proof.
  unfold same_connection, ping_state_ok. intros (_ & Hl & Ho) H. rewrite Hl, Ho. exact H.
Qed.

(** What the framing half does to the buffer and to the counters. *)
Lemma frame_buffer s :
  buffer_inv s ->
  match frame s with
  | BadHeaderRead s' | MalformedSize s' | NeedMoreData s' | SocketClosed s'
  | Decoded _ _ s' =>
    buffer_inv s' /\ m_inBuffer s' = m_inBuffer s
    /\ m_readPosition s <= m_readPosition s'
    /\ m_lastPingTime s' = m_lastPingTime s
    /\ m_overSpeedPings s' = m_overSpeedPings s
  end.
Proof.
  intros [[Hp0 Hp1] Hcached].
  assert (Hh : match obtain_header s with
               | None => m_useExistingHeader s = false
               | Some (h, s0) =>
                 m_inBuffer s0 = m_inBuffer s
                 /\ m_readPosition s0 = m_readPosition s + 6
                 /\ m_readPosition s0 <= Z.of_nat (length (m_inBuffer s))
                 /\ m_useExistingHeader s0 = false
                 /\ m_closed s0 = m_closed s
                 /\ m_lastPingTime s0 = m_lastPingTime s
                 /\ m_overSpeedPings s0 = m_overSpeedPings s
               end).
  { unfold obtain_header, Read.
    destruct (m_useExistingHeader s) eqn:Hu.
    - specialize (Hcached eq_refl).
      unfold ReadLengthRemaining, sizeof_ClientPktHeader in *. cbn. repeat split; lia.
    - destruct (ReadLengthRemaining s <? sizeof_ClientPktHeader) eqn:Hlt; [reflexivity|].
      apply Z.ltb_ge in Hlt.
      cbn [m_crypt emit ReadSkip set_readPosition].
      destruct (DecryptRecv _ _) as [crypt plain].
      unfold ReadLengthRemaining, sizeof_ClientPktHeader in *. cbn. repeat split; auto; lia. }
  unfold frame.
  destruct (obtain_header s) as [[h s0]|].
  2:{ cbv beta iota in Hh. unfold buffer_inv, buffer_ok, ReadLengthRemaining. cbn. rewrite Hh.
      repeat split; auto; try lia; discriminate. }
  destruct Hh as (Hb & Hp & Hle & Hu & Hc & Hl & Ho).
  destruct (malformed_size h).
  { unfold buffer_inv, buffer_ok, ReadLengthRemaining. cbn. rewrite Hb, Hu, Hl, Ho.
    repeat split; auto; try lia; discriminate. }
  destruct (ReadLengthRemaining s0 <? uint16 (size h - 4)) eqn:Hrem.
  { unfold buffer_inv, buffer_ok, ReadLengthRemaining, sizeof_ClientPktHeader. cbn.
    rewrite Hb, Hl, Ho. repeat split; auto; lia. }
  apply Z.ltb_ge in Hrem. unfold ReadLengthRemaining in Hrem.
  destruct (IsClosed s0).
  { unfold buffer_inv, buffer_ok, ReadLengthRemaining. rewrite Hb, Hu, Hl, Ho.
    repeat split; auto; try lia; discriminate. }
  assert (H16 : 0 <= uint16 (size h - 4)) by (unfold uint16; apply Z.mod_pos_bound; lia).
  destruct (negb (uint16 (size h - 4) =? 0));
    destruct (negb (cmd h =? MSG_WOW_CONNECTION_RAW));
    unfold buffer_inv, buffer_ok, ReadLengthRemaining;
    cbn [m_inBuffer m_readPosition m_useExistingHeader m_lastPingTime m_overSpeedPings
         log emit ReadSkip set_readPosition];
    rewrite ?Hb, ?Hu, ?Hl, ?Ho;
    repeat split; auto; try lia; try discriminate; rewrite Hb in Hrem; lia.
Qed.

(** X18: the read cursor never leaves the buffer.  If it is inside the
    buffer and a cached header still has its six bytes ahead of the cursor,
    the same holds after the call, whatever arrived; the call does not change
    the buffered bytes and never moves the cursor back. *)
Theorem read_cursor_stays_in_buffer env now s :
  buffer_inv s ->
  let s' := snd (ProcessIncomingData env now s) in
  buffer_inv s' /\ m_inBuffer s' = m_inBuffer s /\ m_readPosition s <= m_readPosition s'.
Proof.
  intros Hinv. cbv zeta. pose proof (frame_buffer Hinv) as Hf.
  unfold ProcessIncomingData.
  destruct (frame s) as [s'|s'|s'|s'|opcode pct s'];
    try (destruct Hf as (H1 & H2 & H3 & _); cbn [snd]; auto; fail).
  destruct Hf as (H1 & H2 & H3 & _).
  assert (Hd : same_buffer s' (snd (dispatch env now opcode pct s'))).
  { destruct (dispatch_untouched env now opcode pct s') as [H|H];
      [apply H|rewrite H; apply HandlePing_same_buffer]. }
  destruct (dispatch env now opcode pct s') as [[b|] s2]; cbn [snd] in Hd |- *.
  - split; [exact (buffer_inv_same_buffer Hd H1)|].
    destruct Hd as (Hb & Hp & _). rewrite Hb, Hp. auto.
  - destruct (on_ByteBufferException_untouched env opcode pct s2) as [He _].
    pose proof (same_buffer_trans Hd He) as Hs.
    split; [exact (buffer_inv_same_buffer Hs H1)|].
    destruct Hs as (Hb & Hp & _). rewrite Hb, Hp. auto.
Qed.

Lemma receive_buffer_inv chunk s : buffer_inv s -> buffer_inv (receive chunk s).
Proof.
  intros [[Hp0 Hp1] Hcached].
  unfold buffer_inv, buffer_ok, ReadLengthRemaining, receive, InPeak in *. cbn.
  rewrite length_app, length_skipn. split; [lia|].
  intros Hu. specialize (Hcached Hu). lia.
Qed.

(** X19: the keepalive counters stay well-formed along every call, as long
    as the clock never returns the sentinel: the overspeed count is a 32-bit
    value, and it is zero as long as no ping has been seen. *)
Theorem keepalive_counters_stay_well_formed env now s :
  now <> time_point_min ->
  buffer_inv s ->
  ping_state_ok s ->
  ping_state_ok (snd (ProcessIncomingData env now s)).
Proof.
  intros Hnow Hinv Hok. pose proof (frame_buffer Hinv) as Hf.
  unfold ProcessIncomingData.
  assert (Hkeep : forall t, m_lastPingTime t = m_lastPingTime s ->
                  m_overSpeedPings t = m_overSpeedPings s -> ping_state_ok t).
  { intros t Hl Ho. unfold ping_state_ok. rewrite Hl, Ho. exact Hok. }
  destruct (frame s) as [s'|s'|s'|s'|opcode pct s'];
    try (destruct Hf as (_ & _ & _ & Hl & Ho); cbn [snd]; auto; fail).
  destruct Hf as (_ & _ & _ & Hl & Ho). specialize (Hkeep s' Hl Ho).
  assert (Hd : ping_state_ok (snd (dispatch env now opcode pct s'))).
  { destruct (dispatch_untouched env now opcode pct s') as [H|H].
    - exact (ping_state_ok_same_connection H Hkeep).
    - rewrite H. apply HandlePing_state_ok; assumption. }
  destruct (dispatch env now opcode pct s') as [[b|] s2]; cbn [snd] in Hd |- *;
    [exact Hd|].
  exact (ping_state_ok_same_connection (on_ByteBufferException_untouched env opcode pct s2) Hd).
Qed.

End Untouched.

(** ** Runs on the sample connection *)

Section MoreRuns.

#[local] Existing Instance sample_platform.

Lemma short_header_read_witness :
  ProcessIncomingData sample_realm 0 (receive [0; 3; 1] sample_socket)
  = (false, set_errno EBADMSG (receive [0; 3; 1] sample_socket)).
Proof.
  apply (@short_header_read sample_platform sample_realm 0 (receive [0; 3; 1] sample_socket)).
  - reflexivity.
  - vm_compute. reflexivity.
Defined.

Lemma frame_consumes_one_message_witness :
  exists pct s1,
    frame (receive (sample_message_header ++ sample_message_body ++ [9]) sample_socket)
    = Decoded 0x1234 pct s1
    /\ contents pct = sample_message_body
    /\ InPeak s1 = [9]
    /\ m_readPosition s1 = 8.
Proof.
  set (s := receive (sample_message_header ++ sample_message_body ++ [9]) sample_socket).
  destruct (@frame_consumes_one_message sample_platform s sample_message_header
              sample_message_body [9])
    as (pct & s1 & Hf & _ & Hc & Hp & _ & Hr & _).
  - reflexivity.
  - reflexivity.
  - split; vm_compute; discriminate.
  - reflexivity.
  - reflexivity.
  - vm_compute. reflexivity.
  - vm_compute. reflexivity.
  - exists pct, s1. repeat split; assumption.
Defined.

Lemma body_length_does_not_wrap_witness :
  let h := header_of_bytes sample_message_header in
  0 <= size h < 2 ^ 16
  /\ 0 <= cmd h < 2 ^ 32
  /\ uint16 (size h - 4) = size h - 4
  /\ (cmd h <> MSG_WOW_CONNECTION_RAW -> size h - 4 <= 0x27FC).
Proof.
  apply (@body_length_does_not_wrap sample_message_header).
  - reflexivity.
  - repeat (constructor; try lia).
  - reflexivity.
Defined.

Lemma session_stays_bound_witness :
  exists session',
    m_session (snd (ProcessIncomingData sample_realm 0
                      (receive (sample_credentials_message good_digest) (authed_socket 0))))
    = Some session'
    /\ same_account session' (sample_session 0).
Proof.
  apply (@session_stays_bound sample_platform sample_realm 0
           (receive (sample_credentials_message good_digest) (authed_socket 0))
           (sample_session 0)).
  reflexivity.
Defined.

Lemma session_bound_only_by_handshake_witness :
  exists pct s1,
    frame (receive (sample_credentials_message good_digest) sample_socket)
    = Decoded CMSG_AUTH_SESSION pct s1
    /\ CMSG_AUTH_SESSION <> MSG_WOW_CONNECTION_RAW.
Proof.
  apply (@session_bound_only_by_handshake sample_platform sample_realm 0
           (receive (sample_credentials_message good_digest) sample_socket)).
  - reflexivity.
  - vm_compute. discriminate.
Defined.

Lemma keep_alive_needs_no_session_witness :
  let s := receive keep_alive_message sample_socket in
  let s1 := match frame s with Decoded _ _ t => t | _ => s end in
  ProcessIncomingData sample_realm 0 s = (true, log (Debug_KeepAlive 0) s1)
  /\ m_session (log (Debug_KeepAlive 0) s1) = m_session s.
Proof.
  intros s s1.
  apply (@keep_alive_needs_no_session sample_platform sample_realm 0 s (packet_of 0x0015 []) s1).
  - reflexivity.
  - vm_compute. discriminate.
  - vm_compute. discriminate.
  - vm_compute. discriminate.
Defined.

Lemma short_ping_is_tolerated_witness :
  let s := receive short_ping_message (authed_socket 0) in
  let s1 := match frame s with Decoded _ _ t => t | _ => s end in
  let r := ProcessIncomingData sample_realm 0 s in
  r = on_ByteBufferException sample_realm CMSG_PING (packet_of 0x444D [1; 2; 3]) s1
  /\ fst r = negb (CONFIG_BOOL_KICK_PLAYER_ON_BAD_PACKET sample_realm)
  /\ m_lastPingTime (snd r) = m_lastPingTime s1
  /\ m_overSpeedPings (snd r) = m_overSpeedPings s1
  /\ written (new_effects s1 (snd r)) = [].
Proof.
  intros s s1.
  apply (@short_ping_is_tolerated sample_platform sample_realm 0 s (packet_of 0x444D [1; 2; 3]) s1).
  - reflexivity.
  - vm_compute. discriminate.
  - vm_compute. discriminate.
  - cbn. lia.
Defined.

Lemma handshake_success_effects_witness :
  let r := HandleAuthSession sample_realm (sample_credentials good_digest) sample_socket in
  exists session,
    m_session (snd r) = Some session
    /\ written (new_effects sample_socket (snd r)) = [].
Proof.
  intros r.
  eassert (Hp : read_auth_session (buf (sample_credentials good_digest)) = Some (_, _))
    by (vm_compute; reflexivity).
  assert (Hf : fst r = Return true) by (vm_compute; reflexivity).
  assert (H : r = (Return true, snd r)) by (rewrite <- Hf; destruct r; reflexivity).
  destruct (@handshake_success_effects sample_platform sample_realm _ _ _ sample_socket (snd r) Hp H)
    as (row & session & dbg & _ & _ & _ & _ & Hs & _ & _ & _ & Hw).
  exists session. split; assumption.
Defined.


Lemma ping_is_answered_witness :
  let r := HandlePing sample_realm 0 (ping_packet 1 0) (authed_socket 0) in
  fst r = Return true
  /\ sent_packets (new_effects (authed_socket 0) (snd r)) = [(SMSG_PONG, [1; 0; 0; 0])]
  /\ In ForceFlushOut (new_effects (authed_socket 0) (snd r))
  /\ exists session',
      m_session (snd r) = Some session'
      /\ m_latency session' = le_value [0; 0; 0; 0]
      /\ m_clientTimeDelay session' = 0
      /\ same_account session' (sample_session 0)
      /\ _recvQueue session' = _recvQueue (sample_session 0).
Proof.
  apply (@ping_is_answered sample_platform sample_realm 0 (ping_packet 1 0) (authed_socket 0)
           (sample_session 0) [1; 0; 0; 0] [0; 0; 0; 0] []).
  - reflexivity.
  - reflexivity.
  - reflexivity.
  - reflexivity.
  - repeat (constructor; try lia).
  - reflexivity.
  - reflexivity.
  - vm_compute. reflexivity.
Defined.

Lemma ping_without_session_witness :
  let r := HandlePing sample_realm 0 (ping_packet 1 0) sample_socket in
  fst r = Return false
  /\ written (new_effects sample_socket (snd r)) = []
  /\ new_effects sample_socket (snd r)
     = [Log (Err_PingNotAuthed (GetRemoteAddress sample_socket))]
  /\ m_lastPingTime (snd r) = 0
  /\ m_session (snd r) = None.
Proof.
  apply (@ping_without_session sample_platform sample_realm 0 (ping_packet 1 0) sample_socket).
  - reflexivity.
  - vm_compute. discriminate.
Defined.

Lemma answered_player_is_within_cap_witness :
  m_overSpeedPings (snd (HandlePing sample_realm 0 (ping_packet 1 0) (authed_socket 0)))
  <= uint32 (CONFIG_UINT32_MAX_OVERSPEED_PINGS sample_realm).
Proof.
  apply (@answered_player_is_within_cap sample_platform sample_realm 0 (ping_packet 1 0)
           (authed_socket 0) (sample_session 0)).
  - split; [cbn; lia|]. intros _. reflexivity.
  - reflexivity.
  - reflexivity.
  - vm_compute. discriminate.
  - vm_compute. reflexivity.
Defined.

Lemma read_cursor_stays_in_buffer_witness :
  let s := receive short_ping_message (authed_socket 0) in
  let s' := snd (ProcessIncomingData sample_realm 0 s) in
  buffer_inv s' /\ m_inBuffer s' = m_inBuffer s /\ m_readPosition s <= m_readPosition s'.
Proof.
  intros s.
  apply (@read_cursor_stays_in_buffer sample_platform sample_realm 0 s).
  split.
  - split; vm_compute; discriminate.
  - intros H. vm_compute in H. discriminate H.
Defined.

Lemma credentials_layout_witness :
  exists m b,
    read_auth_session (buf (sample_credentials good_digest)) = Some (m, b)
    /\ digest m
       = map (fun i => nth i (contents (sample_credentials good_digest)) 0) digest_offsets
    /\ clientBuild m
       = le_value (firstn 2 (skipn 28 (contents (sample_credentials good_digest)))).
Proof.
  eassert (Hp : read_auth_session (buf (sample_credentials good_digest)) = Some (_, _))
    by (vm_compute; reflexivity).
  destruct (@credentials_layout (sample_credentials good_digest) _ _
              eq_refl Hp) as (Hd & Hb & _).
  do 2 eexists. split; [exact Hp|]. split; assumption.
Defined.

Lemma keepalive_counters_stay_well_formed_witness :
  ping_state_ok (snd (ProcessIncomingData sample_realm 0
                        (receive short_ping_message (authed_socket 0)))).
Proof.
  apply (@keepalive_counters_stay_well_formed sample_platform sample_realm 0
           (receive short_ping_message (authed_socket 0))).
  - vm_compute. discriminate.
  - split.
    + split; vm_compute; discriminate.
    + intros H. vm_compute in H. discriminate H.
  - split; [cbn; lia|]. intros _. reflexivity.
Defined.

End MoreRuns.

(** * Properties of the totem *)

Section TotemProperties.

Import Totem.

Lemma forwarded_app (x y : list Call) : forwarded (x ++ y) = forwarded x + forwarded y.
Proof.
  induction x as [|c x IH]; [reflexivity|]. destruct c; cbn [app forwarded]; lia.
Qed.

Lemma group_auras_forwards_nothing spell members :
  forwarded (group_auras spell members) = 0.
Proof.
  unfold group_auras. induction members as [|itr members IH]; [reflexivity|].
  cbn [flat_map]. rewrite forwarded_app, IH.
  destruct (getSource itr); [destruct (SameSubGroup itr)|]; reflexivity.
Qed.

Lemma UnSummon_forwards_nothing w : forwarded (UnSummon w) = 0.
Proof.
  unfold UnSummon. rewrite !forwarded_app.
  destruct (GetOwner w) as [owner|]; [|destruct (IsAlive w); reflexivity].
  rewrite !forwarded_app.
  destruct (is_player (GetTypeId owner)); destruct (AI owner); destruct (IsAlive w);
    rewrite ?forwarded_app;
    try (destruct (GetGroup owner); rewrite ?group_auras_forwards_nothing); reflexivity.
Qed.

Lemma unsummoned_app (x y : list Call) : unsummoned (x ++ y) = unsummoned x || unsummoned y.
Proof. apply existsb_app. Qed.

Lemma UnSummon_unsummoned w : unsummoned (UnSummon w) = true.
Proof.
  unfold UnSummon. rewrite !unsummoned_app. cbn. now rewrite !orb_true_r.
Qed.

(** One call: the duration goes down by what is handed on, and stays a
    32-bit value. *)
Lemma Update_budget w d time t :
  is_uint32 (m_duration t) -> is_uint32 d ->
  let r := Update w d time t in
  m_duration (fst r) + forwarded (snd r) = m_duration t
  /\ is_uint32 (m_duration (fst r))
  /\ m_type (fst r) = m_type t
  /\ (unsummoned (snd r) = false -> 0 < m_duration (fst r)).
Proof.
  unfold is_uint32. intros Ht Hd. cbv zeta. unfold Update.
  destruct (_ || _).
  { cbn [fst snd]. rewrite UnSummon_forwards_nothing, UnSummon_unsummoned.
    repeat split; try lia; discriminate. }
  destruct (Z.leb_spec (m_duration t) d) as [Hle|Hgt].
  { cbn [fst snd]. rewrite UnSummon_forwards_nothing, UnSummon_unsummoned.
    repeat split; try lia; discriminate. }
  cbn [fst snd m_duration m_type forwarded].
  unfold uint32. rewrite Z.mod_small by lia. repeat split; lia.
Qed.

(** X20: whatever happens to the owner and the totem, the time a totem
    hands on to [Creature::Update] over any sequence of calls and the
    duration it has left add up to the duration it started with: the
    countdown never wraps around and never goes up, and the type of the totem
    is not touched. *)
Theorem totem_time_budget (ticks : list Tick) (t : Totem) :
  is_uint32 (m_duration t) ->
  Forall (fun k => is_uint32 (update_diff k)) ticks ->
  let r := updates ticks t in
  m_duration (fst r) + forwarded (snd r) = m_duration t
  /\ is_uint32 (m_duration (fst r))
  /\ m_type (fst r) = m_type t.
Proof.
  intros Ht Hall. revert t Ht. induction Hall as [|k ticks Hk _ IH]; intros t Ht.
  - cbn. split; [lia|split; [exact Ht|reflexivity]].
  - cbn [updates].
    destruct (@Update_budget (world k) (update_diff k) (time k) t Ht Hk) as (Hsum & Hr & Hty & _).
    destruct (Update (world k) (update_diff k) (time k) t) as [t1 calls].
    cbn [fst snd] in Hsum, Hr, Hty.
    destruct (IH t1 Hr) as (Hsum2 & Hr2 & Hty2).
    destruct (updates ticks t1) as [t2 more]. cbn [fst snd] in *.
    rewrite forwarded_app. repeat split; [lia|apply Hr2|apply Hr2|congruence].
Qed.

Lemma elapsed_nonneg (ticks : list Tick) :
  Forall (fun k => is_uint32 (update_diff k) /\ alive (world k) = true) ticks -> 0 <= elapsed ticks.
Proof.
  induction 1 as [|k ticks [Hk _] _ IH]; [cbn; lia|].
  cbn [elapsed fold_right]. fold (elapsed ticks). unfold is_uint32 in Hk. lia.
Qed.

(** While owner and totem live and the time that has gone by is below the
    duration, every call hands on its time and nothing else happens. *)
Lemma updates_alive (ticks : list Tick) (t : Totem) :
  is_uint32 (m_duration t) ->
  Forall (fun k => is_uint32 (update_diff k) /\ alive (world k) = true) ticks ->
  elapsed ticks < m_duration t ->
  updates ticks t
  = (mkTotem (m_duration t - elapsed ticks) (m_type t),
     map (fun k => Creature_Update (update_diff k) (time k)) ticks).
Proof.
  intros Ht Hall. revert t Ht. induction Hall as [|k ticks [Hk Ha] Hrest IH]; intros t Ht He.
  - cbn. rewrite Z.sub_0_r. now destruct t.
  - cbn [updates elapsed fold_right map] in *. fold (elapsed ticks) in *.
    pose proof (elapsed_nonneg Hrest) as He0.
    unfold Update. unfold alive in Ha. apply andb_true_iff in Ha as [Ho Hs].
    destruct (GetOwner (world k)) as [owner|]; [|discriminate].
    rewrite Ho, Hs. cbn [negb orb].
    unfold is_uint32 in *.
    destruct (Z.leb_spec (m_duration t) (update_diff k)) as [Hle|Hgt]; [lia|].
    unfold uint32. rewrite Z.mod_small by lia.
    rewrite IH by (cbn [m_duration]; lia).
    cbn [m_duration m_type app]. f_equal. f_equal. lia.
Qed.

(** X21: with owner and totem alive at every call, the totem is removed at
    the first call at which the time that has gone by reaches its duration,
    and not before: until then every call only hands its time on to
    [Creature::Update]; that call hands on nothing, marks the totem dead and
    puts it on the remove list last. *)
Theorem totem_expires_on_time (before : list Tick) (k : Tick) (t : Totem) :
  is_uint32 (m_duration t) ->
  Forall (fun k => is_uint32 (update_diff k) /\ alive (world k) = true) before ->
  is_uint32 (update_diff k) -> alive (world k) = true ->
  elapsed before < m_duration t <= elapsed before + update_diff k ->
  let t1 := fst (updates before t) in
  snd (updates before t) = map (fun k => Creature_Update (update_diff k) (time k)) before
  /\ unsummoned (snd (updates before t)) = false
  /\ m_duration t1 = m_duration t - elapsed before
  /\ Update (world k) (update_diff k) (time k) t1 = (t1, UnSummon (world k))
  /\ exists calls,
      UnSummon (world k) = calls ++ [SetDeathState_DEAD; AddObjectToRemoveList].
Proof.
  intros Ht Hall Hk Ha [Hlt Hge]. cbv zeta.
  rewrite (@updates_alive before t Ht Hall Hlt). cbn [fst snd m_duration].
  split; [reflexivity|]. split.
  { clear. induction before as [|k' r IH]; [reflexivity|exact IH]. }
  split; [reflexivity|].
  unfold alive in Ha. apply andb_true_iff in Ha as [Ho Hs].
  split.
  - unfold Update. destruct (GetOwner (world k)) as [owner|]; [|discriminate].
    rewrite Ho, Hs. cbn [negb orb m_duration].
    destruct (Z.leb_spec (m_duration t - elapsed before) (update_diff k)) as [_|Hgt];
      [reflexivity|lia].
  - unfold UnSummon. rewrite Hs. eexists.
    change [SetDeathState_DEAD] with ([] ++ [SetDeathState_DEAD]).
    rewrite !app_assoc. rewrite app_nil_r. rewrite <- app_assoc. reflexivity.
Qed.

(** X22: a totem does not outlive its owner or itself.  At a call at which
    the owner is gone or dead, or the totem is dead, the totem is unsummoned
    whatever duration it has left, and nothing is handed on to
    [Creature::Update]; the duration and the type stay as they were. *)
Theorem totem_does_not_outlive_owner w d time t :
  alive w = false ->
  Update w d time t = (t, UnSummon w)
  /\ forwarded (UnSummon w) = 0
  /\ unsummoned (UnSummon w) = true
  /\ (In SetDeathState_DEAD (UnSummon w) <-> IsAlive w = true).
Proof.
  intros Ha. unfold alive in Ha.
  split; [|split; [apply UnSummon_forwards_nothing|split; [apply UnSummon_unsummoned|]]].
  - unfold Update. destruct (GetOwner w) as [owner|].
    + apply andb_false_iff in Ha as [Ha|Ha]; rewrite Ha; cbn [negb orb];
        [reflexivity|now rewrite orb_true_r].
    + reflexivity.
  - unfold UnSummon. rewrite !in_app_iff.
    assert (Hg : forall spell members, ~ In SetDeathState_DEAD (group_auras spell members)).
    { intros spell members. unfold group_auras. rewrite in_flat_map.
      intros (itr & _ & Hin). destruct (getSource itr); [destruct (SameSubGroup itr)|];
        cbn in Hin; intuition discriminate. }
    split.
    + intros [H|[H|[H|H]]].
      * cbn in H. intuition discriminate.
      * exfalso. destruct (GetOwner w) as [owner|]; [|exact H].
        rewrite !in_app_iff in H. destruct H as [H|[H|H]].
        -- cbn in H. intuition discriminate.
        -- destruct (is_player (GetTypeId owner)); [|exact H].
           rewrite in_app_iff in H. destruct H as [H|H]; [cbn in H; intuition discriminate|].
           destruct (GetGroup owner); [exact (Hg _ _ H)|exact H].
        -- destruct (AI owner); cbn in H; intuition discriminate.
      * destruct (IsAlive w); [reflexivity|destruct H].
      * cbn in H. intuition discriminate.
    + intros ->. right. right. left. now left.
Qed.

(** X23: at unsummon the aura of the totem is taken from exactly those
    players of the owner's group that are there and in the owner's subgroup,
    and from nobody else's group: only a player owner with a group has it
    taken from members. *)
Theorem UnSummon_group_auras w player spell :
  In (RemoveAurasDueToSpell (Member player) spell) (UnSummon w)
  <-> spell = GetSpell w
      /\ exists owner pGroup,
          GetOwner w = Some owner /\ GetTypeId owner = TYPEID_PLAYER
          /\ GetGroup owner = Some pGroup
          /\ In (mkGroupReference (Some player) true) pGroup.
Proof.
  assert (Hg : forall members,
             In (RemoveAurasDueToSpell (Member player) spell)
                (group_auras (GetSpell w) members)
             <-> spell = GetSpell w /\ In (mkGroupReference (Some player) true) members).
  { intros members. unfold group_auras. rewrite in_flat_map. split.
    - intros ([src same] & Hin & Hc). cbn [getSource SameSubGroup] in Hc.
      destruct src as [p|]; [|destruct Hc]. destruct same; [|destruct Hc].
      destruct Hc as [Hc|[]]. inversion Hc; subst. auto.
    - intros [-> Hin]. eexists. split; [exact Hin|]. cbn. auto. }
  unfold UnSummon. rewrite !in_app_iff. split.
  - intros [H|[H|[H|H]]].
    + cbn in H. intuition discriminate.
    + destruct (GetOwner w) as [owner|]; [|destruct H].
      rewrite !in_app_iff in H. destruct H as [H|[H|H]].
      * cbn in H. intuition discriminate.
      * destruct (GetTypeId owner) eqn:Hty; cbn [is_player] in H; [destruct H|].
        rewrite in_app_iff in H. destruct H as [H|H]; [cbn in H; intuition discriminate|].
        destruct (GetGroup owner) as [pGroup|] eqn:Hgr; [|destruct H].
        apply Hg in H as [-> Hin]. split; [reflexivity|]. exists owner, pGroup. auto.
      * destruct (AI owner); cbn in H; intuition discriminate.
    + destruct (IsAlive w); cbn in H; intuition discriminate.
    + cbn in H. intuition discriminate.
  - intros (-> & owner & pGroup & Ho & Hty & Hgr & Hin).
    right. left. rewrite Ho, !in_app_iff. right. left.
    rewrite Hty. cbn [is_player]. rewrite in_app_iff. right. rewrite Hgr.
    apply Hg. auto.
Qed.

(** X24: what a new totem casts when it is summoned, after its type has
    been set from the summon spell: nothing without a spell; else on its owner
    if the summon spell has the statue icon 2056, which wins over a cast
    time; else nothing if the spell of the totem has a cast time; else on
    itself. *)
Theorem summon_cast {P : Platform} w owner totemSpell icon :
  let t := SetTypeBySummonSpell totemSpell icon Totem_new in
  let casts := filter (fun c => match c with CastSpell _ _ => true | _ => false end)
                      (Summon w owner t) in
  m_duration t = 0
  /\ casts
     = if GetSpell w =? 0 then []
       else if icon =? 2056
            then [CastSpell (option_map (fun _ => TheOwner) (GetOwner w)) (GetSpell w)]
            else match totemSpell with
                 | Some castTime =>
                   if castTime =? 0 then [CastSpell (Some Self) (GetSpell w)] else []
                 | None => [CastSpell (Some Self) (GetSpell w)]
                 end.
Proof.
  cbv zeta. unfold SetTypeBySummonSpell, Summon, Totem_new.
  split.
  - destruct totemSpell as [c|]; [destruct (c =? 0)|]; destruct (icon =? 2056); reflexivity.
  - rewrite !filter_app.
    destruct (AI owner); destruct (BUILD_ELUNA && GetEluna w); destruct (GetSpell w =? 0);
      destruct (icon =? 2056); destruct totemSpell as [c|]; try destruct (c =? 0);
      reflexivity.
Qed.

End TotemProperties.

Section TotemRuns.

Import Totem.

Lemma totem_time_budget_witness :
  let r := updates [sample_tick 400; Totem.mkTick ownerless_world 100 0; sample_tick 700]
             sample_totem in
  m_duration (fst r) + forwarded (snd r) = 1000
  /\ is_uint32 (m_duration (fst r))
  /\ m_type (fst r) = TOTEM_PASSIVE.
Proof.
  apply (@totem_time_budget
           [sample_tick 400; Totem.mkTick ownerless_world 100 0; sample_tick 700]
           sample_totem).
  - unfold is_uint32. cbn. lia.
  - repeat constructor; unfold is_uint32; cbn; lia.
Defined.

Lemma totem_expires_on_time_witness :
  let before := [sample_tick 400; sample_tick 400] in
  let k := sample_tick 200 in
  let t1 := fst (updates before sample_totem) in
  snd (updates before sample_totem)
  = map (fun k => Creature_Update (update_diff k) (time k)) before
  /\ unsummoned (snd (updates before sample_totem)) = false
  /\ m_duration t1 = 1000 - elapsed before
  /\ Update (world k) (update_diff k) (time k) t1 = (t1, UnSummon (world k))
  /\ exists calls,
      UnSummon (world k) = calls ++ [SetDeathState_DEAD; AddObjectToRemoveList].
Proof.
  apply (@totem_expires_on_time [sample_tick 400; sample_tick 400] (sample_tick 200)
           sample_totem).
  - unfold is_uint32. cbn. lia.
  - repeat constructor; unfold is_uint32; cbn; lia.
  - unfold is_uint32. cbn. lia.
  - reflexivity.
  - cbn. lia.
Defined.

Lemma totem_does_not_outlive_owner_witness :
  Update ownerless_world 1 0 sample_totem = (sample_totem, UnSummon ownerless_world)
  /\ forwarded (UnSummon ownerless_world) = 0
  /\ unsummoned (UnSummon ownerless_world) = true
  /\ (In SetDeathState_DEAD (UnSummon ownerless_world) <-> IsAlive ownerless_world = true).
Proof.
  apply (@totem_does_not_outlive_owner ownerless_world 1 0 sample_totem).
  reflexivity.
Defined.

End TotemRuns.
